(** * Verification of the wireframe renderer (render_wireframes.py)

    Shallow embedding of the layout and rendering engine.  Python values
    are modelled as they reach the renderer after [json.load]:

    - a Python [str] is a list of Unicode code points ([pystr]);
    - a JSON value is [json]; numbers are integers (the renderer never
      reads a float out of the input);
    - a raised Python exception is [Err]; every function that may raise
      returns [res].

    SVG output is kept structured: each call of [rect], [text], [line] or
    [button] appends one [elem] to the buffer, whose printed form is the
    f-string of the corresponding Python helper.  Coordinates are rationals
    (the Python code mixes [int] and [float]; the float constants 0.55,
    0.28, 0.86 and 0.82 are read as the rationals they denote). *)

From Stdlib Require Import ZArith QArith List Bool Ascii String Lia Lqa.
From Stdlib Require Import Numbers.DecimalString QArith.Qround QArith.Qminmax.
Import ListNotations.

Set Warnings "-register-all".
Open Scope string_scope.
Open Scope list_scope.
Open Scope Z_scope.

(* ================================================================= *)
(** ** Python values *)

(** A Python string: a sequence of code points. *)
Definition pystr := list N.

(** A string literal of the source (ASCII only) as a Python string. *)
Definition py (s : string) : pystr :=
  map N_of_ascii (list_ascii_of_string s).

(** U+2026 HORIZONTAL ELLIPSIS, the "…" of the source. *)
Definition ELLIPSIS : N := 8230%N.
(** U+2022 BULLET, the "•" of the source. *)
Definition BULLET : N := 8226%N.

Inductive json : Type :=
| JNull
| JBool (b : bool)
| JInt (z : Z)
| JStr (s : pystr)
| JList (l : list json)
| JObj (kv : list (pystr * json)).

Inductive exn : Type := AttributeError | TypeError | IndexError | KeyError.

Inductive res (A : Type) : Type :=
| Ok (a : A)
| Err (e : exn).
Arguments Ok {A} a.
Arguments Err {A} e.

Definition bind {A B : Type} (m : res A) (k : A -> res B) : res B :=
  match m with
  | Ok a => k a
  | Err e => Err e
  end.

Notation "'let*' x ':=' m 'in' k" := (bind m (fun x => k))
  (at level 200, x name, m at level 100, k at level 200).
Notation "'let*' ' p ':=' m 'in' k" := (bind m (fun p => k))
  (at level 200, p pattern, m at level 100, k at level 200).

Definition pystr_eqb (a b : pystr) : bool :=
  if list_eq_dec N.eq_dec a b then true else false.

(** Python truthiness of a JSON value. *)
Definition truthy (j : json) : bool :=
  match j with
  | JNull => false
  | JBool b => b
  | JInt z => negb (Z.eqb z 0)
  | JStr s => negb (Nat.eqb (List.length s) 0)
  | JList l => negb (Nat.eqb (List.length l) 0)
  | JObj kv => negb (Nat.eqb (List.length kv) 0)
  end.

(** [a or b] *)
Definition py_or (a b : json) : json := if truthy a then a else b.

(** [d.get(k, default)]: only a dict has a [get] method. *)
Definition py_get (d : json) (k : string) (default : json) : res json :=
  match d with
  | JObj kv =>
      match find (fun p => pystr_eqb (fst p) (py k)) kv with
      | Some (_, v) => Ok v
      | None => Ok default
      end
  | _ => Err AttributeError
  end.

(** [len(x)] *)
Definition py_len (j : json) : res Z :=
  match j with
  | JStr s => Ok (Z.of_nat (List.length s))
  | JList l => Ok (Z.of_nat (List.length l))
  | JObj kv => Ok (Z.of_nat (List.length kv))
  | _ => Err TypeError
  end.

(** Iterating over a value in a [for] loop. *)
Definition py_iter (j : json) : res (list json) :=
  match j with
  | JList l => Ok l
  | JStr s => Ok (map (fun c => JStr [c]) s)
  | JObj kv => Ok (map (fun p => JStr (fst p)) kv)
  | _ => Err TypeError
  end.

(** [s[:k]] with Python's treatment of a negative bound. *)
Definition slice_to {A : Type} (l : list A) (k : Z) : list A :=
  if 0 <=? k then firstn (Z.to_nat k) l
  else firstn (Z.to_nat (Z.of_nat (List.length l) + k)) l.

(** [str.isspace] for one code point. *)
Definition is_space (c : N) : bool :=
  ((9 <=? c) && (c <=? 13))%N || ((28 <=? c) && (c <=? 32))%N
  || (c =? 133)%N || (c =? 160)%N || (c =? 5760)%N
  || ((8192 <=? c) && (c <=? 8202))%N || (c =? 8232)%N || (c =? 8233)%N
  || (c =? 8239)%N || (c =? 8287)%N || (c =? 12288)%N.

Fixpoint drop_while (p : N -> bool) (s : pystr) : pystr :=
  match s with
  | [] => []
  | c :: s' => if p c then drop_while p s' else s
  end.

Definition lstrip_by (p : N -> bool) (s : pystr) : pystr := drop_while p s.
Definition rstrip_by (p : N -> bool) (s : pystr) : pystr :=
  rev (drop_while p (rev s)).
Definition strip_by (p : N -> bool) (s : pystr) : pystr :=
  rstrip_by p (lstrip_by p s).

(** [s.strip()] and [s.rstrip()] *)
Definition strip (s : pystr) : pystr := strip_by is_space s.
Definition rstrip (s : pystr) : pystr := rstrip_by is_space s.

(** [str.lower] for one code point: ASCII, Latin-1 and the two code
    points whose lower case is ASCII (KELVIN SIGN, and CAPITAL I WITH DOT
    ABOVE, which lowers to "i" and a combining dot). *)
Definition lower_char (c : N) : pystr :=
  if ((65 <=? c) && (c <=? 90))%N then [(c + 32)%N]
  else if ((192 <=? c) && (c <=? 222) && negb (c =? 215))%N then [(c + 32)%N]
  else if (c =? 8490)%N then [107%N]
  else if (c =? 304)%N then [105%N; 775%N]
  else [c].

Definition upper_char (c : N) : pystr :=
  if ((97 <=? c) && (c <=? 122))%N then [(c - 32)%N]
  else if ((224 <=? c) && (c <=? 254) && negb (c =? 247))%N then [(c - 32)%N]
  else [c].

Definition py_lower (s : pystr) : pystr := flat_map lower_char s.
Definition py_upper (s : pystr) : pystr := flat_map upper_char s.

(** [s.replace(a, b)] for single-character [a] and [b]. *)
Definition replace_char (a b : N) (s : pystr) : pystr :=
  map (fun c => if (c =? a)%N then b else c) s.

(** [s.split()] : maximal runs of non-space characters. *)
Fixpoint split_ws_acc (cur : pystr) (s : pystr) : list pystr :=
  match s with
  | [] => match cur with [] => [] | _ => [rev cur] end
  | c :: s' =>
      if is_space c then
        match cur with
        | [] => split_ws_acc [] s'
        | _ => rev cur :: split_ws_acc [] s'
        end
      else split_ws_acc (c :: cur) s'
  end.
Definition split_ws (s : pystr) : list pystr := split_ws_acc [] s.

(** [sep.join(parts)] *)
Fixpoint join (sep : pystr) (parts : list pystr) : pystr :=
  match parts with
  | [] => []
  | [p] => p
  | p :: ps => p ++ sep ++ join sep ps
  end.

(** [" ".join(s.split())] *)
Definition squash_ws (s : pystr) : pystr := join (py " ") (split_ws s).

(** Decimal text of an integer, as [str(n)]. *)
Definition z_text (z : Z) : pystr := py (NilZero.string_of_int (Z.to_int z)).

(** [str(x)] of a JSON value; strings nested in a container are shown
    between single quotes (escapes inside them are not modelled). *)
Fixpoint py_str (j : json) : pystr :=
  let repr (j : json) :=
    match j with JStr s => py "'" ++ s ++ py "'" | _ => py_str j end in
  match j with
  | JNull => py "None"
  | JBool true => py "True"
  | JBool false => py "False"
  | JInt z => z_text z
  | JStr s => s
  | JList l =>
      py "[" ++ join (py ", ")
        ((fix go (l : list json) : list pystr :=
            match l with [] => [] | x :: r => repr x :: go r end) l)
      ++ py "]"
  | JObj kv =>
      py "{" ++ join (py ", ")
        ((fix go (kv : list (pystr * json)) : list pystr :=
            match kv with
            | [] => []
            | (k, v) :: r => (py "'" ++ k ++ py "': " ++ repr v) :: go r
            end) kv)
      ++ py "}"
  end.

(** [x.strip()] on an arbitrary value: only a [str] has the method. *)
Definition py_strip (j : json) : res pystr :=
  match j with
  | JStr s => Ok (strip s)
  | _ => Err AttributeError
  end.

(* ================================================================= *)
(** ** Utilities (render_wireframes.py, lines 38-110) *)

Definition ALLOWED_FN (c : N) : bool :=
  ((97 <=? c) && (c <=? 122))%N || ((48 <=? c) && (c <=? 57))%N || (c =? 45)%N.

(** [re.sub(pattern, rep, s)] for a pattern [[...]+] matching maximal runs
    of characters in a class [p]. *)
Fixpoint sub_runs (p : N -> bool) (rep : pystr) (in_run : bool) (s : pystr)
  : pystr :=
  match s with
  | [] => []
  | c :: s' =>
      if p c then
        (if in_run then [] else rep) ++ sub_runs p rep true s'
      else c :: sub_runs p rep false s'
  end.

Definition is_hyphen (c : N) : bool := (c =? 45)%N.

(** [safe_filename(s)] *)
Definition safe_filename (s : json) : res pystr :=
  let* t := py_strip s in
  let t := py_lower t in
  let t := sub_runs (fun c => negb (ALLOWED_FN c)) (py "-") false t in
  let t := strip_by is_hyphen (sub_runs is_hyphen (py "-") false t) in
  Ok (match t with [] => py "page" | _ => t end).

(** [truncate(text, max_len)] *)
Definition truncate (text : json) (max_len : Z) : res pystr :=
  let* t := py_strip (py_or text (JStr [])) in
  if Z.of_nat (List.length t) <=? max_len then Ok t
  else Ok (rstrip (slice_to t (max_len - 1)) ++ [ELLIPSIS]).

(** [approx_text_width(label)] = [int(len(label or "") * 7.0)] *)
Definition approx_text_width (label : json) : res Z :=
  let* n := py_len (py_or label (JStr [])) in Ok (n * 7).

(** [canon(s)] *)
Definition canon (s : json) : res pystr :=
  let* t := py_strip (py_or s (JStr [])) in
  Ok (replace_char 32 45 (replace_char 95 45 (py_lower t))).

(** [s.replace(a, rep)] for a one-character pattern [a]. *)
Definition replace_one (a : N) (rep : pystr) (s : pystr) : pystr :=
  flat_map (fun c => if (c =? a)%N then rep else [c]) s.

(** [escape_xml(text)] (lines 45-52): five chained replacements, the
    ampersand first. *)
Definition escape_xml (text : pystr) : pystr :=
  replace_one 39 (py "&apos;")
    (replace_one 34 (py "&quot;")
       (replace_one 62 (py "&gt;")
          (replace_one 60 (py "&lt;")
             (replace_one 38 (py "&amp;") text)))).

(* ================================================================= *)
(** ** Content accessors (lines 68-110) *)

Fixpoint mapM {A B : Type} (f : A -> res B) (l : list A) : res (list B) :=
  match l with
  | [] => Ok []
  | x :: r => let* y := f x in let* ys := mapM f r in Ok (y :: ys)
  end.

Fixpoint filterM {A : Type} (f : A -> res bool) (l : list A) : res (list A) :=
  match l with
  | [] => Ok []
  | x :: r =>
      let* b := f x in let* ys := filterM f r in Ok (if b then x :: ys else ys)
  end.

(** The first element satisfying [f], evaluating [f] only up to it. *)
Fixpoint findM {A : Type} (f : A -> res bool) (l : list A) : res (option A) :=
  match l with
  | [] => Ok None
  | x :: r => let* b := f x in if b then Ok (Some x) else findM f r
  end.

(** [sec.get("components") or []], iterated. *)
Definition components_of (sec : json) : res (list json) :=
  let* cs := py_get sec "components" JNull in py_iter (py_or cs (JList [])).

(** [canon(c.get("type"))] of a component. *)
Definition comp_kind (c : json) : res pystr :=
  let* t := py_get c "type" JNull in canon t.

Definition find_components (sec : json) (types_ : list string) : res (list json) :=
  let* wanted := mapM (fun t => canon (JStr (py t))) types_ in
  let* cs := components_of sec in
  filterM (fun c => let* k := comp_kind c in
                    Ok (existsb (pystr_eqb k) wanted)) cs.

Definition first_of_kind (kind : string) (sec : json) : res (option json) :=
  let* cs := components_of sec in
  findM (fun c => let* k := comp_kind c in Ok (pystr_eqb k (py kind))) cs.

Definition first_text_like (sec : json) : res (option json) :=
  first_of_kind "text" sec.
Definition first_button (sec : json) : res (option json) :=
  first_of_kind "button" sec.

(** [[str(x) for x in xs if str(x).strip()]] *)
Definition nonblank_strs (xs : list json) : list pystr :=
  map py_str (filter (fun x => negb (Nat.eqb (List.length (strip (py_str x))) 0)) xs).

Definition list_items_from_component (c : json) : res (list pystr) :=
  let* items := py_get c "items" JNull in
  match items with
  | JList (_ :: _) as l =>
      match l with JList xs => Ok (nonblank_strs xs) | _ => Ok [] end
  | _ =>
      let* fields := py_get c "fields" JNull in
      match fields with
      | JList ((_ :: _) as xs) => Ok (nonblank_strs xs)
      | _ => Ok []
      end
  end.

Definition best_text_for_component (c : json) (fallback : json) : res json :=
  let* ph0 := py_get c "placeholder" JNull in
  let* ph := py_strip (py_or ph0 (JStr [])) in
  match ph with
  | _ :: _ => Ok (JStr ph)
  | [] =>
      let* lab0 := py_get c "label" JNull in
      let* lab := py_strip (py_or lab0 (JStr [])) in
      match lab with
      | _ :: _ => Ok (JStr lab)
      | [] => Ok fallback
      end
  end.

(* ================================================================= *)
(** ** Section height calculator (lines 308-421) *)

Definition SECTION_PAD : Z := 18.
Definition SECTION_GAP : Z := 18.
Definition COMP_H : Z := 34.
Definition COMP_GAP : Z := 10.

Definition clamp (lo hi n : Z) : Z := Z.max lo (Z.min hi n).

(** [max(lo, min(hi, len(items)))] of the first component of [kind], or
    [dflt] when there is none or it has no items. *)
Definition item_rows (sec : json) (kind : string) (lo hi dflt : Z) : res Z :=
  let* cs := find_components sec [kind] in
  match cs with
  | c :: _ =>
      let* items := list_items_from_component c in
      match items with
      | [] => Ok dflt
      | _ => Ok (clamp lo hi (Z.of_nat (List.length items)))
      end
  | [] => Ok dflt
  end.

Definition FORM_FIELD_KINDS : list string :=
  ["form-field"; "form_field"; "field"; "input"; "textarea"; "select";
   "checkbox"; "radio"].

Definition in_strs (st : pystr) (l : list string) : bool :=
  existsb (fun t => pystr_eqb st (py t)) l.

Definition _inner_bottom_for_section (st0 : pystr) (sec : json) (inner_y : Z)
  : res Z :=
  let* st := canon (JStr st0) in
  if pystr_eqb st (py "hero") then
    let img_h := 240 in
    let b := inner_y + img_h in
    let b := Z.max b (inner_y + 240) in
    Ok (b + 14)
  else if pystr_eqb st (py "features") then
    let* cards := find_components sec ["cards"] in
    let* _cards_count :=
      match cards with
      | c :: _ =>
          let* items := list_items_from_component c in
          match items with
          | [] => Ok 3
          | _ => Ok (clamp 3 6 (Z.of_nat (List.length items)))
          end
      | [] =>
          let* h3 := py_get sec "h3" JNull in
          match py_or h3 (JList []) with
          | JList ((_ :: _) as l) => Ok (clamp 3 6 (Z.of_nat (List.length l)))
          | _ => Ok 3
          end
      end in
    Ok (inner_y + 140 + 14)
  else if pystr_eqb st (py "content") then
    let divider_y := inner_y + 120 in
    let heading_y := divider_y + 48 in
    let* bullet_rows := item_rows sec "list" 4 12 4 in
    let bullets_start_y := heading_y + 32 in
    let bullets_end_y := bullets_start_y + bullet_rows * 22 in
    let* texts := find_components sec ["text"] in
    let text_count := Z.of_nat (List.length texts) in
    let para_extra := Z.max 0 (text_count - 1) * 22 in
    let bottom := Z.max bullets_end_y (inner_y + 96 + para_extra) in
    Ok (bottom + 18)
  else if pystr_eqb st (py "faq") then
    let* faq_items := item_rows sec "accordion" 4 10 4 in
    Ok (inner_y + faq_items * 44 + 10)
  else if pystr_eqb st (py "proof") then
    let* quotes := find_components sec ["quote"] in
    match quotes with
    | _ :: _ => Ok (inner_y + 90 + 14)
    | [] =>
        let* stats := find_components sec ["stats"] in
        match stats with
        | _ :: _ => Ok (inner_y + 110 + 14)
        | [] => Ok (inner_y + 90 + 14)
        end
    end
  else if pystr_eqb st (py "steps") then
    let* steps := item_rows sec "list" 3 8 3 in
    Ok (inner_y + steps * 36 + 18)
  else if pystr_eqb st (py "form") then
    let* ff := find_components sec FORM_FIELD_KINDS in
    let fields_count :=
      match ff with
      | [] => 3
      | _ => clamp 3 6 (Z.of_nat (List.length ff))
      end in
    Ok (inner_y + 70 + fields_count * 36 + 18)
  else if in_strs st ["cta"; "footer-cta"; "footer_cta"; "cta-section";
                      "call-to-action"] then
    Ok (inner_y + 90 + 34 + 18)
  else
    let* comps0 := py_get sec "components" (JList []) in
    let comps := py_or comps0 (JList []) in
    let* rows := if truthy comps then
                   let* n := py_len comps in Ok (Z.min 6 n)
                 else Ok 3 in
    Ok (inner_y + rows * (COMP_H + COMP_GAP) + 18).

(** The [min_total] table of [section_height_for]. *)
Definition MIN_TOTAL : list (string * Z) :=
  [("hero", 360); ("features", 260); ("content", 280); ("proof", 210);
   ("steps", 240); ("faq", 220); ("cta", 160); ("call-to-action", 160);
   ("form", 240); ("gallery", 240); ("footer_cta", 160); ("footer-cta", 160);
   ("section", 220)].

(** [{...}.get(st, 220)] *)
Definition min_total (st : pystr) : Z :=
  match find (fun p => pystr_eqb st (py (fst p))) MIN_TOTAL with
  | Some (_, v) => v
  | None => 220
  end.

Definition section_height_for (sec : json) : res Z :=
  let* ty := py_get sec "type" JNull in
  let* st := canon ty in
  let header_block := 72 in
  let* inner_bottom := _inner_bottom_for_section st sec 0 in
  Ok (Z.max (min_total st) (header_block + inner_bottom + 8)).

(* ================================================================= *)
(** ** SVG elements (lines 233-256) *)

(** One call of a drawing helper: [rect], [text], [line] or [button];
    [ERaw] is a fixed piece of markup written directly by the page
    composer. *)
Inductive elem : Type :=
| ERect (x y w h : Q) (cls : string) (rx : Z)
| EText (x y : Q) (t : pystr) (extra_cls : string) (anchor : option string)
| ELine (x1 y1 x2 y2 : Q) (cls : string)
| EButton (x y w h : Q) (label : pystr) (dark : bool)
| ERaw (markup : string).

(** [int(q)] for a float [q]: truncation toward zero. *)
Definition py_int (q : Q) : Z :=
  if Qle_bool 0 q then Qfloor q else - Qfloor (- q).

Definition SHOW_SEMANTIC_OVERLAY : bool := true.

Definition FILLER : pystr := py "Additional point...".

(** [lst.append(v)] until [len(lst) == rows] *)
Definition pad_to {A : Type} (rows : nat) (v : A) (l : list A) : list A :=
  l ++ repeat v (rows - List.length l).

(** [text(x, y, "• " + truncate(s, n), extra_cls="small")] for row [i]. *)
Definition bullet_text (bx col_y : Q) (n : Z) (i : nat) (s : pystr) : elem :=
  EText (bx + 6) (col_y + inject_Z (Z.of_nat i) * 22)%Q
    ([BULLET] ++ py " " ++
       match truncate (JStr s) n with Ok t => t | Err _ => [] end)
    "small" None.

Fixpoint bullet_rows_from (bx col_y : Q) (n : Z) (i : nat) (l : list pystr)
  : list elem :=
  match l with
  | [] => []
  | s :: r => bullet_text bx col_y n i s :: bullet_rows_from bx col_y n (S i) r
  end.

(** The bulleted block of a [content] section (lines 598-677), drawn
    under the secondary heading at [heading_y]; [bullet_items_raw] is the
    item list of the first [list] component. *)
Definition bullet_block (inner_x inner_w heading_y : Q)
  (bullet_items_raw : list pystr) : list elem :=
  let use_two_cols := (8 <=? List.length bullet_items_raw)%nat in
  let col_y := (heading_y + 32)%Q in
  let row_h := 22%Q in
  let col_gap := 26%Q in
  if use_two_cols then
    let items := firstn 12 bullet_items_raw in
    let left_n := ((List.length items + 1) / 2)%nat in
    let left_col := firstn left_n items in
    let right_col := skipn left_n items in
    let rows := Nat.max 4 (Nat.max (List.length left_col) (List.length right_col)) in
    let left_col := pad_to rows FILLER left_col in
    let right_col := pad_to rows FILLER right_col in
    let col_w := ((inner_w - col_gap) / 2)%Q in
    let split_x := (inner_x + col_w + col_gap / 2)%Q in
    let divider_top := (col_y - 6)%Q in
    let divider_bottom := (col_y + inject_Z (Z.of_nat rows) * row_h + 6)%Q in
    [ELine split_x divider_top split_x divider_bottom "imgx"]
    ++ bullet_rows_from inner_x col_y 34 0 (firstn rows left_col)
    ++ bullet_rows_from (inner_x + 1 * (col_w + col_gap))%Q col_y 34 0
         (firstn rows right_col)
  else
    let items := firstn 10 bullet_items_raw in
    let rows := Nat.max 4 (List.length items) in
    let items := pad_to rows FILLER items in
    let list_w := inject_Z (py_int (inner_w * (55 # 100))) in
    let img_x := (inner_x + list_w + col_gap)%Q in
    let img_w := (inner_w - list_w - col_gap)%Q in
    let split_x := (inner_x + list_w + col_gap / 2)%Q in
    let divider_top := (col_y - 6)%Q in
    let content_h := (inject_Z (Z.of_nat rows) * row_h + 18)%Q in
    let divider_bottom := (col_y + content_h + 6)%Q in
    let img_h := Qmin 240 content_h in
    let ph_w := inject_Z (py_int (img_w * (86 # 100))) in
    let ph_h := inject_Z (py_int (img_h * (82 # 100))) in
    let ph_x := (img_x + (img_w - ph_w) / 2)%Q in
    let ph_y := (col_y + (content_h - ph_h) / 2)%Q in
    [ELine split_x divider_top split_x divider_bottom "imgx"]
    ++ bullet_rows_from inner_x col_y 52 0 (firstn rows items)
    ++ [ERect ph_x ph_y ph_w ph_h "sketch-dash" 12;
        ELine (ph_x + 10) (ph_y + 10) (ph_x + ph_w - 10) (ph_y + ph_h - 10) "imgx";
        ELine (ph_x + ph_w - 10) (ph_y + 10) (ph_x + 10) (ph_y + ph_h - 10) "imgx";
        EText (ph_x + 14) (ph_y + 24) (py "IMAGE") "small muted" None].

(* ================================================================= *)
(** ** Section rendering (lines 427-779) *)

(** [best_text_for_component(c, fb) if c else fb] *)
Definition text_or (c : option json) (fb : string) : res json :=
  match c with
  | Some c => if truthy c then best_text_for_component c (JStr (py fb))
              else Ok (JStr (py fb))
  | None => Ok (JStr (py fb))
  end.

(** [" ".join(str(v or "").split())] *)
Definition squash_json (v : json) : pystr := squash_ws (py_str (py_or v (JStr []))).

(** [(v or d).upper()] *)
Definition upper_or (v : json) (d : string) : res pystr :=
  match py_or v (JStr (py d)) with
  | JStr s => Ok (py_upper s)
  | _ => Err AttributeError
  end.

(** The per-section context computed before the type dispatch. *)
Record sctx : Type := {
  sx : Q; sy : Q; sw : Q;
  s_label : pystr; s_h2 : pystr; s_h3 : list json;
  s_inner_x : Q; s_inner_y : Q; s_inner_w : Q
}.

Definition draw_hero (c : sctx) (sec : json) : res (list elem) :=
  let '(x, w, ix, iy, iw) := (sx c, sw c, s_inner_x c, s_inner_y c, s_inner_w c) in
  let img_h := 280%Q in
  let* headline := truncate (JStr (s_h2 c)) 44 in
  let title_y := (iy + 118)%Q in
  let subtitle0 := match s_h3 c with h :: _ => py_str h | [] => [] end in
  let* subtitle := truncate (JStr (squash_ws subtitle0)) 78 in
  let subtitle_y := (title_y + 28)%Q in
  let* btn := first_button sec in
  let* btn_label0 := text_or btn "Learn More" in
  let* btn_label := truncate (JStr (squash_json btn_label0)) 28 in
  let btn_w := Z.max 120 (Z.min 300 (46 + Z.of_nat (List.length btn_label) * 9)) in
  let btn_x := (x + w / 2 - inject_Z btn_w / 2)%Q in
  let content_bottom_y := match subtitle with [] => title_y | _ => subtitle_y end in
  let btn_y := (content_bottom_y + 26)%Q in
  let* cap := first_text_like sec in
  let* cap0 := text_or cap "Caption size text here with a link" in
  let* cap_text := truncate (JStr (squash_json cap0)) 78 in
  let cap_y := (btn_y + 34 + 18)%Q in
  Ok ([ERect ix iy iw img_h "imgph" 10;
       ELine (ix + 10) (iy + 10) (ix + iw - 10) (iy + img_h - 10) "imgx";
       ELine (ix + iw - 10) (iy + 10) (ix + 10) (iy + img_h - 10) "imgx";
       EText (x + w / 2) title_y headline "h1" (Some "middle")]
      ++ (match subtitle with
          | [] => []
          | _ => [EText (x + w / 2) subtitle_y subtitle "small muted" (Some "middle")]
          end)
      ++ [EButton btn_x btn_y (inject_Z btn_w) 34 btn_label false;
          EText (x + w / 2) cap_y cap_text "small nav-link" (Some "middle")]).

Definition draw_features (c : sctx) (sec : json) : res (list elem) :=
  let '(ix, iy, iw) := (s_inner_x c, s_inner_y c, s_inner_w c) in
  let card_gap := 16%Q in
  let card_w := ((iw - 2 * card_gap) / 3)%Q in
  let* cards := find_components sec ["cards"] in
  let* titles0 :=
    match cards with
    | k :: _ => let* items := list_items_from_component k in
                Ok (map JStr (firstn 3 items))
    | [] => Ok []
    end in
  let titles1 := match titles0, s_h3 c with
                 | [], (_ :: _) as h3 => firstn 3 h3
                 | t, _ => t
                 end in
  let titles := titles1 ++
    map (fun n => JStr (s_label c ++ py " " ++ z_text (Z.of_nat n)))
        (seq (S (List.length titles1)) (3 - List.length titles1)) in
  let* t := first_text_like sec in
  let* body0 := text_or t "Lorem ipsum dolor sit amet," in
  let* body := truncate body0 44 in
  let* b := first_button sec in
  let* bl0 := text_or b "Learn More" in
  let* btn_label := truncate bl0 18 in
  let* cards_out := mapM (fun i =>
      let cx := (ix + inject_Z (Z.of_nat i) * (card_w + card_gap))%Q in
      let* title := truncate (nth i titles JNull) 20 in
      Ok [ERect cx iy card_w 140 "sketch" 12;
          EText (cx + 12) (iy + 28) (py_upper title) "small" None;
          EText (cx + 12) (iy + 54) body "small muted" None;
          EButton (cx + 12) (iy + 92) 110 30 btn_label false]) (seq 0 3) in
  Ok (List.concat cards_out).

Definition PARA_FILLER : pystr := py "Lorem ipsum dolor sit amet, consectetur".

Definition draw_content (c : sctx) (sec : json) : res (list elem) :=
  let '(ix, iy, iw) := (s_inner_x c, s_inner_y c, s_inner_w c) in
  let left_w := py_int (iw * (28 # 100)) in
  let rx := (ix + inject_Z left_w + 18)%Q in
  let* lists := find_components sec ["list"] in
  let* left0 := match lists with
                | l :: _ => let* items := list_items_from_component l in
                            Ok (firstn 3 items)
                | [] => Ok [] end in
  let left_lines := match left0 with
                    | [] => map (fun i => s_label c ++ py " item " ++ z_text (Z.of_nat i))
                                (seq 1 3)
                    | l => l end in
  let line_at i := nth i left_lines [] in
  let* l0 := truncate (JStr (line_at 0%nat)) 22 in
  let* l1 := truncate (JStr (line_at 1%nat)) 22 in
  let* l2 := truncate (JStr (line_at 2%nat)) 22 in
  let* subtitle := match s_h3 c with
                   | h :: _ => truncate h 60
                   | [] => truncate (JStr (s_label c)) 60 end in
  let* texts := find_components sec ["text"] in
  let* paras := mapM (fun t => let* bt := best_text_for_component t
                                 (JStr (py "Lorem ipsum dolor sit amet.")) in
                               truncate bt 52) (firstn 3 texts) in
  let paras := pad_to 3 PARA_FILLER paras in
  let divider_y := (iy + 120)%Q in
  let heading_y := (divider_y + 48)%Q in
  let* lab := py_get sec "label" JNull in
  let* heading0 := upper_or lab "CONTENT" in
  let* heading := truncate (JStr heading0) 36 in
  let* raw := match lists with
              | l :: _ => list_items_from_component l
              | [] => Ok [] end in
  Ok ([EText (ix + 6) (iy + 22) l0 "small" None;
       EText (ix + 6) (iy + 40) l1 "small" None;
       EText (ix + 6) (iy + 58) l2 "small" None;
       EText rx (iy + 24) (py_upper subtitle) "h2" None;
       EText rx (iy + 52) (nth 0 paras []) "small muted" None;
       EText rx (iy + 70) (nth 1 paras []) "small muted" None;
       EText rx (iy + 88) (nth 2 paras []) "small muted" None;
       ELine (ix + 10) divider_y (ix + iw - 10) divider_y "imgx";
       EText (ix + 6) heading_y heading "h2" None]
      ++ bullet_block ix iw heading_y raw).

Definition draw_steps (c : sctx) (sec : json) : res (list elem) :=
  let '(ix, iy, iw) := (s_inner_x c, s_inner_y c, s_inner_w c) in
  let* lst := find_components sec ["list"] in
  let* items0 := match lst with
                 | l :: _ => list_items_from_component l
                 | [] => Ok [] end in
  let items := match items0 with
               | [] => map (fun i => py "Step " ++ z_text (Z.of_nat i)) (seq 1 3)
               | l => l end in
  let* rows := mapM (fun '(i, it) =>
      let yy := (iy + inject_Z (Z.of_nat i) * 36)%Q in
      let* t := truncate (JStr it) 90 in
      Ok [ERect ix yy iw 30 "sketch-dash" 10;
          EText (ix + 14) (yy + 20) (z_text (Z.of_nat (S i)) ++ py ". " ++ t)
                "small" None])
    (combine (seq 0 (List.length (firstn 8 items))) (firstn 8 items)) in
  Ok (List.concat rows).

Definition draw_proof (c : sctx) (sec : json) : res (list elem) :=
  let '(ix, iy, iw) := (s_inner_x c, s_inner_y c, s_inner_w c) in
  let* stats := find_components sec ["stats"] in
  match stats with
  | _ :: _ =>
      let* stats' := find_components sec ["stats"] in
      let* bt := best_text_for_component (nth 0 stats' JNull)
                   (JStr (py "[CONFIRM impact statistics]")) in
      let* t := truncate bt 90 in
      Ok [ERect ix iy iw 90 "sketch-dash" 12;
          EText (ix + 14) (iy + 24) (py "Impact Statistics") "small" None;
          EText (ix + 14) (iy + 48) t "small muted" None]
  | [] =>
      let* quotes := find_components sec ["quote"] in
      match quotes with
      | _ :: _ =>
          let* quotes' := find_components sec ["quote"] in
          let* bt := best_text_for_component (nth 0 quotes' JNull)
                       (JStr (py "Expert quote or testimonial")) in
          let* t := truncate bt 90 in
          Ok [ERect ix iy iw 70 "sketch-dash" 12;
              EText (ix + 14) (iy + 28) t "small" None]
      | [] =>
          Ok [ERect ix iy iw 70 "sketch-dash" 12;
              EText (ix + 14) (iy + 28) (py "Proof / Testimonial / Stats") "small" None]
      end
  end.

Definition draw_faq (c : sctx) (sec : json) : res (list elem) :=
  let '(ix, iy, iw) := (s_inner_x c, s_inner_y c, s_inner_w c) in
  let* acc := find_components sec ["accordion"] in
  let* items0 := match acc with
                 | a :: _ => list_items_from_component a
                 | [] => Ok [] end in
  let items := match items0 with
               | [] => map (fun i => py "FAQ item " ++ z_text (Z.of_nat i)) (seq 1 4)
               | l => l end in
  let* rows := mapM (fun '(i, it) =>
      let yy := (iy + inject_Z (Z.of_nat i) * 44)%Q in
      let* t := truncate (JStr it) 100 in
      Ok [ERect ix yy iw 34 "sketch-dash" 10;
          EText (ix + 14) (yy + 22) t "small" None])
    (combine (seq 0 (List.length (firstn 10 items))) (firstn 10 items)) in
  Ok (List.concat rows).

(** The labels of the input rows of a [form] section (lines 729-737). *)
Definition form_fields (sec : json) : res (list pystr) :=
  let* ff := find_components sec FORM_FIELD_KINDS in
  let* fields := mapM (fun c =>
      let* fb := py_get c "label" (JStr (py "Field")) in
      let* bt := best_text_for_component c fb in
      truncate bt 40) (firstn 6 ff) in
  match fields with
  | [] => Ok [py "Name"; py "Email"; py "Message"]
  | _ => Ok fields
  end.

(** One input row per label, from [yy] down, 36 apart. *)
Fixpoint form_rows (ix iw yy : Q) (fields : list pystr) : list elem :=
  match fields with
  | [] => []
  | f :: r => ERect ix yy iw 30 "sketch" 8 :: EText (ix + 12) (yy + 20) f "small muted" None
              :: form_rows ix iw (yy + 36)%Q r
  end.

Definition draw_form (c : sctx) (sec : json) : res (list elem) :=
  let '(ix, iy, iw) := (s_inner_x c, s_inner_y c, s_inner_w c) in
  let* fields := form_fields sec in
  let* title := truncate (JStr (s_h2 c)) 48 in
  let* sub := match s_h3 c with
              | h :: _ => truncate h 80
              | [] => Ok (py "Lorem ipsum dolor sit amet, consectetur adipiscing elit.")
              end in
  let shown := firstn 5 fields in
  let yy := (iy + 70 + inject_Z (Z.of_nat (List.length shown)) * 36)%Q in
  let* b := first_button sec in
  let* bl0 := text_or b "Send Message" in
  let* btn_label := truncate bl0 20 in
  Ok ([EText (ix + iw / 2) (iy + 26) title "h2" (Some "middle");
       EText (ix + iw / 2) (iy + 70) sub "small muted" (Some "middle")]
      ++ form_rows ix iw (iy + 70)%Q shown
      ++ [EButton (ix + iw - 150) (yy + 4) 150 34 btn_label true]).

Definition draw_cta (c : sctx) (sec : json) : res (list elem) :=
  let '(ix, iy, iw) := (s_inner_x c, s_inner_y c, s_inner_w c) in
  let* title := truncate (JStr (s_h2 c)) 50 in
  let* sub := match s_h3 c with
              | h :: _ => truncate h 90
              | [] => Ok (py "Lorem ipsum dolor sit amet, consectetur adipiscing elit.")
              end in
  let* b := first_button sec in
  let* bl0 := text_or b "Take Action" in
  let* btn_label := truncate bl0 20 in
  Ok [EText (ix + iw / 2) (iy + 34) title "h2" (Some "middle");
      EText (ix + iw / 2) (iy + 60) sub "small muted" (Some "middle");
      EButton (ix + iw / 2 - 70) (iy + 90) 140 34 btn_label false].

(** [{"type": "text", "label": "Placeholder content", "placeholder": ""}] *)
Definition PLACEHOLDER_COMP : json :=
  JObj [(py "type", JStr (py "text")); (py "label", JStr (py "Placeholder content"));
        (py "placeholder", JStr [])].

(** [comps[:6]], iterated. *)
Definition slice6 (j : json) : res (list json) :=
  match j with
  | JList l => Ok (firstn 6 l)
  | JStr s => Ok (map (fun ch => JStr [ch]) (firstn 6 s))
  | _ => Err TypeError
  end.

Definition draw_generic (c : sctx) (sec : json) : res (list elem) :=
  let '(ix, iy, iw) := (s_inner_x c, s_inner_y c, s_inner_w c) in
  let* comps0 := py_get sec "components" (JList []) in
  let comps := py_or comps0 (JList []) in
  let comps := if truthy comps then comps else JList (repeat PLACEHOLDER_COMP 3) in
  let* shown := slice6 comps in
  let* rows := mapM (fun '(i, comp) =>
      let cy := (iy + inject_Z (Z.of_nat i) * inject_Z (COMP_H + COMP_GAP))%Q in
      let* lab := best_text_for_component comp (JStr (py "Component")) in
      let* t := truncate lab 95 in
      Ok [ERect ix cy iw (inject_Z COMP_H) "sketch-dash" 10;
          EText (ix + 14) (cy + 22) t "small" None])
    (combine (seq 0 (List.length shown)) shown) in
  Ok (List.concat rows).

Definition CTA_KINDS : list string :=
  ["cta"; "call-to-action"; "cta-section"; "footer-cta"; "footer_cta";
   "footer-call-to-action"; "footer_call_to_action"].

(** The heading row: the semantic overlay line (lines 440-452). *)
Definition overlay_text (sec : json) : res pystr :=
  let* sem := py_get sec "semantic" (JObj []) in
  let* intent := py_get sem "intent" (JStr []) in
  let* facts := py_get sem "supporting_facts" (JList []) in
  let* intent_short :=
    match py_or intent (JStr []) with
    | JStr s =>
        let long := truthy intent && (60 <? Z.of_nat (List.length s)) in
        Ok (firstn 60 s ++ (if long then [ELLIPSIS] else []))
    | _ => Err TypeError
    end in
  let* nf := py_len facts in
  Ok (py "intent: " ++ intent_short ++ py " " ++ [BULLET] ++ py " facts: " ++ z_text nf).

(** The dispatch on the canonical type (lines 461-779). *)
Definition draw_body (st : pystr) (c : sctx) (sec : json) : res (list elem) :=
  if pystr_eqb st (py "hero") then draw_hero c sec
  else if pystr_eqb st (py "features") then draw_features c sec
  else if pystr_eqb st (py "content") then draw_content c sec
  else if pystr_eqb st (py "steps") then draw_steps c sec
  else if pystr_eqb st (py "proof") then draw_proof c sec
  else if pystr_eqb st (py "faq") then draw_faq c sec
  else if pystr_eqb st (py "form") then draw_form c sec
  else if in_strs st CTA_KINDS then draw_cta c sec
  else draw_generic c sec.

(** [draw_section(svg, x, y, w, sec, idx)]: the elements appended to
    [svg] and the returned [y + h + SECTION_GAP]. *)
Definition draw_section (x y w : Q) (sec : json) (idx : Z) : res (list elem * Q) :=
  let* ty := py_get sec "type" JNull in
  let* st := canon ty in
  let* sec_id := py_get sec "id" (JStr (py "section-" ++ z_text (idx + 1))) in
  let* lab0 := py_get sec "label" (py_or (JStr st) (JStr (py "Section"))) in
  let* label := truncate lab0 60 in
  let* h2_0 := py_get sec "h2" (JStr []) in
  let* h2t := truncate h2_0 80 in
  let h2 := match h2t with [] => label | _ => h2t end in
  let* h3_0 := py_get sec "h3" JNull in
  let h3 := match py_or h3_0 (JList []) with JList l => l | _ => [] end in
  let* h := section_height_for sec in
  let* overlay := if SHOW_SEMANTIC_OVERLAY then
                    let* o := overlay_text sec in
                    Ok [EText (x + 16) (y + 44) o "overlay" None]
                  else Ok [] in
  let head :=
    [ERect x y w (inject_Z h) "sketch" 14; EText (x + 16) (y + 28) h2 "h2" None]
    ++ overlay
    ++ [EText (x + 16) (y + 60) (st ++ py " " ++ [BULLET] ++ py " id: " ++ py_str sec_id)
              "small muted" None] in
  let c := {| sx := x; sy := y; sw := w; s_label := label; s_h2 := h2; s_h3 := h3;
              s_inner_x := (x + inject_Z SECTION_PAD)%Q; s_inner_y := (y + 72)%Q;
              s_inner_w := (w - 2 * inject_Z SECTION_PAD)%Q |} in
  let* body := draw_body st c sec in
  Ok (head ++ body, (y + inject_Z h + inject_Z SECTION_GAP)%Q).

(* ================================================================= *)
(** ** Navigation source (lines 262-301) *)

(** Observable effects of a render: an element appended to the document
    buffer, or a file opened for reading. *)
Inductive event : Type :=
| Draw (e : elem)
| ReadFile (name : string).

(** The state a render runs in: the module-level [_NAV_CACHE], the files
    of the working directory (the parsed JSON of each readable file; a
    missing or unparsable file is absent), the wall clock as formatted by
    [strftime("%Y-%m-%d %H:%M")], and the trace of effects so far. *)
Record world : Type := {
  nav_cache : option (list json);
  files : list (string * json);
  clock : pystr;
  trace : list event
}.

Definition with_cache (w : world) (c : list json) : world :=
  {| nav_cache := Some c; files := files w; clock := clock w; trace := trace w |}.

Definition emit (es : list elem) (w : world) : world :=
  {| nav_cache := nav_cache w; files := files w; clock := clock w;
     trace := trace w ++ map Draw es |}.

(** [with open(name) as f: json.load(f)]; [None] when it raises. *)
Definition load_json (name : string) (w : world) : option json * world :=
  (option_map snd (find (fun p => String.eqb (fst p) name) (files w)),
   {| nav_cache := nav_cache w; files := files w; clock := clock w;
      trace := trace w ++ [ReadFile name] |}).

Definition INPUT_JSON : string := "wireframes.enriched.json".

Definition DEFAULT_NAV : list json :=
  map (fun s => JStr (py s))
    ["Home"; "About"; "Objectives"; "Resources"; "Advocacy"; "Contact"].

(** Step 1: [[str(x) for x in nav if str(x).strip()]] when [primary_nav]
    is a non-empty list; [None] when the step does not assign the cache
    (or raises inside the [try]). *)
Definition sitemap_nav (sm : option json) : option (list json) :=
  match sm with
  | Some d =>
      match py_get d "primary_nav" JNull with
      | Ok (JList ((_ :: _) as nav)) => Some (map JStr (nonblank_strs nav))
      | _ => None
      end
  | None => None
  end.

Definition is_dict (j : json) : bool := match j with JObj _ => true | _ => false end.

(** Step 2: [[p.get("page") for p in pages if isinstance(p, dict) and
    p.get("page")]], or [[]] when the [try] body raises first. *)
Definition page_labels (wf : option json) : list json :=
  match wf with
  | Some d =>
      match py_get d "pages" (JList []) with
      | Ok pages =>
          match py_iter pages with
          | Ok ps =>
              flat_map (fun p => if is_dict p then
                                   match py_get p "page" JNull with
                                   | Ok v => if truthy v then [v] else []
                                   | Err _ => []
                                   end
                                 else []) ps
          | Err _ => []
          end
      | Err _ => []
      end
  | None => []
  end.

(** [nav_from_page_labels(page_obj)]: every return path leaves
    [_NAV_CACHE] equal to the returned list. *)
Definition nav_from_page_labels (w : world) : list json * world :=
  match nav_cache w with
  | Some c => (c, w)
  | None =>
      let (sm, w) := load_json "sitemap.json" w in
      match sitemap_nav sm with
      | Some ((_ :: _) as c) => (c, with_cache w c)
      | _ =>
          let (wf, w) := load_json INPUT_JSON w in
          match page_labels wf with
          | (_ :: _) as labels => (labels, with_cache w labels)
          | [] => (DEFAULT_NAV, with_cache w DEFAULT_NAV)
          end
      end
  end.

(* ================================================================= *)
(** ** Page composer (lines 785-901) *)

Definition CANVAS_W : Z := 1200.
Definition CANVAS_H : Z := 1850.
Definition MARGIN : Z := 36.
Definition GUTTER : Z := 18.
Definition HEADER_H : Z := 70.
Definition NEWSLETTER_BAND_H : Z := 220.
Definition FOOTER_DARK_H : Z := 140.
Definition LOGO_W : Z := 120.
Definition LOGO_H : Z := 44.
Definition HEADER_CTA_W : Z := 130.
Definition HEADER_CTA_H : Z := 34.
Definition NAV_GAP : Z := 22.
Definition NAV_RIGHT_GAP : Z := 18.

Definition frame_x : Z := MARGIN.
Definition frame_y : Z := MARGIN.
Definition frame_w : Z := CANVAS_W - 2 * MARGIN.
Definition frame_h : Z := CANVAS_H - 2 * MARGIN.
Definition hx : Z := frame_x + GUTTER.
Definition hy : Z := frame_y + GUTTER.
Definition hw : Z := frame_w - 2 * GUTTER.
Definition cta_x : Z := hx + hw - HEADER_CTA_W.
Definition content_x : Z := frame_x + GUTTER.
Definition content_w : Z := frame_w - 2 * GUTTER.
Definition footer_y : Z := frame_y + frame_h - FOOTER_DARK_H - GUTTER.
Definition band_y : Z := footer_y - NEWSLETTER_BAND_H - GUTTER.
Definition content_bottom_limit : Z := band_y - SECTION_GAP.

Definition CAPTION : pystr := [ELLIPSIS] ++ py " (more sections not shown)".

(** The overflow caption drawn below the last placed section. *)
Definition caption_elem (cursor_y : Q) : elem :=
  EText (inject_Z content_x) (cursor_y + 18) CAPTION "small" None.

(** [text(x, y, item)] needs a [str]: [escape_xml] calls [item.replace]. *)
Definition as_str (j : json) : res pystr :=
  match j with JStr s => Ok s | _ => Err AttributeError end.

(** The right-to-left placement loop over [reversed(nav_items)]. *)
Fixpoint place_nav (items : list json) (cursor : Z) : res (list elem) :=
  match items with
  | [] => Ok []
  | item :: r =>
      let* w_est := approx_text_width item in
      let x := cursor - w_est in
      if x <? hx + LOGO_W + 22 then Ok []
      else
        let* s := as_str item in
        let* rest := place_nav r (x - NAV_GAP) in
        Ok (EText (inject_Z x) (inject_Z (hy + 28)) s "nav-link" None :: rest)
  end.

(** The walk over the sections after the hero slot (lines 852-858):
    returns the appended elements, the final cursor and the final [idx]. *)
Fixpoint place_sections (rest : list json) (idx : nat) (cursor_y : Q)
  : res (list elem * Q * nat) :=
  match rest with
  | [] => Ok ([], cursor_y, idx)
  | s :: r =>
      let* next_h := section_height_for s in
      if Qlt_le_dec (inject_Z content_bottom_limit) (cursor_y + inject_Z next_h)
      then Ok ([], cursor_y, idx)
      else
        let* ' (es, cy) := draw_section (inject_Z content_x) cursor_y
                            (inject_Z content_w) s (Z.of_nat idx) in
        let* ' (es', cy', k) := place_sections r (S idx) cy in
        Ok (es ++ es', cy', k)
  end.

(** [layout.get("sections", []) or []] used as a sequence: any other
    truthy value makes [sections[0]] raise. *)
Definition sections_list (j : json) : res (list json) :=
  match py_or j (JList []) with
  | JList l => Ok l
  | JStr _ => Err AttributeError
  | JObj _ => Err KeyError
  | _ => Err TypeError
  end.

Definition is_hero (s : json) : res bool :=
  let* t := py_get s "type" JNull in
  let* k := canon t in Ok (pystr_eqb k (py "hero")).

Definition auto_hero (h1 : json) : json :=
  JObj [(py "id", JStr (py "auto-hero")); (py "type", JStr (py "hero"));
        (py "label", JStr (py "Hero")); (py "h2", h1); (py "components", JList [])].

(** The hero slot, the walk and the overflow caption (lines 833-861). *)
Definition compose_body (sections : list json) (h1 : json) : res (list elem) :=
  let cursor_y := inject_Z (hy + HEADER_H + 8) in
  let* first_hero := match sections with
                     | s0 :: _ => is_hero s0
                     | [] => Ok false end in
  let '(hero, start_idx) :=
    match sections with
    | s0 :: _ => if first_hero then (s0, 1%nat) else (auto_hero h1, 0%nat)
    | [] => (auto_hero h1, 0%nat)
    end in
  let* ' (hero_es, cy) := draw_section (inject_Z content_x) cursor_y
                           (inject_Z content_w) hero 0 in
  let* ' (es, cy', idx) := place_sections (skipn start_idx sections) start_idx cy in
  Ok (hero_es ++ es
      ++ (if (idx <? List.length sections)%nat then [caption_elem cy'] else [])).

Definition FOOTER_LINKS : list string := ["Home"; "About"; "News"; "Read Me"].

(** The fixed newsletter band and footer strip (lines 863-895). *)
Definition chrome_bottom : list elem :=
  let cx := inject_Z content_x in
  let cw := inject_Z content_w in
  let by_ := inject_Z band_y in
  let fy0 := inject_Z footer_y in
  let ix := (cx + cw / 2 - 340 / 2 - 80)%Q in
  let iy := (by_ + 130)%Q in
  let fx := (cx + cw / 2 - 140 / 2)%Q in
  let fy := (fy0 + 18)%Q in
  let widths := map (fun l => Z.of_nat (String.length l) * 7) FOOTER_LINKS in
  let total_w := fold_right Z.add 0 widths + (Z.of_nat (List.length FOOTER_LINKS) - 1) * NAV_GAP in
  let start_x := (cx + cw / 2 - inject_Z total_w / 2)%Q in
  let link_xs := map (fun n => (start_x + inject_Z (fold_right Z.add 0%Z
                                 (map (fun w => (w + NAV_GAP)%Z) (firstn n widths))))%Q)
                     (seq 0 (List.length FOOTER_LINKS)) in
  [ERaw "<rect class=panel-light> (newsletter band at band_y)";
   EText (cx + cw / 2) (by_ + 70) (py "Newsletter Sign Up") "h1" (Some "middle");
   EText (cx + cw / 2) (by_ + 98)
     (py "Lorem ipsum dolor sit amet, consectetur adipiscing elit.") "small muted" (Some "middle");
   ERect ix iy 340 38 "sketch" 8;
   EButton (ix + 340 + 18) iy 150 38 (py "Action Button") true;
   ERaw "<rect class=panel-dark> (footer strip at footer_y)";
   ERect fx fy 140 44 "sketch" 10;
   ELine (fx + 8) (fy + 8) (fx + 140 - 8) (fy + 44 - 8) "imgx";
   ELine (fx + 140 - 8) (fy + 8) (fx + 8) (fy + 44 - 8) "imgx"]
  ++ map (fun '(x, l) => EText x (fy0 + 92) (py l) "footer-link" None)
         (combine link_xs FOOTER_LINKS).

(** The reads of [page_obj] and the elements appended before the call
    to [nav_from_page_labels] (lines 785-822): [h1], the raw sections
    value and those elements. *)
Definition page_header (page_obj : json) : res (json * json * list elem) :=
  let* page_name := py_get page_obj "page" (JStr (py "Page")) in
  let* slug := py_get page_obj "slug" (JStr (py "/")) in
  let* layout := py_get page_obj "layout" (JObj []) in
  let* h1_0 := py_get layout "h1" (JStr []) in
  let* h1s := py_strip h1_0 in
  let h1 := py_or (JStr h1s) page_name in
  let* sections0 := py_get layout "sections" (JList []) in
  let fx := inject_Z frame_x in
  let fy := inject_Z frame_y in
  let qx := inject_Z hx in
  let qy := inject_Z hy in
  Ok (h1, sections0,
      [ERaw "<svg xmlns=http://www.w3.org/2000/svg width=1200 height=1850>";
       ERaw "<style> (css_block) </style>";
       ERaw "<rect class=page-bg />";
       ERaw "<rect class=page-frame />";
       EText fx (fy - 10) (py_str page_name ++ py " (" ++ py_str slug ++ py ")") "meta" None;
       ERect qx qy (inject_Z LOGO_W) (inject_Z LOGO_H) "sketch" 10;
       ELine (qx + 8) (qy + 8) (qx + inject_Z LOGO_W - 8) (qy + inject_Z LOGO_H - 8) "imgx";
       ELine (qx + inject_Z LOGO_W - 8) (qy + 8) (qx + 8) (qy + inject_Z LOGO_H - 8) "imgx";
       EText (qx + 18) (qy + 28) (py "Logo Here") "small" None;
       EButton (inject_Z cta_x) (qy + 6) (inject_Z HEADER_CTA_W) (inject_Z HEADER_CTA_H)
         (py "Take Action") false]).

(** The timestamp line: [text(frame_x + frame_w - 260, frame_y + frame_h + 18,
    f"Rendered: {ts}", extra_cls="small")]. *)
Definition rendered_stamp (ts : pystr) : elem :=
  EText (inject_Z (frame_x + frame_w - 260)) (inject_Z (frame_y + frame_h + 18))
    (py "Rendered: " ++ ts) "small" None.

(** [render_page_svg(page_obj)] run in world [w]: the document (the
    elements of [svg], joined by newlines on return) and the world after
    the call. *)
Definition render_page_svg (page_obj : json) (w : world) : res (list elem) * world :=
  match page_header page_obj with
  | Err e => (Err e, w)
  | Ok (h1, sections0, pre_es) =>
      let w := emit pre_es w in
      let (nav_items, w) := nav_from_page_labels w in
      let post :=
        let* nav_es := place_nav (rev nav_items) (cta_x - NAV_RIGHT_GAP) in
        let* sections := sections_list sections0 in
        let* body := compose_body sections h1 in
        Ok (nav_es ++ body ++ chrome_bottom
            ++ [rendered_stamp (clock w); ERaw "</svg>"]) in
      match post with
      | Err e => (Err e, w)
      | Ok post_es => (Ok (pre_es ++ post_es), emit post_es w)
      end
  end.

(* ================================================================= *)
(** ** Output file name (main, lines 921-927) *)

Definition output_name (p : json) : res pystr :=
  let* page_name := py_get p "page" (JStr (py "page")) in
  let* slug := py_get p "slug" (JStr (py "/")) in
  let* fname := safe_filename page_name in
  match slug with
  | JStr s => if pystr_eqb s (py "/") then Ok (py "home") else Ok fname
  | _ => Ok fname
  end.

(* ================================================================= *)
(** * Properties *)

(** ** String helpers *)

Lemma drop_while_suffix (p : N -> bool) (s : pystr) :
  exists u, s = u ++ drop_while p s.
Proof.
  induction s as [|c s IH]; simpl.
  - exists []. reflexivity.
  - destruct (p c).
    + destruct IH as [u Hu]. exists (c :: u). simpl. congruence.
    + exists []. reflexivity.
Qed.

Lemma rstrip_by_prefix (p : N -> bool) (s : pystr) :
  exists t, s = rstrip_by p s ++ t.
Proof.
  unfold rstrip_by. destruct (drop_while_suffix p (rev s)) as [u Hu].
  exists (rev u). rewrite <- rev_app_distr, <- Hu, rev_involutive. reflexivity.
Qed.

Lemma rstrip_by_length (p : N -> bool) (s : pystr) :
  (List.length (rstrip_by p s) <= List.length s)%nat.
Proof.
  destruct (rstrip_by_prefix p s) as [t Ht].
  rewrite Ht at 2. rewrite length_app. lia.
Qed.

Lemma drop_while_head (p : N -> bool) (s : pystr) c r :
  drop_while p s = c :: r -> p c = false.
Proof.
  induction s as [|d s IH]; simpl; [discriminate|].
  destruct (p d) eqn:E; [exact IH|]. intros H; inversion H; subst; exact E.
Qed.

Lemma strip_by_ends (p : N -> bool) (s : pystr) :
  match strip_by p s with
  | [] => True
  | c :: _ => p c = false /\ p (last (strip_by p s) c) = false
  end.
Proof.
  unfold strip_by.
  remember (lstrip_by p s) as l.
  destruct (rstrip_by p l) as [|c r] eqn:E; [exact I|].
  destruct (rstrip_by_prefix p l) as [t Ht]. rewrite E in Ht.
  split.
  - unfold lstrip_by in Heql. rewrite Ht in Heql.
    symmetry in Heql. simpl in Heql. eapply drop_while_head; exact Heql.
  - rewrite <- E. unfold rstrip_by.
    rewrite <- E in Ht. unfold rstrip_by in *.
    destruct (drop_while p (rev l)) as [|d q] eqn:D; [discriminate|].
    simpl. rewrite last_last. eapply drop_while_head; exact D.
Qed.

Lemma strip_by_incl (p : N -> bool) (s : pystr) (P : N -> Prop) :
  Forall P s -> Forall P (strip_by p s).
Proof.
  intros H. unfold strip_by, lstrip_by.
  destruct (drop_while_suffix p s) as [u Hu].
  assert (H1 : Forall P (drop_while p s)).
  { rewrite Hu in H. apply Forall_app in H. tauto. }
  destruct (rstrip_by_prefix p (drop_while p s)) as [t Ht].
  rewrite Ht in H1. apply Forall_app in H1. tauto.
Qed.

(** ** C5: truncate *)

Lemma truncate_str (s : pystr) (n : Z) :
  truncate (JStr s) n =
  Ok (if Z.of_nat (List.length (strip s)) <=? n then strip s
      else rstrip (slice_to (strip s) (n - 1)) ++ [ELLIPSIS]).
Proof.
  unfold truncate, py_or. destruct (truthy (JStr s)) eqn:E; simpl.
  - destruct (_ <=? n); reflexivity.
  - destruct s; [|discriminate]. simpl. destruct (0 <=? n); reflexivity.
Qed.

(** C5 (claim as stated): an input of length at most [n] that has
    surrounding blanks is not returned unchanged. *)
Lemma truncate_unchanged_cex :
  Z.of_nat (List.length (py " a")) <= 5 /\ truncate (JStr (py " a")) 5 <> Ok (py " a").
Proof. split; [simpl; lia | vm_compute; discriminate]. Qed.

(** C5 (amended): for a string [s] and [n >= 1], [truncate] returns a
    result of length at most [n]; the stripped text when it has at most
    [n] characters, otherwise its first [n-1] characters right-stripped
    plus one ellipsis; [None] and the empty string give the empty
    string. *)
Theorem truncate_spec (s : pystr) (n : Z) (Hn : 1 <= n) :
  (exists r, truncate (JStr s) n = Ok r /\ Z.of_nat (List.length r) <= n
     /\ (Z.of_nat (List.length (strip s)) <= n -> r = strip s)
     /\ (n < Z.of_nat (List.length (strip s)) ->
         r = rstrip (firstn (Z.to_nat (n - 1)) (strip s)) ++ [ELLIPSIS]))
  /\ truncate JNull n = Ok [] /\ truncate (JStr []) n = Ok [].
Proof.
  split; [|split; unfold truncate; simpl;
               destruct (Z.leb_spec 0 n); [reflexivity|lia|reflexivity|lia]].
  rewrite truncate_str.
  destruct (Z.leb_spec (Z.of_nat (List.length (strip s))) n) as [Hle|Hgt].
  - eexists. split; [reflexivity|]. split; [exact Hle|]. split; [reflexivity|lia].
  - eexists. split; [reflexivity|].
    unfold slice_to. rewrite (proj2 (Z.leb_le 0 (n - 1))) by lia.
    split; [|split; [lia|reflexivity]].
    rewrite length_app. simpl.
    pose proof (rstrip_by_length is_space (firstn (Z.to_nat (n - 1)) (strip s))).
    rewrite length_firstn in H. unfold rstrip. lia.
Qed.

Lemma truncate_spec_witness :
  1 <= 3 /\ truncate (JStr (py " abcdef ")) 3 = Ok (py "ab" ++ [ELLIPSIS]) /\
  (exists r, truncate (JStr (py " abcdef ")) 3 = Ok r /\ Z.of_nat (List.length r) <= 3
     /\ (Z.of_nat (List.length (strip (py " abcdef "))) <= 3 -> r = strip (py " abcdef "))
     /\ (3 < Z.of_nat (List.length (strip (py " abcdef "))) ->
         r = rstrip (firstn (Z.to_nat (3 - 1)) (strip (py " abcdef "))) ++ [ELLIPSIS])).
Proof.
  split; [lia|]. split; [reflexivity|].
  exact (proj1 (truncate_spec (py " abcdef ") 3 ltac:(lia))).
Defined.

(** ** C10: output file names *)

(** A file-system-safe name: non-empty, only [a-z], [0-9] and [-], and
    neither starting nor ending with [-]. *)
Definition valid_fname (r : pystr) : Prop :=
  r <> [] /\ Forall (fun c => ALLOWED_FN c = true) r
  /\ hd 0%N r <> 45%N /\ last r 0%N <> 45%N.

Lemma sub_runs_forall (p : N -> bool) (rep : pystr) (P : N -> Prop) b t :
  Forall P rep -> (forall c, In c t -> p c = false -> P c) ->
  Forall P (sub_runs p rep b t).
Proof.
  intros Hrep Hp. revert b. induction t as [|c t IH]; intros b; simpl.
  - constructor.
  - assert (IH' : forall b, Forall P (sub_runs p rep b t))
      by (apply IH; intros d Hd; apply Hp; right; exact Hd).
    destruct (p c) eqn:E.
    + apply Forall_app. split; [destruct b; [constructor|exact Hrep]|apply IH'].
    + constructor; [apply Hp; [left; reflexivity|exact E]|apply IH'].
Qed.

Lemma last_cons_default (c : N) (r : list N) (d : N) :
  last (c :: r) d = last (c :: r) c.
Proof.
  revert c d. induction r as [|a r IH]; intros c d; [reflexivity|].
  change (last (a :: r) d = last (a :: r) c). rewrite (IH a d), (IH a c). reflexivity.
Qed.

Lemma safe_filename_valid (s : pystr) :
  exists r, safe_filename (JStr s) = Ok r /\ valid_fname r.
Proof.
  unfold safe_filename. simpl.
  set (t0 := sub_runs (fun c => negb (ALLOWED_FN c)) (py "-") false (py_lower (strip s))).
  assert (H0 : Forall (fun c => ALLOWED_FN c = true) t0).
  { apply sub_runs_forall; [repeat constructor|].
    intros c _ Hc. destruct (ALLOWED_FN c); [reflexivity|discriminate]. }
  pose proof (strip_by_ends is_hyphen (sub_runs is_hyphen (py "-") false t0)) as HE.
  assert (HF : Forall (fun c => ALLOWED_FN c = true)
                 (strip_by is_hyphen (sub_runs is_hyphen (py "-") false t0))).
  { apply strip_by_incl. apply sub_runs_forall; [repeat constructor|].
    intros c Hc _. rewrite Forall_forall in H0. apply H0; exact Hc. }
  destruct (strip_by is_hyphen (sub_runs is_hyphen (py "-") false t0)) as [|c r].
  - eexists. split; [reflexivity|]. vm_compute.
    split; [discriminate|]. split; [repeat constructor|]. split; discriminate.
  - eexists. split; [reflexivity|].
    destruct HE as [H1 H2]. split; [discriminate|]. split; [exact HF|].
    unfold is_hyphen in *. simpl hd. rewrite (last_cons_default c r 0%N).
    split; intros Heq; rewrite Heq in *; discriminate.
Qed.

Lemma valid_fname_home : valid_fname (py "home").
Proof. vm_compute. split; [discriminate|]. split; [repeat constructor|]. split; discriminate. Qed.

(** C10 (claim as stated): a page whose slug is not "/" also gets the
    name "home" when its name is "Home". *)
Lemma output_name_home_cex :
  output_name (JObj [(py "page", JStr (py "Home")); (py "slug", JStr (py "/home"))])
    = Ok (py "home")
  /\ py "/home" <> py "/".
Proof. split; [vm_compute; reflexivity | discriminate]. Qed.

(** C10 (amended): for a page whose name is a string, the output name is
    "home" when the slug is "/", and otherwise [safe_filename] of the page
    name; in both cases it is non-empty and made of [a-z], [0-9] and
    hyphens, with no hyphen at either end. *)
Theorem output_name_spec (p : json) (name : pystr)
  (Hname : py_get p "page" (JStr (py "page")) = Ok (JStr name)) :
  exists r, output_name p = Ok r
    /\ (py_get p "slug" (JStr (py "/")) = Ok (JStr (py "/")) -> r = py "home")
    /\ (py_get p "slug" (JStr (py "/")) <> Ok (JStr (py "/")) ->
        safe_filename (JStr name) = Ok r)
    /\ valid_fname r.
Proof.
  destruct (safe_filename_valid name) as [f [Hf Hv]].
  destruct p as [| | | | |kv]; try discriminate.
  destruct (py_get (JObj kv) "slug" (JStr (py "/"))) as [slug|e] eqn:Hs;
    [|simpl in Hs; destruct (find _ kv) as [[? ?]|]; discriminate].
  unfold output_name. rewrite Hname. cbn [bind]. rewrite Hs. cbn [bind]. rewrite Hf.
  cbn [bind].
  destruct slug as [| | |s| |];
    try (exists f; split; [reflexivity|]; split; [intros H; inversion H|];
         split; [intros _; reflexivity|exact Hv]).
  destruct (pystr_eqb s (py "/")) eqn:E.
  - exists (py "home"). unfold pystr_eqb in E.
    destruct (list_eq_dec N.eq_dec s (py "/")) as [->|]; [|discriminate].
    split; [reflexivity|]. split; [intros _; reflexivity|].
    split; [intros H; exfalso; apply H; reflexivity|apply valid_fname_home].
  - exists f. unfold pystr_eqb in E.
    destruct (list_eq_dec N.eq_dec s (py "/")) as [|Hne]; [discriminate|].
    split; [reflexivity|]. split; [intros H; inversion H; contradiction|].
    split; [intros _; reflexivity|exact Hv].
Qed.

Lemma output_name_spec_witness :
  py_get (JObj [(py "page", JStr (py "About Us"))]) "page" (JStr (py "page"))
    = Ok (JStr (py "About Us"))
  /\ output_name (JObj [(py "page", JStr (py "About Us"))]) = Ok (py "home").
Proof.
  split; [reflexivity|].
  destruct (output_name_spec (JObj [(py "page", JStr (py "About Us"))]) (py "About Us")
              eq_refl) as [r [Hr [Hhome _]]].
  rewrite Hr, (Hhome eq_refl). reflexivity.
Defined.

(** ** C3: the per-type minimum is a floor *)

(** [canon(sec.get("type"))] *)
Definition section_type (sec : json) : res pystr :=
  let* ty := py_get sec "type" JNull in canon ty.

(** C3: whenever the height of a section is computed, it is at least the
    per-type minimum of its canonical type. *)
Theorem section_height_at_least_min (sec : json) (st : pystr) (h : Z)
  (Hst : section_type sec = Ok st) (Hh : section_height_for sec = Ok h) :
  min_total st <= h.
Proof.
  unfold section_type in Hst. unfold section_height_for in Hh.
  destruct (py_get sec "type" JNull) as [ty|e]; [|discriminate].
  cbn [bind] in Hst, Hh. rewrite Hst in Hh. cbn [bind] in Hh.
  destruct (_inner_bottom_for_section st sec 0) as [ib|e]; [|discriminate].
  cbn [bind] in Hh. inversion Hh. lia.
Qed.

Definition bogus_sec : json :=
  JObj [(py "type", JStr (py "Bogus_Type"));
        (py "components", JList [JObj [(py "type", JStr (py "widget"))]])].

Lemma section_height_at_least_min_witness :
  section_type bogus_sec = Ok (py "bogus-type") /\ section_height_for bogus_sec = Ok 220
  /\ min_total (py "bogus-type") <= 220.
Proof.
  split; [reflexivity|]. split; [reflexivity|].
  exact (section_height_at_least_min bogus_sec (py "bogus-type") 220 eq_refl eq_refl).
Defined.

(** ** Inverting [draw_section] *)

(** Peels successful binds off a hypothesis [bind m k = Ok v]. *)
Lemma Ok_inj {A : Type} (a b : A) : (Ok a : res A) = Ok b -> a = b.
Proof. intros H. injection H. exact (fun e => e). Qed.

Ltac inv_bind H :=
  repeat match type of H with
  | bind ?m _ = Ok _ =>
      let E := fresh "E" in
      destruct m eqn:E; [cbn [bind] in H | discriminate H]
  end.

(** Peel every [bind m k = Ok v] hypothesis in the context, then turn
    [Ok a = Ok b] hypotheses into substitutions. *)
Ltac inv_binds :=
  repeat match goal with
  | H : bind ?m _ = Ok _ |- _ =>
      let E := fresh "E" in
      destruct m eqn:E; [cbn [bind] in H | discriminate H]
  | H : Ok _ = Ok _ |- _ => apply Ok_inj in H; subst
  end.

Lemma draw_section_inv (x y w : Q) (sec : json) (idx : Z) es y' :
  draw_section x y w sec idx = Ok (es, y') ->
  exists st label h2 h3 h head body,
    section_type sec = Ok st /\ section_height_for sec = Ok h
    /\ draw_body st {| sx := x; sy := y; sw := w; s_label := label; s_h2 := h2;
                      s_h3 := h3; s_inner_x := (x + inject_Z SECTION_PAD)%Q;
                      s_inner_y := (y + 72)%Q;
                      s_inner_w := (w - 2 * inject_Z SECTION_PAD)%Q |} sec = Ok body
    /\ es = head ++ body /\ y' = (y + inject_Z h + inject_Z SECTION_GAP)%Q.
Proof.
  intros H. unfold draw_section in H. inv_bind H.
  injection H as Hes Hy. subst es y'.
  do 7 eexists. split.
  { unfold section_type.
    match goal with E : py_get sec "type" JNull = _ |- _ => rewrite E end.
    cbn [bind]. eassumption. }
  split; [reflexivity|]. split; [eassumption|]. split; [|reflexivity].
  rewrite !app_comm_cons. reflexivity.
Qed.

Lemma py_get_present (d : json) (k : string) (d1 d2 v : json) :
  py_get d k d1 = Ok v -> v <> d1 -> py_get d k d2 = Ok v.
Proof.
  destruct d as [| | | | |kv]; try discriminate. simpl.
  destruct (find _ kv) as [[? ?]|]; intros H Hne; inversion H; subst; [reflexivity|].
  contradiction.
Qed.

(** ** C6: reading a section with malformed fields *)

Definition null_semantic_sec : json :=
  JObj [(py "type", JStr (py "content")); (py "semantic", JNull)].

Definition int_h3_sec : json :=
  JObj [(py "type", JStr (py "content")); (py "h3", JList [JInt 5])].

(** C6 (code_bug): [draw_section] raises on a section whose [semantic]
    is [null] ([sec.get("semantic", {})] returns [None], and [None.get]
    raises), and on a [content] section whose first [h3] entry is a
    number ([truncate] calls [.strip()] on it). *)
Theorem draw_section_malformed_raises :
  draw_section (inject_Z content_x) 510 (inject_Z content_w) null_semantic_sec 1
    = Err AttributeError
  /\ draw_section (inject_Z content_x) 510 (inject_Z content_w) int_h3_sec 1
    = Err AttributeError.
Proof. split; vm_compute; reflexivity. Qed.

(** ** C8: the generic fallback *)

Definition bogus_two : json :=
  JObj [(py "type", JStr (py "bogus-type"));
        (py "components", JList [JObj [(py "type", JStr (py "widget")); (py "label", JStr (py "A"))];
                                 JObj [(py "type", JStr (py "gizmo")); (py "placeholder", JStr (py "B"))]])].

(** C8 (claim as stated): the height of such a section is 220, not the
    generic formula [44 * min(6, 2)] plus the 72-unit header block (160),
    nor that formula with the inner and outer padding (186). *)
Lemma generic_height_cex :
  section_height_for bogus_two = Ok 220
  /\ 220 <> (COMP_H + COMP_GAP) * Z.min 6 2 + 72
  /\ 220 <> 72 + ((COMP_H + COMP_GAP) * Z.min 6 2 + 18) + 8.
Proof. split; [reflexivity|]. unfold COMP_H, COMP_GAP. split; lia. Qed.

Lemma height_bogus_two_components (sec c1 c2 : json)
  (Hty : py_get sec "type" JNull = Ok (JStr (py "bogus-type")))
  (Hcs : py_get sec "components" JNull = Ok (JList [c1; c2])) :
  section_height_for sec = Ok 220.
Proof.
  assert (Hcs' : py_get sec "components" (JList []) = Ok (JList [c1; c2]))
    by (eapply py_get_present; [exact Hcs|discriminate]).
  unfold section_height_for. rewrite Hty. cbn [bind].
  unfold _inner_bottom_for_section. cbn. rewrite Hcs'. cbn. reflexivity.
Qed.

(** C8 (amended): a section of type "bogus-type" with exactly two
    components, of any kinds, has height 220 (the per-type minimum of the
    generic fallback, which exceeds 72 + 2 * 44 + 18 + 8 = 186), and when
    it is drawn its body is two dashed rows, one per component in order,
    each showing that component's best display text truncated to 95
    characters. *)
Theorem generic_two_components (sec c1 c2 : json) (x y w : Q) (idx : Z)
  (es : list elem) (y' : Q)
  (Hty : py_get sec "type" JNull = Ok (JStr (py "bogus-type")))
  (Hcs : py_get sec "components" JNull = Ok (JList [c1; c2]))
  (Hd : draw_section x y w sec idx = Ok (es, y')) :
  section_height_for sec = Ok 220
  /\ y' = (y + inject_Z 220 + inject_Z SECTION_GAP)%Q
  /\ exists head b1 b2 t1 t2 cy1 cy2,
       best_text_for_component c1 (JStr (py "Component")) = Ok b1
       /\ truncate b1 95 = Ok t1
       /\ best_text_for_component c2 (JStr (py "Component")) = Ok b2
       /\ truncate b2 95 = Ok t2
       /\ (cy1 == y + 72)%Q /\ (cy2 == y + 72 + 44)%Q
       /\ es = head ++
            [ERect (x + inject_Z SECTION_PAD) cy1 (w - 2 * inject_Z SECTION_PAD)
                   (inject_Z COMP_H) "sketch-dash" 10;
             EText (x + inject_Z SECTION_PAD + 14) (cy1 + 22) t1 "small" None;
             ERect (x + inject_Z SECTION_PAD) cy2 (w - 2 * inject_Z SECTION_PAD)
                   (inject_Z COMP_H) "sketch-dash" 10;
             EText (x + inject_Z SECTION_PAD + 14) (cy2 + 22) t2 "small" None].
Proof.
  pose proof (height_bogus_two_components sec c1 c2 Hty Hcs) as Hh.
  assert (Hcs' : py_get sec "components" (JList []) = Ok (JList [c1; c2]))
    by (eapply py_get_present; [exact Hcs|discriminate]).
  destruct (draw_section_inv x y w sec idx es y' Hd)
    as (st & label & h2 & h3 & h & head & body & Hst & Hh' & Hb & Hes & Hy).
  rewrite Hh in Hh'. injection Hh' as <-.
  unfold section_type in Hst. rewrite Hty in Hst. cbn in Hst. injection Hst as <-.
  split; [exact Hh|]. split; [exact Hy|].
  unfold draw_body in Hb. cbn -[draw_generic] in Hb.
  unfold draw_generic in Hb. cbn -[best_text_for_component truncate] in Hb.
  rewrite Hcs' in Hb. cbn -[best_text_for_component truncate] in Hb.
  inv_binds.
  exists head, a5, a3, a6, a4,
    (y + 72 + inject_Z 0 * inject_Z 44)%Q, (y + 72 + inject_Z 1 * inject_Z 44)%Q.
  split; [exact E5|]. split; [exact E6|]. split; [exact E3|].
  split; [exact E4|].
  split; [cbn [inject_Z]; ring|].
  split; [cbn [inject_Z]; ring|].
  reflexivity.
Qed.


Lemma generic_two_components_witness :
  exists es y', draw_section 0 0 1092 bogus_two 0 = Ok (es, y')
    /\ section_height_for bogus_two = Ok 220.
Proof.
  destruct (draw_section 0 0 1092 bogus_two 0) as [[es y']|e] eqn:Hd.
  - exists es, y'. split; [reflexivity|].
    apply (generic_two_components bogus_two
      (JObj [(py "type", JStr (py "widget")); (py "label", JStr (py "A"))])
      (JObj [(py "type", JStr (py "gizmo")); (py "placeholder", JStr (py "B"))])
      0 0 1092 0 es y'); [reflexivity|reflexivity|exact Hd].
  - vm_compute in Hd. discriminate Hd.
Defined.

(** ** C7: form sections *)

Lemma form_height (sec : json) (ff : list json)
  (Hst : section_type sec = Ok (py "form"))
  (Hff : find_components sec FORM_FIELD_KINDS = Ok ff) :
  section_height_for sec = Ok (168 + 36 * clamp 3 6 (Z.of_nat (List.length ff))).
Proof.
  unfold section_type in Hst. unfold section_height_for.
  destruct (py_get sec "type" JNull) as [ty|e]; [|discriminate Hst].
  cbn [bind] in *. rewrite Hst. cbn [bind].
  unfold _inner_bottom_for_section. cbn [bind canon py_or py_strip].
  change (canon (JStr (py "form"))) with (Ok (py "form") : res pystr).
  cbn [bind]. change (pystr_eqb (py "form") (py "hero")) with false.
  change (pystr_eqb (py "form") (py "features")) with false.
  change (pystr_eqb (py "form") (py "content")) with false.
  change (pystr_eqb (py "form") (py "faq")) with false.
  change (pystr_eqb (py "form") (py "proof")) with false.
  change (pystr_eqb (py "form") (py "steps")) with false.
  change (pystr_eqb (py "form") (py "form")) with true. cbv iota.
  rewrite Hff. cbn [bind]. change (min_total (py "form")) with 240.
  f_equal. unfold clamp.
  destruct ff; simpl List.length; lia.
Qed.

(** An input row of a form: a [rect] of class "sketch" with [rx = 8]. *)
Definition is_input_row (e : elem) : bool :=
  match e with
  | ERect _ _ _ _ cls rx => String.eqb cls "sketch" && Z.eqb rx 8
  | _ => false
  end.

Definition input_field (lab : string) : json :=
  JObj [(py "type", JStr (py "input")); (py "label", JStr (py lab))].

Definition form_six : json :=
  JObj [(py "type", JStr (py "form"));
        (py "components", JList (map input_field ["A"; "B"; "C"; "D"; "E"; "F"]))].

(** C7 (code bug): a form section with six field-like components gets
    six labels and a height reserving six input rows, but only the first
    five rows are drawn, so the sixth reserved row stays empty. *)
Theorem form_sixth_row_not_drawn :
  exists fields es y',
    form_fields form_six = Ok fields /\ List.length fields = 6%nat
    /\ section_height_for form_six = Ok (168 + 36 * 6)
    /\ draw_section 0 0 1092 form_six 0 = Ok (es, y')
    /\ List.length (filter is_input_row es) = 5%nat.
Proof.
  destruct (form_fields form_six) as [fields|e] eqn:Hf; [|vm_compute in Hf; discriminate Hf].
  destruct (draw_section 0 0 1092 form_six 0) as [[es y']|e] eqn:Hd;
    [|vm_compute in Hd; discriminate Hd].
  exists fields, es, y'.
  split; [reflexivity|]. split; [vm_compute in Hf; injection Hf as <-; reflexivity|].
  split; [vm_compute; reflexivity|]. split; [reflexivity|].
  vm_compute in Hd. injection Hd as <- <-. vm_compute. reflexivity.
Qed.

Lemma mapM_length {A B : Type} (f : A -> res B) (l : list A) (r : list B) :
  mapM f l = Ok r -> List.length r = List.length l.
Proof.
  revert r. induction l as [|a l IH]; intros r H; simpl in H.
  - injection H as <-. reflexivity.
  - destruct (f a); [|discriminate H]. cbn [bind] in H.
    destruct (mapM f l) eqn:E; [|discriminate H]. cbn [bind] in H.
    injection H as <-. simpl. f_equal. apply IH. reflexivity.
Qed.

(** The layout of a form section with [k] field-like components: the
    labels are those of the first [min(6, k)] components (each its best
    text with the component's label as fallback, truncated to 40), or
    Name, Email and Message when [k = 0]; an input row is drawn for each
    of the first five labels only; the submit button, 150 wide, is
    right-aligned in the inner box just below the last row; the height is
    [168 + 36 * clamp(3, 6, k)]. *)
Lemma form_section_layout (sec : json) (x y w : Q) (idx : Z)
  (es : list elem) (y' : Q)
  (Hst : section_type sec = Ok (py "form"))
  (Hd : draw_section x y w sec idx = Ok (es, y')) :
  exists ff fields head btn,
    find_components sec FORM_FIELD_KINDS = Ok ff
    /\ form_fields sec = Ok fields
    /\ (ff = [] -> fields = [py "Name"; py "Email"; py "Message"])
    /\ (ff <> [] ->
          mapM (fun c =>
              let* fb := py_get c "label" (JStr (py "Field")) in
              let* bt := best_text_for_component c fb in
              truncate bt 40) (firstn 6 ff) = Ok fields)
    /\ List.length fields = (match ff with [] => 3 | _ => Nat.min 6 (List.length ff) end)%nat
    /\ section_height_for sec = Ok (168 + 36 * clamp 3 6 (Z.of_nat (List.length ff)))
    /\ es = head
            ++ form_rows (x + inject_Z SECTION_PAD) (w - 2 * inject_Z SECTION_PAD)
                         (y + 72 + 70) (firstn 5 fields)
            ++ [EButton (x + inject_Z SECTION_PAD + (w - 2 * inject_Z SECTION_PAD) - 150)
                        (y + 72 + 70 + inject_Z (Z.of_nat (Nat.min 5 (List.length fields))) * 36 + 4)
                        150 34 btn true].
Proof.
  destruct (draw_section_inv x y w sec idx es y' Hd)
    as (st & label & h2 & h3 & h & head & body & Hst' & Hh & Hb & Hes & Hy).
  rewrite Hst in Hst'. injection Hst' as <-.
  assert (Hbody : forall c, draw_body (py "form") c sec = draw_form c sec)
    by reflexivity.
  rewrite Hbody in Hb. unfold draw_form in Hb. cbn [s_inner_x s_inner_y s_inner_w] in Hb.
  destruct (form_fields sec) as [fields|e] eqn:Hf; [|discriminate Hb].
  cbn [bind] in Hb. inv_binds.
  pose proof Hf as Hf'. unfold form_fields in Hf'.
  destruct (find_components sec FORM_FIELD_KINDS) as [ff|e] eqn:Hff; [|discriminate Hf'].
  cbn [bind] in Hf'.
  destruct (mapM _ (firstn 6 ff)) as [fs|e] eqn:Hm; [|discriminate Hf'].
  cbn [bind] in Hf'. pose proof (mapM_length _ _ _ Hm) as Hlen.
  exists ff, fields, (head ++ [EText (x + inject_Z SECTION_PAD + (w - 2 * inject_Z SECTION_PAD) / 2)
                                (y + 72 + 26) a "h2" (Some "middle");
                              EText (x + inject_Z SECTION_PAD + (w - 2 * inject_Z SECTION_PAD) / 2)
                                (y + 72 + 70) a0 "small muted" (Some "middle")]), a3.
  split; [reflexivity|]. split; [reflexivity|].
  split.
  { intros ->. simpl in Hm. injection Hm as <-. injection Hf' as <-. reflexivity. }
  split.
  { intros Hne. destruct fs as [|f fs].
    - simpl in Hlen. destruct ff; [contradiction|simpl in Hlen; discriminate Hlen].
    - injection Hf' as <-. exact Hm. }
  split.
  { destruct ff as [|c ff].
    - simpl in Hm. injection Hm as <-. injection Hf' as <-. reflexivity.
    - destruct fs as [|f fs]; [simpl in Hlen; discriminate Hlen|].
      injection Hf' as <-. rewrite Hlen, length_firstn. reflexivity. }
  split; [exact (form_height sec ff Hst Hff)|].
  rewrite length_firstn in *. rewrite <- !app_assoc. reflexivity.
Qed.

(** ** C2: the bulleted block of a content section *)

(** [list_items_from_component(lists[0]) or []] of a content section. *)
Definition content_list_items (sec : json) : res (list pystr) :=
  let* lists := find_components sec ["list"] in
  match lists with
  | l :: _ => list_items_from_component l
  | [] => Ok []
  end.

(** An image placeholder: a [rect] of class "sketch-dash". *)
Definition is_placeholder (e : elem) : bool :=
  match e with
  | ERect _ _ _ _ cls _ => String.eqb cls "sketch-dash"
  | _ => false
  end.

Lemma pad_to_length {A : Type} (rows : nat) (v : A) (l : list A) :
  (List.length l <= rows)%nat -> List.length (pad_to rows v l) = rows.
Proof. intros H. unfold pad_to. rewrite length_app, repeat_length. lia. Qed.

Lemma firstn_pad_to {A : Type} (rows : nat) (v : A) (l : list A) :
  (List.length l <= rows)%nat -> firstn rows (pad_to rows v l) = pad_to rows v l.
Proof.
  intros H. apply firstn_all2. rewrite pad_to_length by exact H. lia.
Qed.

Lemma bullet_rows_no_placeholder (bx cy : Q) (n : Z) (i : nat) (l : list pystr) :
  filter is_placeholder (bullet_rows_from bx cy n i l) = [].
Proof. revert i. induction l as [|s l IH]; intros i; [reflexivity|]. exact (IH (S i)). Qed.

Lemma half_up (m : nat) : (m - (m + 1) / 2 <= (m + 1) / 2)%nat /\ (2 * ((m + 1) / 2) <= m + 1)%nat.
Proof.
  pose proof (Nat.div_mod (m + 1) 2 ltac:(lia)).
  pose proof (Nat.mod_upper_bound (m + 1) 2 ltac:(lia)). lia.
Qed.

Lemma bullet_block_one_col (ix iw hy : Q) (raw : list pystr)
  (Hn : (List.length raw < 8)%nat) :
  exists line ph_x ph_y ph_w ph_h tail,
    bullet_block ix iw hy raw =
      line :: bullet_rows_from ix (hy + 32) 52 0
                (pad_to (Nat.max 4 (List.length raw)) FILLER raw)
      ++ ERect ph_x ph_y ph_w ph_h "sketch-dash" 12 :: tail
    /\ is_placeholder line = false /\ filter is_placeholder tail = [].
Proof.
  unfold bullet_block.
  destruct (Nat.leb_spec 8 (List.length raw)) as [H|_]; [lia|].
  rewrite (firstn_all2 raw) by lia.
  rewrite firstn_pad_to by lia.
  eexists _, _, _, _, _, _. split; [reflexivity|]. split; reflexivity.
Qed.

Lemma bullet_block_two_cols (ix iw hy : Q) (raw : list pystr)
  (Hn : (8 <= List.length raw)%nat) :
  let m := Nat.min 12 (List.length raw) in
  let lm := ((m + 1) / 2)%nat in
  let rows := Nat.max 4 lm in
  exists split_x top bot,
    (split_x == ix + iw / 2)%Q
    /\ bullet_block ix iw hy raw =
         ELine split_x top split_x bot "imgx"
         :: bullet_rows_from ix (hy + 32) 34 0 (pad_to rows FILLER (firstn lm raw))
         ++ bullet_rows_from (ix + 1 * ((iw - 26) / 2 + 26))%Q (hy + 32) 34 0
              (pad_to rows FILLER (skipn lm (firstn 12 raw)))
    /\ List.length (pad_to rows FILLER (firstn lm raw)) = rows
    /\ List.length (pad_to rows FILLER (skipn lm (firstn 12 raw))) = rows.
Proof.
  intros m lm rows.
  assert (Hm : List.length (firstn 12 raw) = m) by (rewrite length_firstn; unfold m; lia).
  assert (Hm8 : (8 <= m <= 12)%nat) by (unfold m; lia).
  destruct (half_up m) as [H1 H2]. fold lm in H1, H2.
  assert (Hl : List.length (firstn lm (firstn 12 raw)) = lm)
    by (rewrite length_firstn; lia).
  assert (Hr : List.length (skipn lm (firstn 12 raw)) = (m - lm)%nat)
    by (rewrite length_skipn; lia).
  assert (Hrows : Nat.max 4 (Nat.max (List.length (firstn lm (firstn 12 raw)))
                                     (List.length (skipn lm (firstn 12 raw)))) = rows)
    by (rewrite Hl, Hr; unfold rows; lia).
  assert (Hfl : firstn lm (firstn 12 raw) = firstn lm raw).
  { rewrite firstn_firstn. f_equal. assert (lm <= 12)%nat by lia. lia. }
  unfold bullet_block.
  destruct (Nat.leb_spec 8 (List.length raw)) as [_|H]; [|lia].
  cbv zeta. rewrite Hm. fold lm. rewrite Hrows, Hfl.
  rewrite Hfl in Hl.
  rewrite !firstn_pad_to by lia.
  eexists _, _, _. split; [|split; [reflexivity|split]].
  - field.
  - apply pad_to_length. lia.
  - apply pad_to_length. lia.
Qed.

(** [draw_section_inv], and the section's own elements before the body
    hold no image placeholder. *)
Lemma draw_section_inv_head (x y w : Q) (sec : json) (idx : Z) es y' :
  draw_section x y w sec idx = Ok (es, y') ->
  exists st label h2 h3 h head body,
    section_type sec = Ok st /\ section_height_for sec = Ok h
    /\ draw_body st {| sx := x; sy := y; sw := w; s_label := label; s_h2 := h2;
                      s_h3 := h3; s_inner_x := (x + inject_Z SECTION_PAD)%Q;
                      s_inner_y := (y + 72)%Q;
                      s_inner_w := (w - 2 * inject_Z SECTION_PAD)%Q |} sec = Ok body
    /\ es = head ++ body /\ y' = (y + inject_Z h + inject_Z SECTION_GAP)%Q
    /\ filter is_placeholder head = [].
Proof.
  intros H. unfold draw_section, SHOW_SEMANTIC_OVERLAY in H. cbv iota beta in H.
  inv_binds. injection H as Hes Hy. subst es y'.
  do 7 eexists. split.
  { unfold section_type.
    match goal with E : py_get sec "type" JNull = _ |- _ => rewrite E end.
    cbn [bind]. eassumption. }
  split; [first [eassumption | reflexivity]|]. split; [eassumption|].
  split; [|split; [reflexivity|]].
  - eapply (eq_trans (y := [_; _; _; _] ++ _)); reflexivity.
  - reflexivity.
Qed.

(** A bullet row drawn at abscissa [bx]: a text starting with the bullet. *)
Definition is_bullet_at (bx : Q) (e : elem) : bool :=
  match e with
  | EText x _ (b :: _) _ _ => Qeq_bool x bx && N.eqb b BULLET
  | _ => false
  end.

Definition content_with_items (n : nat) : json :=
  JObj [(py "type", JStr (py "content"));
        (py "components",
          JList [JObj [(py "type", JStr (py "list"));
                       (py "items", JList (map (fun i => JStr (py "item " ++ z_text (Z.of_nat i)))
                                               (seq 1 n)))]])].

(** C2 (claim as stated): with 14 items the left column holds 6 items,
    not ceil(14/2) = 7, and only 12 of the 14 items are drawn. *)
Lemma two_cols_fourteen_cex :
  exists es y',
    content_list_items (content_with_items 14) = Ok (map (fun i => py "item " ++ z_text (Z.of_nat i)) (seq 1 14))
    /\ draw_section 0 0 1092 (content_with_items 14) 0 = Ok (es, y')
    /\ List.length (filter (is_bullet_at (18 + 6)) es) = 6%nat
    /\ List.length (filter (is_bullet_at (18 + 1 * ((1092 - 36 - 26) / 2 + 26) + 6)) es) = 6%nat.
Proof.
  destruct (draw_section 0 0 1092 (content_with_items 14) 0) as [[es y']|e] eqn:Hd;
    [|vm_compute in Hd; discriminate Hd].
  exists es, y'. split; [vm_compute; reflexivity|]. split; [reflexivity|].
  vm_compute in Hd. injection Hd as <- <-. split; vm_compute; reflexivity.
Qed.

Lemma draw_content_bullets (c : sctx) (sec : json) (body : list elem) :
  draw_content c sec = Ok body ->
  exists pre raw,
    content_list_items sec = Ok raw
    /\ body = pre ++ bullet_block (s_inner_x c) (s_inner_w c) (s_inner_y c + 120 + 48) raw
    /\ filter is_placeholder pre = [].
Proof.
  intros H. unfold draw_content in H.
  destruct (find_components sec ["list"]) as [lists|e] eqn:El; [|discriminate H].
  cbn [bind] in H. inv_binds.
  eexists _, _. split; [|split; [reflexivity|reflexivity]].
  unfold content_list_items. rewrite El. cbn [bind]. assumption.
Qed.

(** C2 (amended): in a content section whose first list component has
    [n] items, the elements end with the bulleted block. When [n < 8] it
    is a divider, one column of [max(4, n)] rows (the items, padded with
    filler) and exactly one image placeholder. When [n >= 8] it is a
    divider at the midpoint of the inner box and two columns with no
    image placeholder: only the first [m = min(n, 12)] items are used, the
    left column gets the first [ceil(m/2)] of them and the right the
    remaining [m - ceil(m/2)], both padded with filler to
    [max(4, ceil(m/2))] rows. *)
Theorem content_bullet_layout (sec : json) (x y w : Q) (idx : Z)
  (es : list elem) (y' : Q)
  (Hst : section_type sec = Ok (py "content"))
  (Hd : draw_section x y w sec idx = Ok (es, y')) :
  let ix := (x + inject_Z SECTION_PAD)%Q in
  let iw := (w - 2 * inject_Z SECTION_PAD)%Q in
  let col_y := (y + 72 + 120 + 48 + 32)%Q in
  exists pre raw,
    content_list_items sec = Ok raw
    /\ es = pre ++ bullet_block ix iw (y + 72 + 120 + 48) raw
    /\ ((List.length raw < 8)%nat ->
          List.length (filter is_placeholder es) = 1%nat
          /\ exists line ph tail,
               is_placeholder ph = true
               /\ es = pre ++ line :: bullet_rows_from ix col_y 52 0
                          (pad_to (Nat.max 4 (List.length raw)) FILLER raw)
                        ++ ph :: tail)
    /\ ((8 <= List.length raw)%nat ->
          let m := Nat.min 12 (List.length raw) in
          let lm := ((m + 1) / 2)%nat in
          let rows := Nat.max 4 lm in
          filter is_placeholder es = []
          /\ exists split_x top bot,
               (split_x == ix + iw / 2)%Q
               /\ es = pre ++ ELine split_x top split_x bot "imgx"
                        :: bullet_rows_from ix col_y 34 0
                             (pad_to rows FILLER (firstn lm raw))
                        ++ bullet_rows_from (ix + 1 * ((iw - 26) / 2 + 26))%Q col_y 34 0
                             (pad_to rows FILLER (skipn lm (firstn 12 raw)))
               /\ List.length (pad_to rows FILLER (firstn lm raw)) = rows
               /\ List.length (pad_to rows FILLER (skipn lm (firstn 12 raw))) = rows).
Proof.
  intros ix iw col_y.
  destruct (draw_section_inv_head x y w sec idx es y' Hd)
    as (st & label & h2 & h3 & h & head & body & Hst' & Hh & Hb & Hes & Hy & Hhead).
  rewrite Hst in Hst'. injection Hst' as <-.
  assert (Hbody : forall c, draw_body (py "content") c sec = draw_content c sec)
    by reflexivity.
  rewrite Hbody in Hb.
  destruct (draw_content_bullets _ _ _ Hb) as (pre & raw & Hraw & Hbd & Hpre).
  cbn [s_inner_x s_inner_y s_inner_w] in Hbd. fold ix iw in Hbd.
  exists (head ++ pre), raw. subst es body.
  split; [exact Hraw|]. split; [rewrite app_assoc; reflexivity|].
  split.
  - intros Hn.
    destruct (bullet_block_one_col ix iw (y + 72 + 120 + 48) raw Hn)
      as (line & ph_x & ph_y & ph_w & ph_h & tail & Hbb & Hl & Ht).
    rewrite Hbb. split.
    + rewrite !filter_app. rewrite Hhead, Hpre. cbn [filter app]. rewrite Hl.
      rewrite filter_app, bullet_rows_no_placeholder. cbn. rewrite Ht. reflexivity.
    + eexists _, _, _. split; [|rewrite <- app_assoc; reflexivity]. reflexivity.
  - intros Hn m lm rows.
    destruct (bullet_block_two_cols ix iw (y + 72 + 120 + 48) raw Hn)
      as (split_x & top & bot & Hsx & Hbb & HL & HR).
    rewrite Hbb. split.
    + rewrite !filter_app, Hhead, Hpre. cbn [filter app is_placeholder].
      rewrite filter_app, !bullet_rows_no_placeholder. reflexivity.
    + exists split_x, top, bot. split; [exact Hsx|].
      split; [rewrite <- app_assoc; reflexivity|]. split; assumption.
Qed.

Lemma content_bullet_layout_witness :
  exists es y', draw_section 0 0 1092 (content_with_items 10) 0 = Ok (es, y')
    /\ filter is_placeholder es = [].
Proof.
  destruct (draw_section 0 0 1092 (content_with_items 10) 0) as [[es y']|e] eqn:Hd;
    [|vm_compute in Hd; discriminate Hd].
  exists es, y'. split; [reflexivity|].
  destruct (content_bullet_layout (content_with_items 10) 0 0 1092 0 es y' eq_refl Hd)
    as (pre & raw & Hraw & _ & _ & H2).
  vm_compute in Hraw. injection Hraw as <-.
  destruct (H2 ltac:(simpl; lia)) as [Hf _]. exact Hf.
Defined.

(** Scenario B: ten list items give two columns of five bullet rows each
    and no image placeholder. *)
Example ten_items_two_columns_of_five :
  exists es y',
    draw_section 0 0 1092 (content_with_items 10) 0 = Ok (es, y')
    /\ List.length (filter (is_bullet_at (18 + 6)) es) = 5%nat
    /\ List.length (filter (is_bullet_at (18 + 1 * ((1092 - 36 - 26) / 2 + 26) + 6)) es) = 5%nat
    /\ filter is_placeholder es = [].
Proof.
  destruct (draw_section 0 0 1092 (content_with_items 10) 0) as [[es y']|e] eqn:Hd;
    [|vm_compute in Hd; discriminate Hd].
  exists es, y'. split; [reflexivity|].
  vm_compute in Hd. injection Hd as <- <-. vm_compute. repeat split.
Qed.

(** ** C4: the height grows with the item count of a component *)

(** A section dict whose "components" entry lists [pre ++ c :: post],
    between the entries [kv_pre] and [kv_post]. *)
Definition with_component (kv_pre kv_post : list (pystr * json))
  (pre post : list json) (c : json) : json :=
  JObj (kv_pre ++ (py "components", JList (pre ++ c :: post)) :: kv_post).

(** [r2] is [r1] with the component [c1] replaced by [c2], if at all. *)
Definition rel_comps (c1 c2 : json) (r1 r2 : res (list json)) : Prop :=
  r1 = r2 \/ exists a b, r1 = Ok (a ++ c1 :: b) /\ r2 = Ok (a ++ c2 :: b).

Lemma find_app {A : Type} (f : A -> bool) (l1 l2 : list A) :
  find f (l1 ++ l2) = match find f l1 with Some x => Some x | None => find f l2 end.
Proof.
  induction l1 as [|x l1 IH]; [reflexivity|]. simpl. destruct (f x); [reflexivity|exact IH].
Qed.

Lemma filterM_app {A : Type} (f : A -> res bool) (a : list A) (x : A) (b : list A) :
  filterM f (a ++ x :: b) =
    let* fa := filterM f a in
    let* bx := f x in
    let* fb := filterM f b in
    Ok (fa ++ (if bx then x :: fb else fb)).
Proof.
  induction a as [|y a IH].
  - simpl. destruct (f x) as [bx|e]; [|reflexivity]. cbn [bind].
    destruct (filterM f b); reflexivity.
  - cbn [app filterM]. rewrite IH.
    destruct (f y) as [by_|e]; [|reflexivity]. cbn [bind].
    destruct (filterM f a) as [fa|e]; [|reflexivity]. cbn [bind].
    destruct (f x) as [bx|e]; [|reflexivity]. cbn [bind].
    destruct (filterM f b) as [fb|e]; [|reflexivity]. cbn [bind].
    destruct by_; reflexivity.
Qed.

Lemma rel_comps_length (c1 c2 : json) (l1 l2 : list json) :
  rel_comps c1 c2 (Ok l1) (Ok l2) -> List.length l1 = List.length l2.
Proof.
  intros [E|(a & b & E1 & E2)].
  - injection E as <-. reflexivity.
  - apply Ok_inj in E1, E2. subst. rewrite !length_app. reflexivity.
Qed.

Lemma clamp_mono (lo hi n1 n2 : Z) : n1 <= n2 -> clamp lo hi n1 <= clamp lo hi n2.
Proof. unfold clamp. lia. Qed.

Section ReplaceComponent.

Variables (kv_pre kv_post : list (pystr * json)) (pre post : list json) (c1 c2 : json).
Hypothesis Hkind : comp_kind c1 = comp_kind c2.

Let s1 := with_component kv_pre kv_post pre post c1.
Let s2 := with_component kv_pre kv_post pre post c2.

Lemma with_component_get (k : string) (d : json)
  (Hk : pystr_eqb (py "components") (py k) = false) :
  py_get s1 k d = py_get s2 k d.
Proof.
  unfold s1, s2, with_component, py_get. rewrite !find_app.
  destruct (find _ kv_pre) as [[? ?]|]; [reflexivity|].
  cbn [find fst]. rewrite Hk. reflexivity.
Qed.

Lemma with_component_components (d : json) :
  (exists v, py_get s1 "components" d = Ok v /\ py_get s2 "components" d = Ok v)
  \/ (py_get s1 "components" d = Ok (JList (pre ++ c1 :: post))
      /\ py_get s2 "components" d = Ok (JList (pre ++ c2 :: post))).
Proof.
  unfold s1, s2, with_component, py_get. rewrite !find_app.
  destruct (find _ kv_pre) as [[? v]|].
  - left. exists v. split; reflexivity.
  - right. cbn [find fst].
    change (pystr_eqb (py "components") (py "components")) with true. split; reflexivity.
Qed.

Lemma truthy_cons_list (a b : list json) (c : json) : truthy (JList (a ++ c :: b)) = true.
Proof. simpl. rewrite length_app. simpl. rewrite Nat.add_succ_r. reflexivity. Qed.

Lemma components_of_rel : rel_comps c1 c2 (components_of s1) (components_of s2).
Proof.
  unfold components_of.
  destruct (with_component_components JNull) as [[v [E1 E2]]|[E1 E2]];
    rewrite E1, E2; cbn [bind]; [left; reflexivity|].
  right. exists pre, post. unfold py_or. rewrite !truthy_cons_list. split; reflexivity.
Qed.

Lemma find_components_rel (t : list string) :
  rel_comps c1 c2 (find_components s1 t) (find_components s2 t).
Proof.
  unfold find_components.
  destruct (mapM _ t) as [wanted|e]; cbn [bind]; [|left; reflexivity].
  destruct components_of_rel as [E|(a & b & E1 & E2)].
  - rewrite E. left. reflexivity.
  - rewrite E1, E2. cbn [bind]. rewrite !filterM_app.
    destruct (filterM _ a) as [fa|e]; cbn [bind]; [|left; reflexivity].
    rewrite Hkind.
    destruct (comp_kind c2) as [k|e]; cbn [bind]; [|left; reflexivity].
    destruct (filterM _ b) as [fb|e]; cbn [bind]; [|left; reflexivity].
    destruct (existsb (pystr_eqb k) wanted).
    + right. exists fa, fb. split; reflexivity.
    + left. reflexivity.
Qed.

Variables (i1 i2 : list pystr).
Hypothesis Hi1 : list_items_from_component c1 = Ok i1.
Hypothesis Hi2 : list_items_from_component c2 = Ok i2.
Hypothesis Hle : (List.length i1 <= List.length i2)%nat.

Lemma item_rows_mono (kind : string) (lo hi dflt r1 r2 : Z) (Hd : dflt <= lo) :
  item_rows s1 kind lo hi dflt = Ok r1 -> item_rows s2 kind lo hi dflt = Ok r2 -> r1 <= r2.
Proof.
  unfold item_rows. intros H1 H2.
  destruct (find_components_rel [kind]) as [E|(a & b & E1 & E2)].
  - rewrite E in H1. rewrite H1 in H2. apply Ok_inj in H2. lia.
  - rewrite E1 in H1. rewrite E2 in H2. cbn [bind] in H1, H2.
    destruct a as [|x a].
    + cbn [app] in H1, H2. rewrite Hi1 in H1. rewrite Hi2 in H2. cbn [bind] in H1, H2.
      destruct i1 as [|y1 l1]; destruct i2 as [|y2 l2]; apply Ok_inj in H1, H2; subst.
      * lia.
      * unfold clamp. lia.
      * simpl in Hle. lia.
      * apply clamp_mono. simpl in Hle |- *. lia.
    + cbn [app] in H1, H2. rewrite H1 in H2. apply Ok_inj in H2. lia.
Qed.

Lemma inner_bottom_mono (st : pystr) (b1 b2 : Z) :
  _inner_bottom_for_section st s1 0 = Ok b1 ->
  _inner_bottom_for_section st s2 0 = Ok b2 -> b1 <= b2.
Proof.
  unfold _inner_bottom_for_section. intros H1 H2.
  destruct (canon (JStr st)) as [st'|e]; [|discriminate H1]. cbn [bind] in H1, H2.
  destruct (pystr_eqb st' (py "hero")).
  { apply Ok_inj in H1, H2. lia. }
  destruct (pystr_eqb st' (py "features")).
  { inv_binds. lia. }
  destruct (pystr_eqb st' (py "content")).
  { destruct (item_rows s1 "list" 4 12 4) as [r1|e] eqn:R1; [|discriminate H1].
    destruct (item_rows s2 "list" 4 12 4) as [r2|e] eqn:R2; [|discriminate H2].
    pose proof (item_rows_mono "list" 4 12 4 r1 r2 ltac:(lia) R1 R2).
    cbn [bind] in H1, H2.
    destruct (find_components_rel ["text"]) as [E|(a & b & E1 & E2)].
    - rewrite E in H1. destruct (find_components s2 ["text"]); [|discriminate H1].
      cbn [bind] in H1, H2. apply Ok_inj in H1, H2. subst. lia.
    - rewrite E1 in H1. rewrite E2 in H2. cbn [bind] in H1, H2.
      assert (List.length (a ++ c1 :: b) = List.length (a ++ c2 :: b))
        as Hl by (rewrite !length_app; reflexivity).
      rewrite Hl in H1. apply Ok_inj in H1, H2. subst. lia. }
  destruct (pystr_eqb st' (py "faq")).
  { destruct (item_rows s1 "accordion" 4 10 4) as [r1|e] eqn:R1; [|discriminate H1].
    destruct (item_rows s2 "accordion" 4 10 4) as [r2|e] eqn:R2; [|discriminate H2].
    pose proof (item_rows_mono "accordion" 4 10 4 r1 r2 ltac:(lia) R1 R2).
    cbn [bind] in H1, H2. apply Ok_inj in H1, H2. lia. }
  destruct (pystr_eqb st' (py "proof")).
  { destruct (find_components s1 ["quote"]) as [q1|e] eqn:Q1; [|discriminate H1].
    destruct (find_components s2 ["quote"]) as [q2|e] eqn:Q2; [|discriminate H2].
    pose proof (find_components_rel ["quote"]) as Rq. rewrite Q1, Q2 in Rq.
    apply rel_comps_length in Rq.
    cbn [bind] in H1, H2.
    destruct q1, q2; simpl in Rq; try discriminate Rq.
    - destruct (find_components s1 ["stats"]) as [t1|e] eqn:T1; [|discriminate H1].
      destruct (find_components s2 ["stats"]) as [t2|e] eqn:T2; [|discriminate H2].
      pose proof (find_components_rel ["stats"]) as Rt. rewrite T1, T2 in Rt.
      apply rel_comps_length in Rt. cbn [bind] in H1, H2.
      destruct t1, t2; simpl in Rt; try discriminate Rt;
        apply Ok_inj in H1, H2; lia.
    - apply Ok_inj in H1, H2. lia. }
  destruct (pystr_eqb st' (py "steps")).
  { destruct (item_rows s1 "list" 3 8 3) as [r1|e] eqn:R1; [|discriminate H1].
    destruct (item_rows s2 "list" 3 8 3) as [r2|e] eqn:R2; [|discriminate H2].
    pose proof (item_rows_mono "list" 3 8 3 r1 r2 ltac:(lia) R1 R2).
    cbn [bind] in H1, H2. apply Ok_inj in H1, H2. lia. }
  destruct (pystr_eqb st' (py "form")).
  { destruct (find_components s1 FORM_FIELD_KINDS) as [f1|e] eqn:F1; [|discriminate H1].
    destruct (find_components s2 FORM_FIELD_KINDS) as [f2|e] eqn:F2; [|discriminate H2].
    pose proof (find_components_rel FORM_FIELD_KINDS) as Rf. rewrite F1, F2 in Rf.
    apply rel_comps_length in Rf. cbn [bind] in H1, H2.
    apply Ok_inj in H1, H2. subst.
    destruct f1, f2; simpl in Rf; try discriminate Rf; [lia|].
    simpl List.length. rewrite Rf. lia. }
  destruct (in_strs st' _).
  { apply Ok_inj in H1, H2. lia. }
  destruct (with_component_components (JList [])) as [[v [E1 E2]]|[E1 E2]].
  - rewrite E1 in H1. rewrite E2 in H2. rewrite H1 in H2. apply Ok_inj in H2. lia.
  - rewrite E1 in H1. rewrite E2 in H2. cbn [bind] in H1, H2.
    unfold py_or in H1, H2. rewrite !truthy_cons_list in H1. rewrite !truthy_cons_list in H2.
    cbn [py_len bind] in H1, H2.
    assert (List.length (pre ++ c1 :: post) = List.length (pre ++ c2 :: post))
      as Hl by (rewrite !length_app; reflexivity).
    rewrite Hl in H1. rewrite H1 in H2. apply Ok_inj in H2. lia.
Qed.

End ReplaceComponent.

(** C4: replacing one component of a section by a component of the same
    kind that has at least as many list items, all else unchanged, never
    lowers the computed section height, whatever the section's type. *)
Theorem height_monotone_in_items (kv_pre kv_post : list (pystr * json))
  (pre post : list json) (c1 c2 : json) (i1 i2 : list pystr) (h1 h2 : Z)
  (Hkind : comp_kind c1 = comp_kind c2)
  (Hi1 : list_items_from_component c1 = Ok i1)
  (Hi2 : list_items_from_component c2 = Ok i2)
  (Hle : (List.length i1 <= List.length i2)%nat)
  (H1 : section_height_for (with_component kv_pre kv_post pre post c1) = Ok h1)
  (H2 : section_height_for (with_component kv_pre kv_post pre post c2) = Ok h2) :
  h1 <= h2.
Proof.
  unfold section_height_for in H1, H2.
  rewrite (with_component_get kv_pre kv_post pre post c1 c2 "type" JNull eq_refl) in H1.
  destruct (py_get (with_component kv_pre kv_post pre post c2) "type" JNull)
    as [ty|e]; [|discriminate H1].
  cbn [bind] in H1, H2.
  destruct (canon ty) as [st|e]; [|discriminate H1]. cbn [bind] in H1, H2.
  destruct (_inner_bottom_for_section st (with_component kv_pre kv_post pre post c1) 0)
    as [b1|e] eqn:B1; [|discriminate H1].
  destruct (_inner_bottom_for_section st (with_component kv_pre kv_post pre post c2) 0)
    as [b2|e] eqn:B2; [|discriminate H2].
  pose proof (inner_bottom_mono kv_pre kv_post pre post c1 c2 Hkind i1 i2 Hi1 Hi2 Hle
                st b1 b2 B1 B2).
  cbn [bind] in H1, H2. apply Ok_inj in H1, H2. lia.
Qed.

Definition list_comp (n : nat) : json :=
  JObj [(py "type", JStr (py "list"));
        (py "items", JList (map (fun i => JStr (py "item " ++ z_text (Z.of_nat i))) (seq 1 n)))].

Lemma height_monotone_in_items_witness :
  section_height_for (with_component [(py "type", JStr (py "content"))] [] [] [] (list_comp 5)) = Ok 408
  /\ section_height_for (with_component [(py "type", JStr (py "content"))] [] [] [] (list_comp 9)) = Ok 496
  /\ 408 <= 496.
Proof.
  split; [vm_compute; reflexivity|]. split; [vm_compute; reflexivity|].
  eapply (height_monotone_in_items [(py "type", JStr (py "content"))] [] [] []
            (list_comp 5) (list_comp 9)).
  - reflexivity.
  - reflexivity.
  - reflexivity.
  - simpl. lia.
  - vm_compute. reflexivity.
  - vm_compute. reflexivity.
Defined.

(** ** C1: the walk over the sections after the hero slot *)

(** [walk rest i y es y' k]: starting at cursor [y] with index [i], the
    sections [rest] are drawn in order, each only when its height fits
    above the content bottom limit, stopping at the first that does not
    fit; [es] are the elements drawn, [y'] the final cursor and [k] the
    final index. *)
Inductive walk : list json -> nat -> Q -> list elem -> Q -> nat -> Prop :=
| walk_end (i : nat) (y : Q) : walk [] i y [] y i
| walk_stop (s : json) (r : list json) (i : nat) (y : Q) (h : Z) :
    section_height_for s = Ok h ->
    (inject_Z content_bottom_limit < y + inject_Z h)%Q ->
    walk (s :: r) i y [] y i
| walk_draw (s : json) (r : list json) (i : nat) (y : Q) (h : Z)
    (es : list elem) (y1 : Q) (es' : list elem) (y' : Q) (k : nat) :
    section_height_for s = Ok h ->
    (y + inject_Z h <= inject_Z content_bottom_limit)%Q ->
    draw_section (inject_Z content_x) y (inject_Z content_w) s (Z.of_nat i) = Ok (es, y1) ->
    walk r (S i) y1 es' y' k ->
    walk (s :: r) i y (es ++ es') y' k.

Lemma place_sections_walk (rest : list json) (i : nat) (y : Q) es y' k :
  place_sections rest i y = Ok (es, y', k) -> walk rest i y es y' k.
Proof.
  revert i y es y' k. induction rest as [|s r IH]; intros i y es y' k H.
  - simpl in H. injection H as <- <- <-. constructor.
  - simpl in H. destruct (section_height_for s) as [h|e] eqn:Eh; [|discriminate H].
    cbn [bind] in H.
    destruct (Qlt_le_dec (inject_Z content_bottom_limit) (y + inject_Z h)) as [Hlt|Hge].
    + injection H as <- <- <-. eapply walk_stop; eassumption.
    + destruct (draw_section _ y _ s _) as [[es1 y1]|e] eqn:Ed; [|discriminate H].
      cbn [bind] in H.
      destruct (place_sections r (S i) y1) as [[[es2 y2] k2]|e] eqn:Ep; [|discriminate H].
      cbn [bind] in H. injection H as <- <- <-.
      eapply walk_draw; [eassumption|eassumption|eassumption|]. apply IH. exact Ep.
Qed.

Lemma walk_bounds (rest : list json) (i : nat) (y : Q) es y' k :
  walk rest i y es y' k ->
  (i <= k <= i + List.length rest)%nat
  /\ ((k < i + List.length rest)%nat ->
      exists s h, nth_error rest (k - i) = Some s /\ section_height_for s = Ok h
                  /\ (inject_Z content_bottom_limit < y' + inject_Z h)%Q).
Proof.
  induction 1 as [i y|s r i y h Hh Hlt|s r i y h es y1 es' y' k Hh Hle Hd Hw IH].
  - simpl. split; [lia|]. intros. lia.
  - simpl. split; [lia|]. intros _. exists s, h. rewrite Nat.sub_diag. auto.
  - destruct IH as [Hb IH]. simpl. split; [lia|]. intros Hk.
    destruct (IH ltac:(lia)) as (s' & h' & Hn & Hh' & Hlt).
    exists s', h'. split; [|split; assumption].
    replace (k - i)%nat with (S (k - S i)) by lia. exact Hn.
Qed.

(** C1: the page body is the hero slot (the first section when it is a
    hero, else the automatic hero), then the sections after it, drawn in
    their original order and each in full, as long as each one's computed
    height fits above the content bottom limit, stopping at the first that
    does not fit; the "more sections not shown" caption is appended once
    exactly when the walk stopped before the last section (the first
    undrawn section then did not fit), and not at all otherwise. *)
Theorem compose_body_walk (sections : list json) (h1 : json) (out : list elem)
  (H : compose_body sections h1 = Ok out) :
  exists hero start hero_es cy0 body cy_end k,
    ((exists r, sections = hero :: r /\ is_hero hero = Ok true /\ start = 1%nat)
     \/ (hero = auto_hero h1 /\ start = 0%nat
         /\ (sections = [] \/ exists s0 r, sections = s0 :: r /\ is_hero s0 = Ok false)))
    /\ draw_section (inject_Z content_x) (inject_Z (hy + HEADER_H + 8))
         (inject_Z content_w) hero 0 = Ok (hero_es, cy0)
    /\ walk (skipn start sections) start cy0 body cy_end k
    /\ (start <= k <= List.length sections)%nat
    /\ ((k < List.length sections)%nat ->
        exists s h, nth_error sections k = Some s /\ section_height_for s = Ok h
                    /\ (inject_Z content_bottom_limit < cy_end + inject_Z h)%Q)
    /\ out = hero_es ++ body
             ++ (if (k <? List.length sections)%nat then [caption_elem cy_end] else []).
Proof.
  unfold compose_body in H.
  destruct sections as [|s0 r].
  - cbn [bind] in H.
    destruct (draw_section _ _ _ (auto_hero h1) 0) as [[hero_es cy0]|e] eqn:Ed; [|discriminate H].
    cbn [bind] in H.
    destruct (place_sections (skipn 0 []) 0 cy0) as [[[body cy_end] k]|e] eqn:Ep;
      [|discriminate H].
    cbn [bind] in H. apply Ok_inj in H.
    pose proof (place_sections_walk _ _ _ _ _ _ Ep) as Hw.
    destruct (walk_bounds _ _ _ _ _ _ Hw) as [Hb _]. simpl in Hb.
    exists (auto_hero h1), 0%nat, hero_es, cy0, body, cy_end, k.
    split; [right; split; [reflexivity|split; [reflexivity|left; reflexivity]]|].
    split; [exact Ed|]. split; [exact Hw|]. split; [simpl; lia|].
    split; [simpl; intros; lia|]. exact (eq_sym H).
  - destruct (is_hero s0) as [b|e] eqn:Eh; [|discriminate H]. cbn [bind] in H.
    set (hero := if b then s0 else auto_hero h1) in *.
    set (start := if b then 1%nat else 0%nat) in *.
    assert (Hslot : (if b then (s0, 1%nat) else (auto_hero h1, 0%nat)) = (hero, start))
      by (destruct b; reflexivity).
    rewrite Hslot in H. cbn iota beta in H.
    destruct (draw_section _ _ _ hero 0) as [[hero_es cy0]|e] eqn:Ed; [|discriminate H].
    cbn [bind] in H.
    destruct (place_sections (skipn start (s0 :: r)) start cy0) as [[[body cy_end] k]|e] eqn:Ep;
      [|discriminate H].
    cbn [bind] in H. apply Ok_inj in H.
    pose proof (place_sections_walk _ _ _ _ _ _ Ep) as Hw.
    assert (Hst : (start <= List.length (s0 :: r))%nat) by (unfold start; destruct b; simpl; lia).
    destruct (walk_bounds _ _ _ _ _ _ Hw) as [Hb Hstop].
    rewrite length_skipn in Hb, Hstop.
    exists hero, start, hero_es, cy0, body, cy_end, k.
    split.
    { destruct b; [left; exists r; auto|right; split; [reflexivity|split; [reflexivity|]]].
      right. exists s0, r. auto. }
    split; [exact Ed|]. split; [exact Hw|]. split; [lia|].
    split; [|exact (eq_sym H)].
    intros Hk. destruct (Hstop ltac:(lia)) as (s & h & Hn & Hh & Hlt).
    exists s, h. split; [|split; assumption].
    rewrite nth_error_skipn in Hn. replace (start + (k - start))%nat with k in Hn by lia.
    exact Hn.
Qed.

Lemma compose_body_walk_witness :
  exists out,
    compose_body (repeat (content_with_items 10) 5) (JStr (py "Title")) = Ok out
    /\ exists hero_es body cy_end k,
         (k <= 5)%nat
         /\ out = hero_es ++ body
                  ++ (if (k <? 5)%nat then [caption_elem cy_end] else []).
Proof.
  destruct (compose_body (repeat (content_with_items 10) 5) (JStr (py "Title")))
    as [out|e] eqn:Hc; [|vm_compute in Hc; discriminate Hc].
  exists out. split; [reflexivity|].
  destruct (compose_body_walk _ _ out Hc)
    as (hero & start & hero_es & cy0 & body & cy_end & k & _ & _ & _ & Hk & _ & Hout).
  exists hero_es, body, cy_end, k. split; [exact (proj2 Hk)|exact Hout].
Defined.

(** ** C9: what a render depends on *)

Definition page_home : json :=
  JObj [(py "page", JStr (py "Home")); (py "slug", JStr (py "/"))].

(** A fresh process: no navigation cache yet, no readable files. *)
Definition world_at (ts : string) : world :=
  {| nav_cache := None; files := []; clock := py ts; trace := [] |}.

(** C9 (claim as stated): two renders of the same page, with the same
    (empty) navigation sources, a minute apart, give different documents;
    and the navigation files are opened after the header elements have
    been drawn and before the rest. *)
Lemma render_clock_cex :
  fst (render_page_svg page_home (world_at "2026-10-15 09:00"))
    <> fst (render_page_svg page_home (world_at "2026-10-15 09:01"))
  /\ exists pre post,
       trace (snd (render_page_svg page_home (world_at "2026-10-15 09:00")))
         = map Draw pre ++ [ReadFile "sitemap.json"; ReadFile INPUT_JSON] ++ map Draw post
       /\ pre <> [] /\ post <> [].
Proof.
  split.
  - intros H. vm_compute in H. discriminate H.
  - exists (match page_header page_home with Ok (_, _, e) => e | Err _ => [] end),
      (match fst (render_page_svg page_home (world_at "2026-10-15 09:00")) with
       | Ok d => skipn 10 d | Err _ => [] end).
    split; [vm_compute; reflexivity|].
    split; vm_compute; discriminate.
Qed.

Lemma nav_clock (w : world) : clock (snd (nav_from_page_labels w)) = clock w.
Proof.
  unfold nav_from_page_labels. destruct (nav_cache w); [reflexivity|].
  cbn. destruct (sitemap_nav _) as [[|? ?]|]; cbn; try reflexivity;
    destruct (page_labels _) as [|? ?]; reflexivity.
Qed.

Lemma nav_items_det (w1 w2 : world) :
  nav_cache w1 = nav_cache w2 -> files w1 = files w2 ->
  fst (nav_from_page_labels w1) = fst (nav_from_page_labels w2).
Proof.
  intros Hc Hf. unfold nav_from_page_labels. rewrite Hc.
  destruct (nav_cache w2); [reflexivity|].
  cbn. rewrite Hf.
  destruct (sitemap_nav _) as [[|? ?]|]; cbn; try reflexivity;
    destruct (page_labels _) as [|? ?]; reflexivity.
Qed.

Lemma nav_trace_uncached (w : world) :
  nav_cache w = None ->
  exists rest, trace (snd (nav_from_page_labels w)) = trace w ++ ReadFile "sitemap.json" :: rest.
Proof.
  intros Hc. unfold nav_from_page_labels. rewrite Hc. cbn.
  destruct (sitemap_nav _) as [[|? ?]|]; cbn;
    try (exists []; reflexivity);
    destruct (page_labels _) as [|? ?]; cbn;
    (exists [ReadFile INPUT_JSON]; rewrite <- app_assoc; reflexivity).
Qed.

(** C9 (amended): two renders of the same page in worlds with the same
    navigation cache and the same files either fail with the same error
    or give documents that are equal except for the "Rendered: <clock>"
    timestamp line, which shows each world's clock; and when the
    navigation cache is empty, "sitemap.json" is opened after the header
    elements have been drawn, in the middle of the render. *)
Theorem render_deterministic_up_to_stamp (p : json) (w1 w2 : world)
  (Hc : nav_cache w1 = nav_cache w2) (Hf : files w1 = files w2) :
  ((exists e, fst (render_page_svg p w1) = Err e /\ fst (render_page_svg p w2) = Err e)
   \/ (exists doc,
         fst (render_page_svg p w1) = Ok (doc ++ [rendered_stamp (clock w1); ERaw "</svg>"])
         /\ fst (render_page_svg p w2) = Ok (doc ++ [rendered_stamp (clock w2); ERaw "</svg>"])))
  /\ (nav_cache w1 = None -> forall h1 s0 pre,
        page_header p = Ok (h1, s0, pre) ->
        exists rest, trace (snd (render_page_svg p w1))
                       = trace w1 ++ map Draw pre ++ ReadFile "sitemap.json" :: rest).
Proof.
  unfold render_page_svg. split.
  - destruct (page_header p) as [[[h1 s0] pre]|e]; [|left; exists e; split; reflexivity].
    assert (Hn : fst (nav_from_page_labels (emit pre w1)) = fst (nav_from_page_labels (emit pre w2)))
      by (apply nav_items_det; [exact Hc|exact Hf]).
    pose proof (nav_clock (emit pre w1)) as C1. pose proof (nav_clock (emit pre w2)) as C2.
    destruct (nav_from_page_labels (emit pre w1)) as [n1 v1].
    destruct (nav_from_page_labels (emit pre w2)) as [n2 v2].
    cbn [fst snd] in Hn, C1, C2. subst n2.
    destruct (place_nav (rev n1) (cta_x - NAV_RIGHT_GAP)) as [nav_es|e];
      cbn [bind]; [|left; exists e; split; reflexivity].
    destruct (sections_list s0) as [secs|e]; cbn [bind]; [|left; exists e; split; reflexivity].
    destruct (compose_body secs h1) as [body|e]; cbn [bind]; [|left; exists e; split; reflexivity].
    right. exists (pre ++ nav_es ++ body ++ chrome_bottom).
    rewrite C1, C2. cbn [fst]. rewrite <- !app_assoc. split; reflexivity.
  - intros Hnone h1 s0 pre Hh. rewrite Hh.
    destruct (nav_trace_uncached (emit pre w1) Hnone) as [rest Hr].
    destruct (nav_from_page_labels (emit pre w1)) as [n1 v1].
    cbn [snd] in Hr. cbn [trace emit] in Hr.
    destruct (let* nav_es := place_nav (rev n1) (cta_x - NAV_RIGHT_GAP) in _) as [post|e].
    + exists (rest ++ map Draw post). cbn [snd emit trace]. rewrite Hr.
      rewrite <- !app_assoc. reflexivity.
    + exists rest. cbn [snd]. rewrite Hr. rewrite <- !app_assoc. reflexivity.
Qed.

Lemma render_deterministic_up_to_stamp_witness :
  exists doc,
    fst (render_page_svg page_home (world_at "2026-10-15 09:00"))
      = Ok (doc ++ [rendered_stamp (py "2026-10-15 09:00"); ERaw "</svg>"])
    /\ fst (render_page_svg page_home (world_at "2026-10-15 09:01"))
      = Ok (doc ++ [rendered_stamp (py "2026-10-15 09:01"); ERaw "</svg>"]).
Proof.
  destruct (render_deterministic_up_to_stamp page_home
              (world_at "2026-10-15 09:00") (world_at "2026-10-15 09:01") eq_refl eq_refl)
    as [[[e [H1 _]]|[doc [H1 H2]]] _].
  - vm_compute in H1. discriminate H1.
  - exists doc. split; [exact H1|exact H2].
Defined.

(* ================================================================= *)
(** ** Further properties of the rendering helpers *)


Definition escape_char (c : N) : pystr :=
  if (c =? 38)%N then py "&amp;"
  else if (c =? 60)%N then py "&lt;"
  else if (c =? 62)%N then py "&gt;"
  else if (c =? 34)%N then py "&quot;"
  else if (c =? 39)%N then py "&apos;"
  else [c].

Lemma replace_one_app (a : N) (rep s t : pystr) :
  replace_one a rep (s ++ t) = replace_one a rep s ++ replace_one a rep t.
Proof. unfold replace_one. apply flat_map_app. Qed.

Lemma replace_one_flat_map (a : N) (rep : pystr) (f : N -> pystr) (s : pystr) :
  replace_one a rep (flat_map f s) = flat_map (fun c => replace_one a rep (f c)) s.
Proof.
  induction s as [|c s IH]; [reflexivity|].
  simpl. rewrite replace_one_app, IH. reflexivity.
Qed.

Lemma escape_xml_char (c : N) : escape_xml [c] = escape_char c.
Proof.
  unfold escape_char.
  destruct (N.eqb_spec c 38) as [->|H1]; [reflexivity|].
  destruct (N.eqb_spec c 60) as [->|H2]; [reflexivity|].
  destruct (N.eqb_spec c 62) as [->|H3]; [reflexivity|].
  destruct (N.eqb_spec c 34) as [->|H4]; [reflexivity|].
  destruct (N.eqb_spec c 39) as [->|H5]; [reflexivity|].
  apply N.eqb_neq in H1, H2, H3, H4, H5.
  unfold escape_xml, replace_one. simpl.
  rewrite H1. simpl. rewrite H2. simpl. rewrite H3. simpl. rewrite H4. simpl.
  rewrite H5. reflexivity.
Qed.

Lemma escape_xml_flat_map (s : pystr) : escape_xml s = flat_map escape_char s.
Proof.
  transitivity (flat_map (fun c => escape_xml [c]) s).
  - assert (Hs : s = flat_map (fun c => [c]) s)
      by (induction s as [|c s IH]; [reflexivity|simpl; f_equal; exact IH]).
    unfold escape_xml. rewrite Hs at 1. rewrite !replace_one_flat_map. reflexivity.
  - apply flat_map_ext. exact escape_xml_char.
Qed.

(** The five chained replacements act as one pass over the text that
    replaces each character by its own entity: because the ampersand is
    replaced first, an entity produced by a later replacement is never
    escaped again. *)
Theorem escape_xml_per_char (s : pystr) : escape_xml s = flat_map escape_char s.
Proof. exact (escape_xml_flat_map s). Qed.

Lemma escape_char_cases (c : N) :
  (c = 38%N /\ escape_char c = py "&amp;") \/ (c = 60%N /\ escape_char c = py "&lt;")
  \/ (c = 62%N /\ escape_char c = py "&gt;") \/ (c = 34%N /\ escape_char c = py "&quot;")
  \/ (c = 39%N /\ escape_char c = py "&apos;")
  \/ (escape_char c = [c] /\ c <> 38%N /\ c <> 60%N /\ c <> 62%N /\ c <> 34%N /\ c <> 39%N).
Proof.
  unfold escape_char.
  destruct (N.eqb_spec c 38); [left; tauto|].
  destruct (N.eqb_spec c 60); [right; left; tauto|].
  destruct (N.eqb_spec c 62); [right; right; left; tauto|].
  destruct (N.eqb_spec c 34); [right; right; right; left; tauto|].
  destruct (N.eqb_spec c 39); [right; right; right; right; left; tauto|].
  right; right; right; right; right. tauto.
Qed.

Lemma escape_char_app_inj (c1 c2 : N) (t1 t2 : pystr) :
  escape_char c1 ++ t1 = escape_char c2 ++ t2 -> c1 = c2 /\ t1 = t2.
Proof.
  destruct (escape_char_cases c1) as [[-> ->]|[[-> ->]|[[-> ->]|[[-> ->]|[[-> ->]|[-> H1]]]]]];
  destruct (escape_char_cases c2) as [[-> ->]|[[-> ->]|[[-> ->]|[[-> ->]|[[-> ->]|[-> H2]]]]]];
  cbn; intros H; inversion H; subst; auto; tauto.
Qed.

Lemma escape_char_nil (c : N) : escape_char c <> [].
Proof.
  unfold escape_char.
  destruct (c =? 38)%N; [discriminate|]. destruct (c =? 60)%N; [discriminate|].
  destruct (c =? 62)%N; [discriminate|]. destruct (c =? 34)%N; [discriminate|].
  destruct (c =? 39)%N; discriminate.
Qed.

(** Escaping loses nothing: two texts with the same escaped form are
    equal. *)
Theorem escape_xml_injective (s1 s2 : pystr) :
  escape_xml s1 = escape_xml s2 -> s1 = s2.
Proof.
  rewrite !escape_xml_flat_map. revert s2.
  induction s1 as [|c1 s1 IH]; intros [|c2 s2]; simpl; intros H.
  - reflexivity.
  - destruct (escape_char c2) eqn:E; [exfalso; exact (escape_char_nil c2 E)|discriminate].
  - destruct (escape_char c1) eqn:E; [exfalso; exact (escape_char_nil c1 E)|discriminate].
  - apply escape_char_app_inj in H as [-> H]. f_equal. apply IH. exact H.
Qed.

(** An escaped text contains no [<], [>], double quote or single quote. *)
Theorem escape_xml_no_markup (s : pystr) :
  Forall (fun d => d <> 60%N /\ d <> 62%N /\ d <> 34%N /\ d <> 39%N) (escape_xml s).
Proof.
  rewrite escape_xml_flat_map. apply Forall_forall. intros d Hd.
  apply in_flat_map in Hd as [c [_ Hc]]. unfold escape_char in Hc.
  destruct (N.eqb_spec c 38);
    [simpl in Hc; intuition (subst; discriminate)|].
  destruct (N.eqb_spec c 60);
    [simpl in Hc; intuition (subst; discriminate)|].
  destruct (N.eqb_spec c 62);
    [simpl in Hc; intuition (subst; discriminate)|].
  destruct (N.eqb_spec c 34);
    [simpl in Hc; intuition (subst; discriminate)|].
  destruct (N.eqb_spec c 39);
    [simpl in Hc; intuition (subst; discriminate)|].
  destruct Hc as [<-|[]]. auto.
Qed.


Lemma strip_by_id (p : N -> bool) (s : pystr) :
  match s with
  | [] => True
  | c :: _ => p c = false /\ p (last s c) = false
  end -> strip_by p s = s.
Proof.
  destruct s as [|c r]; [reflexivity|]. intros [H1 H2].
  unfold strip_by, lstrip_by, rstrip_by. simpl drop_while at 2. rewrite H1.
  destruct (rev (c :: r)) as [|d q] eqn:E.
  - apply (f_equal (@List.length N)) in E. rewrite length_rev in E. discriminate E.
  - assert (Hs : c :: r = rev q ++ [d])
      by (rewrite <- (rev_involutive (c :: r)), E; reflexivity).
    rewrite Hs, last_last in H2. simpl. rewrite H2.
    rewrite <- E, rev_involutive. reflexivity.
Qed.

Lemma strip_idem (s : pystr) : strip (strip s) = strip s.
Proof.
  unfold strip. apply strip_by_id. apply strip_by_ends.
Qed.

Lemma ellipsis_not_space : is_space ELLIPSIS = false.
Proof. reflexivity. Qed.

(** Truncating an already truncated text to the same limit (at least 1)
    returns it unchanged. *)
Theorem truncate_idempotent (s t : pystr) (n : Z) (Hn : 1 <= n)
  (Ht : truncate (JStr s) n = Ok t) :
  truncate (JStr t) n = Ok t.
Proof.
  rewrite truncate_str in Ht |- *. apply Ok_inj in Ht.
  destruct (Z.of_nat (List.length (strip s)) <=? n) eqn:E.
  - subst t. rewrite strip_idem, E. reflexivity.
  - subst t. set (ss := strip s) in *.
    unfold slice_to. replace (0 <=? n - 1) with true by lia.
    set (u := rstrip (firstn (Z.to_nat (n - 1)) ss)).
    assert (Hstrip : strip (u ++ [ELLIPSIS]) = u ++ [ELLIPSIS]).
    { destruct (rstrip_by_prefix is_space (firstn (Z.to_nat (n - 1)) ss)) as [v Hv].
      fold (rstrip (firstn (Z.to_nat (n - 1)) ss)) in Hv. fold u in Hv.
      pose proof (firstn_skipn (Z.to_nat (n - 1)) ss) as Hss.
      rewrite Hv in Hss.
      pose proof (strip_by_ends is_space s) as HE. fold (strip s) in HE. fold ss in HE.
      rewrite <- Hss in HE. clearbody u.
      unfold strip. apply strip_by_id.
      destruct u as [|c' u'].
      - split; reflexivity.
      - refine (conj (proj1 HE) _).
        change (is_space (last ((c' :: u') ++ [ELLIPSIS]) c') = false).
        rewrite last_last. reflexivity. }
    rewrite Hstrip.
    assert (Hlen : (List.length u <= Z.to_nat (n - 1))%nat).
    { unfold u, rstrip. eapply Nat.le_trans; [apply rstrip_by_length|].
      rewrite length_firstn. lia. }
    rewrite length_app. simpl List.length.
    assert (Hn1 : Z.of_nat (Z.to_nat (n - 1)) = n - 1) by (apply Z2Nat.id; lia).
    replace (Z.of_nat (List.length u + 1) <=? n) with true
      by (symmetry; apply Z.leb_le; lia).
    reflexivity.
Qed.

(** The characters [canon] makes of one input character. *)
Definition canon_char (c : N) : pystr :=
  replace_char 32 45 (replace_char 95 45 (lower_char c)).

Lemma canon_flat (x : pystr) :
  replace_char 32 45 (replace_char 95 45 (py_lower x)) = flat_map canon_char x.
Proof.
  induction x as [|c x IH]; [reflexivity|].
  unfold py_lower, replace_char in *. simpl. rewrite !map_app, IH. reflexivity.
Qed.

Lemma lower_fixed (d : N) :
  ~ (65 <= d <= 90)%N -> ~ ((192 <= d <= 222)%N /\ d <> 215%N) ->
  d <> 8490%N -> d <> 304%N -> lower_char d = [d].
Proof.
  intros H1 H2 H3 H4. unfold lower_char.
  destruct ((65 <=? d) && (d <=? 90))%N eqn:E1;
    [apply andb_true_iff in E1; rewrite !N.leb_le in E1; tauto|].
  destruct ((192 <=? d) && (d <=? 222) && negb (d =? 215))%N eqn:E2.
  { apply andb_true_iff in E2 as [E2 E2']. apply andb_true_iff in E2.
    rewrite !N.leb_le in E2. apply negb_true_iff, N.eqb_neq in E2'. tauto. }
  destruct (N.eqb_spec d 8490); [contradiction|].
  destruct (N.eqb_spec d 304); [contradiction|]. reflexivity.
Qed.

Lemma lower_char_cases (c : N) :
  ((65 <= c <= 90)%N /\ lower_char c = [(c + 32)%N])
  \/ ((192 <= c <= 222)%N /\ c <> 215%N /\ lower_char c = [(c + 32)%N])
  \/ (c = 8490%N /\ lower_char c = [107%N])
  \/ (c = 304%N /\ lower_char c = [105%N; 775%N])
  \/ (lower_char c = [c] /\ ~ (65 <= c <= 90)%N
       /\ ~ ((192 <= c <= 222)%N /\ c <> 215%N) /\ c <> 8490%N /\ c <> 304%N).
Proof.
  unfold lower_char.
  destruct ((65 <=? c) && (c <=? 90))%N eqn:E1.
  { left. apply andb_true_iff in E1. rewrite !N.leb_le in E1. tauto. }
  destruct ((192 <=? c) && (c <=? 222) && negb (c =? 215))%N eqn:E2.
  { right; left. apply andb_true_iff in E2 as [E2 E2']. apply andb_true_iff in E2.
    rewrite !N.leb_le in E2. apply negb_true_iff, N.eqb_neq in E2'. tauto. }
  destruct (N.eqb_spec c 8490) as [->|H3]; [right; right; left; tauto|].
  destruct (N.eqb_spec c 304) as [->|H4]; [right; right; right; left; tauto|].
  right; right; right; right. split; [reflexivity|].
  split; [|split; [|tauto]].
  - intros H. apply Bool.not_true_iff_false in E1. apply E1.
    apply andb_true_iff. rewrite !N.leb_le. exact H.
  - intros [H H']. apply Bool.not_true_iff_false in E2. apply E2.
    apply andb_true_iff. split; [apply andb_true_iff; rewrite !N.leb_le; exact H|].
    apply negb_true_iff, N.eqb_neq. exact H'.
Qed.

Lemma rc_single (d : N) :
  d <> 95%N -> d <> 32%N -> replace_char 32 45 (replace_char 95 45 [d]) = [d].
Proof.
  intros H1 H2. unfold replace_char. simpl.
  destruct (N.eqb_spec d 95); [contradiction|].
  destruct (N.eqb_spec d 32); [contradiction|]. reflexivity.
Qed.

Lemma canon_char_fixed (d : N) :
  lower_char d = [d] -> d <> 95%N -> d <> 32%N -> canon_char d = [d].
Proof. intros Hl H1 H2. unfold canon_char. rewrite Hl. apply rc_single; assumption. Qed.

Lemma canon_char_shift (c : N) :
  ((65 <= c <= 90)%N \/ ((192 <= c <= 222)%N /\ c <> 215%N)) ->
  lower_char c = [(c + 32)%N] ->
  canon_char c = [(c + 32)%N] /\ canon_char (c + 32) = [(c + 32)%N].
Proof.
  intros Hr Hl.
  assert (Hf : lower_char (c + 32) = [(c + 32)%N]) by (apply lower_fixed; lia).
  split; [unfold canon_char; rewrite Hl; apply rc_single; lia|].
  apply canon_char_fixed; [exact Hf|lia|lia].
Qed.

Lemma canon_char_fix (c : N) : flat_map canon_char (canon_char c) = canon_char c.
Proof.
  destruct (lower_char_cases c)
    as [[Hr Hl]|[[Hr [Hr' Hl]]|[[-> _]|[[-> _]|[Hl [H1 [H2 [H3 H4]]]]]]]].
  - destruct (canon_char_shift c (or_introl Hr) Hl) as [-> Hs].
    simpl. rewrite Hs. reflexivity.
  - destruct (canon_char_shift c (or_intror (conj Hr Hr')) Hl) as [-> Hs].
    simpl. rewrite Hs. reflexivity.
  - reflexivity.
  - reflexivity.
  - destruct (N.eqb_spec c 95) as [->|H5]; [reflexivity|].
    destruct (N.eqb_spec c 32) as [->|H6]; [reflexivity|].
    rewrite (canon_char_fixed c Hl H5 H6). simpl.
    rewrite (canon_char_fixed c Hl H5 H6). reflexivity.
Qed.

Lemma space_range (d : N) :
  is_space d = true -> (d <= 32 \/ d = 133 \/ d = 160 \/ 5760 <= d)%N.
Proof.
  unfold is_space. intros H.
  repeat rewrite orb_true_iff in H. repeat rewrite andb_true_iff in H.
  repeat rewrite N.leb_le in H. repeat rewrite N.eqb_eq in H. lia.
Qed.

Lemma not_space (d : N) :
  (33 <= d <= 132 \/ 134 <= d <= 159 \/ 161 <= d <= 5759)%N -> is_space d = false.
Proof.
  intros H. destruct (is_space d) eqn:E; [|reflexivity].
  apply space_range in E. lia.
Qed.

Lemma canon_char_nonspace (c : N) :
  is_space c = false -> canon_char c <> [] /\ Forall (fun d => is_space d = false) (canon_char c).
Proof.
  intros Hc.
  destruct (lower_char_cases c)
    as [[Hr Hl]|[[Hr [Hr' Hl]]|[[-> _]|[[-> _]|[Hl [H1 [H2 [H3 H4]]]]]]]].
  - destruct (canon_char_shift c (or_introl Hr) Hl) as [-> _].
    split; [discriminate|]. constructor; [apply not_space; lia|constructor].
  - destruct (canon_char_shift c (or_intror (conj Hr Hr')) Hl) as [-> _].
    split; [discriminate|]. constructor; [apply not_space; lia|constructor].
  - split; [discriminate|]. repeat constructor.
  - split; [discriminate|]. repeat constructor.
  - destruct (N.eqb_spec c 95) as [->|H5]; [split; [discriminate|repeat constructor]|].
    destruct (N.eqb_spec c 32) as [->|H6]; [discriminate Hc|].
    rewrite (canon_char_fixed c Hl H5 H6). split; [discriminate|].
    constructor; [exact Hc|constructor].
Qed.

Lemma flat_map_last {A B : Type} (f : A -> list B) (l : list A) (a : A) (d : B) :
  f a <> [] -> exists b, last (flat_map f (l ++ [a])) d = b /\ In b (f a).
Proof.
  intros Hne. rewrite flat_map_app. simpl. rewrite app_nil_r.
  destruct (exists_last Hne) as [q [b Hq]]. exists b. split.
  - rewrite Hq, app_assoc, last_last. reflexivity.
  - rewrite Hq. apply in_or_app. right. left. reflexivity.
Qed.

Lemma strip_canon_flat (x : pystr) :
  strip (flat_map canon_char (strip x)) = flat_map canon_char (strip x).
Proof.
  pose proof (strip_by_ends is_space x) as HE. fold (strip x) in HE.
  destruct (strip x) as [|c r] eqn:Ex; [reflexivity|].
  destruct HE as [Hh Hl].
  unfold strip. apply strip_by_id.
  destruct (canon_char_nonspace c Hh) as [Hne HF].
  destruct (canon_char c) as [|d q] eqn:Ec; [contradiction|].
  assert (HL : flat_map canon_char (c :: r) = d :: (q ++ flat_map canon_char r))
    by (simpl; rewrite Ec; reflexivity).
  destruct (exists_last (l := c :: r) ltac:(discriminate)) as [p [a Hp]].
  assert (Hlast : is_space (last (flat_map canon_char (c :: r)) d) = false).
  { rewrite Hp in Hl |- *. rewrite last_last in Hl.
    destruct (canon_char_nonspace a Hl) as [Hne' HF'].
    destruct (flat_map_last canon_char p a d Hne') as [b [Hb Hin]].
    rewrite Hb. rewrite Forall_forall in HF'. apply HF'. exact Hin. }
  rewrite HL in Hlast |- *. split; [inversion HF; assumption|exact Hlast].
Qed.

Lemma py_or_str_empty (t : pystr) : py_or (JStr t) (JStr []) = JStr t.
Proof. unfold py_or. destruct t; reflexivity. Qed.

Lemma flat_map_canon_fix (x : pystr) :
  flat_map canon_char (flat_map canon_char x) = flat_map canon_char x.
Proof.
  induction x as [|c x IH]; [reflexivity|].
  simpl. rewrite flat_map_app, canon_char_fix, IH. reflexivity.
Qed.

Lemma canon_fixpoint (j : json) (t : pystr) (H : canon j = Ok t) :
  canon (JStr t) = Ok t.
Proof.
  unfold canon in *. destruct (py_or j (JStr [])) as [| | |s0| |]; try discriminate H.
  cbn [py_strip bind] in H. apply Ok_inj in H. subst t.
  rewrite py_or_str_empty. cbn [py_strip bind].
  rewrite !canon_flat, strip_canon_flat, flat_map_canon_fix. reflexivity.
Qed.



(** No two adjacent hyphens. *)
Fixpoint no_double_hyphen (s : pystr) : Prop :=
  match s with
  | c :: ((d :: _) as r) => ~ (c = 45%N /\ d = 45%N) /\ no_double_hyphen r
  | _ => True
  end.

Lemma ndh_tail (c : N) (s : pystr) : no_double_hyphen (c :: s) -> no_double_hyphen s.
Proof. destruct s as [|d s]; simpl; tauto. Qed.

Lemma ndh_app (a b : pystr) :
  no_double_hyphen (a ++ b) -> no_double_hyphen a /\ no_double_hyphen b.
Proof.
  induction a as [|x a IH]; [simpl; tauto|].
  intros H. simpl in H. pose proof (ndh_tail _ _ H) as Ht.
  destruct (IH Ht) as [Ha Hb]. split; [|exact Hb].
  destruct a as [|y a]; [exact I|]. simpl in H |- *. tauto.
Qed.

Lemma ndh_strip_by (p : N -> bool) (s : pystr) :
  no_double_hyphen s -> no_double_hyphen (strip_by p s).
Proof.
  intros H. unfold strip_by, lstrip_by.
  destruct (drop_while_suffix p s) as [u Hu]. rewrite Hu in H.
  apply ndh_app in H as [_ H].
  destruct (rstrip_by_prefix p (drop_while p s)) as [v Hv]. rewrite Hv in H.
  apply ndh_app in H as [H _]. exact H.
Qed.

Lemma sub_runs_hyphen_ndh (b : bool) (s : pystr) :
  no_double_hyphen (sub_runs is_hyphen (py "-") b s)
  /\ (b = true -> hd 0%N (sub_runs is_hyphen (py "-") b s) <> 45%N).
Proof.
  revert b. induction s as [|c s IH]; intros b; [split; [exact I|intros _; discriminate]|].
  simpl. destruct (is_hyphen c) eqn:Ec.
  - destruct (IH true) as [H1 H2]. specialize (H2 eq_refl).
    destruct b; simpl; [split; [exact H1|intros _; exact H2]|].
    split; [|discriminate].
    destruct (sub_runs is_hyphen (py "-") true s) as [|d r]; [exact I|].
    simpl in H2 |- *. split; [tauto|exact H1].
  - destruct (IH false) as [H1 _]. unfold is_hyphen in Ec. apply N.eqb_neq in Ec.
    split; [|intros _; exact Ec].
    destruct (sub_runs is_hyphen (py "-") false s) as [|d r]; [exact I|].
    split; [tauto|exact H1].
Qed.

Lemma sub_runs_id (p : N -> bool) (rep : pystr) (b : bool) (t : pystr) :
  (forall c, In c t -> p c = false) -> sub_runs p rep b t = t.
Proof.
  revert b. induction t as [|c t IH]; intros b H; [reflexivity|].
  simpl. rewrite (H c (or_introl eq_refl)). f_equal.
  apply IH. intros d Hd. apply H. right. exact Hd.
Qed.

Lemma sub_runs_hyphen_id (b : bool) (t : pystr) :
  no_double_hyphen t -> (b = false \/ hd 0%N t <> 45%N) ->
  sub_runs is_hyphen (py "-") b t = t.
Proof.
  revert b. induction t as [|c t IH]; intros b H Hb; [reflexivity|].
  simpl. unfold is_hyphen at 1. destruct (N.eqb_spec c 45) as [->|Hc].
  - destruct Hb as [->|Hb]; [|contradiction Hb; reflexivity].
    simpl. f_equal. apply IH; [exact (ndh_tail _ _ H)|].
    right. destruct t as [|d t]; [discriminate|]. simpl in H |- *.
    intros ->. apply (proj1 H). split; reflexivity.
  - f_equal. apply IH; [exact (ndh_tail _ _ H)|left; reflexivity].
Qed.

Lemma allowed_range (c : N) :
  ALLOWED_FN c = true -> (97 <= c <= 122 \/ 48 <= c <= 57 \/ c = 45)%N.
Proof.
  unfold ALLOWED_FN. intros H.
  repeat rewrite orb_true_iff in H. repeat rewrite andb_true_iff in H.
  repeat rewrite N.leb_le in H. rewrite N.eqb_eq in H. lia.
Qed.

Lemma lower_allowed (t : pystr) :
  Forall (fun c => ALLOWED_FN c = true) t -> py_lower t = t.
Proof.
  induction 1 as [|c t Hc _ IH]; [reflexivity|].
  unfold py_lower in *. simpl. rewrite IH.
  apply allowed_range in Hc. rewrite lower_fixed by lia. reflexivity.
Qed.

Lemma last_In_cons (c : N) (r : pystr) : In (last (c :: r) c) (c :: r).
Proof.
  destruct (exists_last (l := c :: r) ltac:(discriminate)) as [p [a Hp]].
  rewrite Hp, last_last. apply in_or_app. right. left. reflexivity.
Qed.

(** [safe_filename] is idempotent: the name it returns is returned
    unchanged when passed through it again. *)
Theorem safe_filename_idempotent (j : json) (t : pystr) (H : safe_filename j = Ok t) :
  safe_filename (JStr t) = Ok t.
Proof.
  destruct j as [| | |s| |]; try discriminate H.
  destruct (safe_filename_valid s) as [r [Hr Hv]].
  rewrite H in Hr. apply Ok_inj in Hr. subst r.
  destruct Hv as [Hne [HF [Hhd Hlast]]].
  assert (Hndh : no_double_hyphen t).
  { unfold safe_filename in H. cbn [py_strip bind] in H.
    pose proof (ndh_strip_by is_hyphen _
                  (proj1 (sub_runs_hyphen_ndh false
                     (sub_runs (fun c => negb (ALLOWED_FN c)) (py "-") false
                        (py_lower (strip s)))))) as Hn.
    destruct (strip_by is_hyphen _) as [|c q]; apply Ok_inj in H; subst t;
      [cbn; repeat split; intros [E _]; discriminate E|exact Hn]. }
  rewrite Forall_forall in HF.
  unfold safe_filename. cbn [py_strip bind].
  destruct t as [|c q]; [contradiction Hne; reflexivity|].
  assert (Hsp : forall d, In d (c :: q) -> is_space d = false)
    by (intros d Hd; apply not_space; pose proof (allowed_range d (HF d Hd)); lia).
  unfold strip. rewrite (strip_by_id is_space (c :: q))
    by exact (conj (Hsp c (or_introl eq_refl)) (Hsp _ (last_In_cons c q))).
  rewrite lower_allowed by (apply Forall_forall; exact HF).
  rewrite (sub_runs_id (fun c => negb (ALLOWED_FN c)) (py "-") false (c :: q))
    by (intros d Hd; rewrite (HF d Hd); reflexivity).
  rewrite sub_runs_hyphen_id by (first [exact Hndh|left; reflexivity]).
  rewrite strip_by_id; [reflexivity|].
  simpl in Hhd. rewrite (last_cons_default c q 0%N) in Hlast.
  unfold is_hyphen. exact (conj (proj2 (N.eqb_neq _ _) Hhd) (proj2 (N.eqb_neq _ _) Hlast)).
Qed.

Lemma safe_filename_idempotent_witness :
  safe_filename (JStr (py " About  Us!! ")) = Ok (py "about-us")
  /\ safe_filename (JStr (py "about-us")) = Ok (py "about-us").
Proof.
  split; [reflexivity|].
  exact (safe_filename_idempotent (JStr (py " About  Us!! ")) _ eq_refl).
Defined.

Lemma truncate_idempotent_witness :
  truncate (JStr (py "  Learn more about us ")) 8 = Ok (py "Learn m" ++ [ELLIPSIS])
  /\ truncate (JStr (py "Learn m" ++ [ELLIPSIS])) 8 = Ok (py "Learn m" ++ [ELLIPSIS]).
Proof.
  split; [reflexivity|].
  apply (truncate_idempotent (py "  Learn more about us ")); [lia|reflexivity].
Defined.


Lemma draw_section_frame (x y w : Q) (sec : json) (idx : Z) es y' :
  draw_section x y w sec idx = Ok (es, y') ->
  exists st label h2 h3 h rest body,
    section_type sec = Ok st /\ section_height_for sec = Ok h
    /\ draw_body st {| sx := x; sy := y; sw := w; s_label := label; s_h2 := h2;
                      s_h3 := h3; s_inner_x := (x + inject_Z SECTION_PAD)%Q;
                      s_inner_y := (y + 72)%Q;
                      s_inner_w := (w - 2 * inject_Z SECTION_PAD)%Q |} sec = Ok body
    /\ es = ERect x y w (inject_Z h) "sketch" 14 :: rest ++ body.
Proof.
  intros H. unfold draw_section, SHOW_SEMANTIC_OVERLAY in H. cbv iota beta in H.
  inv_binds. injection H as Hes Hy. subst es y'.
  do 7 eexists. split.
  { unfold section_type.
    match goal with E : py_get sec "type" JNull = _ |- _ => rewrite E end.
    cbn [bind]. eassumption. }
  split; [first [eassumption | reflexivity]|]. split; [eassumption|].
  eapply (eq_trans (y := _ :: [_; _; _] ++ _)); reflexivity.
Qed.

Lemma height_inner (sec : json) (st : pystr) (h : Z)
  (Hst : section_type sec = Ok st) (Hh : section_height_for sec = Ok h) :
  exists ib, _inner_bottom_for_section st sec 0 = Ok ib
    /\ h = Z.max (min_total st) (72 + ib + 8).
Proof.
  unfold section_type in Hst. unfold section_height_for in Hh.
  destruct (py_get sec "type" JNull) as [ty|e]; [|discriminate].
  cbn [bind] in Hst, Hh. rewrite Hst in Hh. cbn [bind] in Hh.
  destruct (_inner_bottom_for_section st sec 0) as [ib|e]; [|discriminate].
  cbn [bind] in Hh. apply Ok_inj in Hh. exists ib. split; [reflexivity|congruence].
Qed.

Lemma ib_hero (sec : json) (ib : Z) :
  _inner_bottom_for_section (py "hero") sec 0 = Ok ib -> ib = 254.
Proof.
  intros Hib. unfold _inner_bottom_for_section in Hib.
  change (canon (JStr (py "hero"))) with (Ok (py "hero") : res pystr) in Hib.
  cbn [bind] in Hib. change (pystr_eqb (py "hero") (py "hero")) with true in Hib.
  cbv iota beta in Hib. apply Ok_inj in Hib. subst ib. reflexivity.
Qed.

Lemma ib_features (sec : json) (ib : Z) :
  _inner_bottom_for_section (py "features") sec 0 = Ok ib -> ib = 154.
Proof.
  intros Hib. unfold _inner_bottom_for_section in Hib.
  change (canon (JStr (py "features"))) with (Ok (py "features") : res pystr) in Hib.
  cbn [bind] in Hib. change (pystr_eqb (py "features") (py "hero")) with false in Hib.
  change (pystr_eqb (py "features") (py "features")) with true in Hib.
  cbv iota beta in Hib. inv_binds. reflexivity.
Qed.

Lemma ib_proof (sec : json) (ib : Z) :
  _inner_bottom_for_section (py "proof") sec 0 = Ok ib -> ib = 104 \/ ib = 124.
Proof.
  intros Hib. unfold _inner_bottom_for_section in Hib.
  change (canon (JStr (py "proof"))) with (Ok (py "proof") : res pystr) in Hib.
  cbn [bind] in Hib.
  change (pystr_eqb (py "proof") (py "hero")) with false in Hib.
  change (pystr_eqb (py "proof") (py "features")) with false in Hib.
  change (pystr_eqb (py "proof") (py "content")) with false in Hib.
  change (pystr_eqb (py "proof") (py "faq")) with false in Hib.
  change (pystr_eqb (py "proof") (py "proof")) with true in Hib.
  cbv iota beta in Hib. inv_binds.
  destruct a as [|? ?]; [|apply Ok_inj in Hib; subst ib; left; reflexivity].
  inv_binds. destruct a as [|? ?]; apply Ok_inj in Hib; subst ib; [left|right]; reflexivity.
Qed.

Lemma ib_cta (sec : json) (st : pystr) (ib : Z) :
  In st (map py ["cta"; "footer-cta"; "cta-section"; "call-to-action"]) ->
  _inner_bottom_for_section st sec 0 = Ok ib -> ib = 142.
Proof.
  intros Hin Hib. simpl in Hin.
  destruct Hin as [<-|[<-|[<-|[<-|[]]]]]; vm_compute in Hib;
    apply Ok_inj in Hib; subst ib; reflexivity.
Qed.

(** The heights of hero, features, proof and call-to-action sections do
    not depend on their content. *)
Theorem fixed_type_heights (sec : json) (st : pystr) (h : Z)
  (Hst : section_type sec = Ok st) (Hh : section_height_for sec = Ok h) :
  (st = py "hero" -> h = 360) /\ (st = py "features" -> h = 260)
  /\ (st = py "proof" -> h = 210)
  /\ (In st (map py ["cta"; "footer-cta"; "cta-section"; "call-to-action"]) -> h = 222).
Proof.
  destruct (height_inner sec st h Hst Hh) as [ib [Hib ->]].
  split; [|split; [|split]].
  - intros ->. rewrite (ib_hero sec ib Hib). reflexivity.
  - intros ->. rewrite (ib_features sec ib Hib). reflexivity.
  - intros ->. destruct (ib_proof sec ib Hib) as [->| ->]; reflexivity.
  - intros Hin. rewrite (ib_cta sec st ib Hin Hib).
    simpl in Hin. destruct Hin as [<-|[<-|[<-|[<-|[]]]]]; reflexivity.
Qed.

Lemma form_fields_length (sec : json) (ff : list json) (fields : list pystr)
  (Hff : find_components sec FORM_FIELD_KINDS = Ok ff)
  (Hf : form_fields sec = Ok fields) :
  List.length fields = (match ff with [] => 3 | _ => Nat.min 6 (List.length ff) end)%nat.
Proof.
  unfold form_fields in Hf. rewrite Hff in Hf. cbn [bind] in Hf.
  destruct (mapM _ (firstn 6 ff)) as [fs|e] eqn:Hm; [|discriminate Hf].
  cbn [bind] in Hf. pose proof (mapM_length _ _ _ Hm) as Hlen.
  rewrite length_firstn in Hlen.
  destruct ff as [|c ff].
  - simpl in Hm. apply Ok_inj in Hm. subst fs. apply Ok_inj in Hf. subst fields. reflexivity.
  - destruct fs as [|f fs]; [simpl in Hlen; discriminate Hlen|].
    apply Ok_inj in Hf. subst fields. exact Hlen.
Qed.

(** The submit button of a form section ends 12 units below the section
    frame when the section has no field-like component or three to five
    of them, and inside the frame otherwise. *)
Theorem form_button_overflow (sec : json) (x y w : Q) (idx : Z)
  (es : list elem) (y' : Q)
  (Hst : section_type sec = Ok (py "form"))
  (Hd : draw_section x y w sec idx = Ok (es, y')) :
  exists ff h lbl bx by_,
    find_components sec FORM_FIELD_KINDS = Ok ff
    /\ section_height_for sec = Ok h
    /\ In (ERect x y w (inject_Z h) "sketch" 14) es
    /\ In (EButton bx by_ 150 34 lbl true) es
    /\ ((ff = [] \/ (3 <= List.length ff <= 5)%nat) -> (by_ + 34 == y + inject_Z h + 12)%Q)
    /\ ((ff <> [] /\ (List.length ff <= 2 \/ 6 <= List.length ff)%nat) ->
        (by_ + 34 <= y + inject_Z h)%Q).
Proof.
  destruct (draw_section_frame x y w sec idx es y' Hd)
    as (st & label & h2 & h3 & h & rest & body & Hst' & Hh & Hb & Hes).
  rewrite Hst in Hst'. apply Ok_inj in Hst'. subst st.
  assert (Hbody : forall c, draw_body (py "form") c sec = draw_form c sec)
    by reflexivity.
  rewrite Hbody in Hb. unfold draw_form in Hb. cbn [s_inner_x s_inner_y s_inner_w] in Hb.
  destruct (form_fields sec) as [fields|e] eqn:Hf; [|discriminate Hb].
  cbn [bind] in Hb.
  destruct (find_components sec FORM_FIELD_KINDS) as [ff|e] eqn:Hff;
    [|unfold form_fields in Hf; rewrite Hff in Hf; discriminate Hf].
  pose proof (form_fields_length sec ff fields Hff Hf) as Hlen.
  rewrite (form_height sec ff Hst Hff) in Hh. apply Ok_inj in Hh. subst h.
  inv_binds.
  set (n := List.length (firstn 5 fields)).
  assert (Hn : n = (match ff with [] => 3 | _ => Nat.min 5 (List.length ff) end)%nat).
  { unfold n. rewrite length_firstn, Hlen. destruct ff; lia. }
  do 5 eexists. split; [reflexivity|]. split; [exact (form_height sec ff Hst Hff)|].
  split; [left; reflexivity|].
  split.
  { right. apply in_or_app. right. apply in_or_app. right. apply in_or_app. right.
    left. reflexivity. }
  assert (Hq : forall u v : Z, (y + 72 + 70 + inject_Z u * 36 + 4 + 34
                                == y + inject_Z (168 + 36 * v) + inject_Z (12 + 36 * (u - v)))%Q).
  { intros u v. unfold Z.sub.
    repeat (rewrite inject_Z_plus || rewrite inject_Z_mult || rewrite inject_Z_opp).
    cbn [inject_Z]. ring. }
  fold n. split.
  - intros Hk. rewrite Hq. 
    assert (Ek : Z.of_nat n = clamp 3 6 (Z.of_nat (List.length ff))).
    { rewrite Hn. unfold clamp. destruct Hk as [->|Hk]; [reflexivity|].
      destruct ff as [|c ff']; [simpl in Hk; lia|]. cbv beta iota. lia. }
    rewrite Ek, Z.sub_diag. reflexivity.
  - intros [Hne Hk]. rewrite Hq.
    assert (Ek : Z.of_nat n - clamp 3 6 (Z.of_nat (List.length ff)) <= -1).
    { rewrite Hn. unfold clamp. destruct ff as [|c ff']; [contradiction|].
      cbv beta iota. lia. }
    rewrite <- (Qplus_0_r (y + inject_Z _)) at 2.
    apply Qplus_le_compat; [apply Qle_refl|].
    change 0%Q with (inject_Z 0). rewrite <- Zle_Qle. lia.
Qed.


Lemma filterM_findM {A : Type} (g : A -> res pystr) (w : pystr) (cs l : list A) :
  filterM (fun c => let* k := g c in Ok (existsb (pystr_eqb k) [w])) cs = Ok l ->
  findM (fun c => let* k := g c in Ok (pystr_eqb k w)) cs = Ok (hd_error l).
Proof.
  revert l. induction cs as [|c cs IH]; intros l H; simpl in H |- *.
  - apply Ok_inj in H. subst l. reflexivity.
  - destruct (g c) as [k|e]; [|discriminate H]. cbn [bind] in H |- *.
    destruct (filterM _ cs) as [ys|e] eqn:E; [|discriminate H]. cbn [bind] in H.
    apply Ok_inj in H. subst l. rewrite orb_false_r.
    destruct (pystr_eqb k w); [reflexivity|]. apply IH. reflexivity.
Qed.

Lemma first_of_kind_find (kind : string) (sec : json) (l : list json)
  (Hk : canon (JStr (py kind)) = Ok (py kind))
  (H : find_components sec [kind] = Ok l) :
  first_of_kind kind sec = Ok (hd_error l).
Proof.
  unfold find_components in H. cbn [mapM] in H. rewrite Hk in H. cbn [bind] in H.
  unfold first_of_kind.
  destruct (components_of sec) as [cs|e]; [|discriminate H]. cbn [bind] in H |- *.
  exact (filterM_findM comp_kind (py kind) cs l H).
Qed.

(** [first_button] and [first_text_like] return the first component that
    [find_components] lists for the kind, or [None] when it lists none. *)
Theorem first_component_agrees (sec : json) (lb lt : list json) :
  (find_components sec ["button"] = Ok lb -> first_button sec = Ok (hd_error lb))
  /\ (find_components sec ["text"] = Ok lt -> first_text_like sec = Ok (hd_error lt)).
Proof.
  split; intros H; apply first_of_kind_find; [reflexivity|exact H|reflexivity|exact H].
Qed.

Definition two_buttons_sec : json :=
  JObj [(py "type", JStr (py "cta"));
        (py "components",
          JList [JObj [(py "type", JStr (py "Text")); (py "label", JStr (py "Hi"))];
                 JObj [(py "type", JStr (py "Button")); (py "label", JStr (py "Go"))];
                 JObj [(py "type", JStr (py " button ")); (py "label", JStr (py "Later"))]])].

Lemma first_component_agrees_witness :
  exists lb lt, find_components two_buttons_sec ["button"] = Ok lb
    /\ find_components two_buttons_sec ["text"] = Ok lt
    /\ List.length lb = 2%nat
    /\ first_button two_buttons_sec = Ok (hd_error lb)
    /\ first_text_like two_buttons_sec = Ok (hd_error lt).
Proof.
  destruct (find_components two_buttons_sec ["button"]) as [lb|e] eqn:Hb;
    [|vm_compute in Hb; discriminate Hb].
  destruct (find_components two_buttons_sec ["text"]) as [lt|e] eqn:Ht;
    [|vm_compute in Ht; discriminate Ht].
  exists lb, lt. split; [reflexivity|]. split; [reflexivity|].
  split; [vm_compute in Hb; apply Ok_inj in Hb; subst lb; reflexivity|].
  destruct (first_component_agrees two_buttons_sec lb lt) as [H1 H2].
  split; [exact (H1 Hb)|exact (H2 Ht)].
Defined.

Lemma nonblank_strs_spec (xs : list json) :
  Forall (fun s => strip s <> []) (nonblank_strs xs).
Proof.
  unfold nonblank_strs. apply Forall_forall. intros s Hs.
  apply in_map_iff in Hs as [x [<- Hx]]. apply filter_In in Hx as [_ Hx].
  intros E. rewrite E in Hx. discriminate Hx.
Qed.

(** [list_items_from_component] raises on a component that is not a
    dict, and otherwise returns only strings that are not blank. *)
Theorem list_items_nonblank (c : json) :
  (is_dict c = false -> list_items_from_component c = Err AttributeError)
  /\ (forall l, list_items_from_component c = Ok l -> Forall (fun s => strip s <> []) l).
Proof.
  split.
  - destruct c; try discriminate; reflexivity.
  - intros l H. unfold list_items_from_component in H.
    destruct (py_get c "items" JNull) as [items|e]; [|discriminate H]. cbn [bind] in H.
    destruct items as [| | | |[|i is]|];
      try (destruct (py_get c "fields" JNull) as [fields|e]; [|discriminate H];
           cbn [bind] in H;
           destruct fields as [| | | |[|f fs]|]; apply Ok_inj in H; subst l;
           first [constructor | apply nonblank_strs_spec]).
    apply Ok_inj in H. subst l. apply nonblank_strs_spec.
Qed.

Lemma list_items_nonblank_witness :
  list_items_from_component (JStr (py "x")) = Err AttributeError
  /\ list_items_from_component
       (JObj [(py "items", JList [JStr (py " "); JStr (py "One"); JInt 2])])
     = Ok [py "One"; py "2"]
  /\ Forall (fun s => strip s <> []) [py "One"; py "2"].
Proof.
  destruct (list_items_nonblank (JStr (py "x"))) as [H1 _].
  destruct (list_items_nonblank
              (JObj [(py "items", JList [JStr (py " "); JStr (py "One"); JInt 2])]))
    as [_ H2].
  split; [exact (H1 eq_refl)|]. split; [reflexivity|].
  exact (H2 _ eq_refl).
Defined.


(** [best_text_for_component] raises on a component that is not a dict;
    otherwise it returns the fallback or a non-empty string without
    surrounding whitespace. *)
Theorem best_text_result (c fb : json) :
  (is_dict c = false -> best_text_for_component c fb = Err AttributeError)
  /\ (forall r, best_text_for_component c fb = Ok r ->
        r = fb \/ exists s, r = JStr s /\ s <> [] /\ strip s = s).
Proof.
  split; [destruct c; try discriminate; reflexivity|].
  intros r H. unfold best_text_for_component in H.
  destruct (py_get c "placeholder" JNull) as [ph0|e]; [|discriminate H]. cbn [bind] in H.
  destruct (py_or ph0 (JStr [])) as [| | |p| |]; try discriminate H.
  cbn [py_strip bind] in H.
  destruct (strip p) as [|q qs] eqn:Ep.
  - destruct (py_get c "label" JNull) as [lab0|e]; [|discriminate H]. cbn [bind] in H.
    destruct (py_or lab0 (JStr [])) as [| | |l| |]; try discriminate H.
    cbn [py_strip bind] in H.
    destruct (strip l) as [|m ms] eqn:El.
    + apply Ok_inj in H. left. symmetry. exact H.
    + apply Ok_inj in H. subst r. right. eexists. split; [reflexivity|].
      split; [discriminate|]. rewrite <- El. apply strip_idem.
  - apply Ok_inj in H. subst r. right. eexists. split; [reflexivity|].
    split; [discriminate|]. rewrite <- Ep. apply strip_idem.
Qed.

Lemma best_text_result_witness :
  best_text_for_component JNull (JStr (py "Field")) = Err AttributeError
  /\ best_text_for_component
       (JObj [(py "placeholder", JStr (py "  ")); (py "label", JStr (py " Email "))])
       (JStr (py "Field")) = Ok (JStr (py "Email"))
  /\ strip (py "Email") = py "Email".
Proof.
  destruct (best_text_result JNull (JStr (py "Field"))) as [H1 _].
  split; [exact (H1 eq_refl)|]. split; [reflexivity|].
  destruct (best_text_result
              (JObj [(py "placeholder", JStr (py "  ")); (py "label", JStr (py " Email "))])
              (JStr (py "Field"))) as [_ H2].
  destruct (H2 _ eq_refl) as [E|[s [E [_ Hs]]]]; [discriminate E|].
  injection E as <-. exact Hs.
Defined.

(** The header links as [place_nav] lays them out from [cursor]
    leftwards: each is the next item, a string, drawn so that it ends at
    the cursor, at or right of [hx + LOGO_W + 22]; the cursor then moves
    [NAV_GAP] left of it. *)
Fixpoint nav_layout_ok (es : list elem) (items : list json) (cursor : Z) : Prop :=
  match es, items with
  | [], _ => True
  | e :: es', item :: items' =>
      exists x s, e = EText (inject_Z x) (inject_Z (hy + 28)) s "nav-link" None
        /\ item = JStr s /\ hx + LOGO_W + 22 <= x
        /\ x + 7 * Z.of_nat (List.length s) = cursor
        /\ nav_layout_ok es' items' (x - NAV_GAP)
  | _ :: _, [] => False
  end.

Theorem place_nav_layout (items : list json) (cursor : Z) (es : list elem)
  (H : place_nav items cursor = Ok es) :
  nav_layout_ok es items cursor.
Proof.
  revert cursor es H. induction items as [|item r IH]; intros cursor es H;
    cbn [place_nav] in H.
  - apply Ok_inj in H. subst es. exact I.
  - destruct (approx_text_width item) as [wd|e] eqn:Ew; [|discriminate H].
    cbn [bind] in H.
    destruct (cursor - wd <? hx + LOGO_W + 22) eqn:Ex;
      [apply Ok_inj in H; subst es; exact I|].
    destruct (as_str item) as [s|e] eqn:Es; [|discriminate H]. cbn [bind] in H.
    destruct (place_nav r (cursor - wd - NAV_GAP)) as [rest|e] eqn:Er; [|discriminate H].
    cbn [bind] in H. apply Ok_inj in H. subst es.
    destruct item as [| | |s'| |]; try discriminate Es. cbn in Es. apply Ok_inj in Es. subst s'.
    unfold approx_text_width in Ew. rewrite py_or_str_empty in Ew. cbn in Ew.
    apply Ok_inj in Ew. subst wd.
    exists (cursor - Z.of_nat (List.length s) * 7), s.
    split; [reflexivity|]. split; [reflexivity|].
    split; [apply Z.ltb_ge in Ex; exact Ex|]. split; [lia|].
    apply IH. exact Er.
Qed.

Lemma place_nav_layout_witness :
  exists es, place_nav (rev DEFAULT_NAV) (cta_x - NAV_RIGHT_GAP) = Ok es
    /\ List.length es = 6%nat
    /\ nav_layout_ok es (rev DEFAULT_NAV) (cta_x - NAV_RIGHT_GAP).
Proof.
  destruct (place_nav (rev DEFAULT_NAV) (cta_x - NAV_RIGHT_GAP)) as [es|e] eqn:H;
    [|vm_compute in H; discriminate H].
  exists es. split; [reflexivity|]. split; [vm_compute in H; apply Ok_inj in H; subst es; reflexivity|].
  exact (place_nav_layout _ _ es H).
Defined.

(** A first call of [nav_from_page_labels] reads "sitemap.json" and
    perhaps the input file, returns a non-empty list and leaves it in the
    cache (the default six links when no file is readable); a second call
    returns the same list and changes nothing. *)
Theorem nav_cache_settles (w : world) (Hc : nav_cache w = None) :
  let '(items, w') := nav_from_page_labels w in
  items <> [] /\ nav_cache w' = Some items /\ files w' = files w /\ clock w' = clock w
  /\ (exists reads, trace w' = trace w ++ reads
        /\ (reads = [ReadFile "sitemap.json"]
            \/ reads = [ReadFile "sitemap.json"; ReadFile INPUT_JSON]))
  /\ nav_from_page_labels w' = (items, w')
  /\ (files w = [] -> items = DEFAULT_NAV).
Proof.
  unfold nav_from_page_labels at 1. rewrite Hc. cbn [load_json fst snd].
  destruct (sitemap_nav _) as [[|c cs]|] eqn:Hs;
    [destruct (page_labels _) as [|l ls] eqn:Hp| |destruct (page_labels _) as [|l ls] eqn:Hp].
  all: cbn [with_cache nav_cache files clock trace].
  all: split; [discriminate|]; split; [reflexivity|]; split; [reflexivity|];
       split; [reflexivity|].
  all: try (split; [eexists; split; [rewrite <- app_assoc; reflexivity|right; reflexivity]|]).
  all: try (split; [eexists; split; [reflexivity|left; reflexivity]|]).
  all: split; [reflexivity|].
  all: intros Hf; rewrite Hf in *; cbn in *; try discriminate; try reflexivity.
Qed.

Definition fresh_world : world :=
  {| nav_cache := None; files := []; clock := py "2026-10-15 09:00"; trace := [] |}.

Lemma nav_cache_settles_witness :
  nav_cache fresh_world = None
  /\ fst (nav_from_page_labels fresh_world) = DEFAULT_NAV
  /\ nav_cache (snd (nav_from_page_labels fresh_world)) = Some DEFAULT_NAV.
Proof.
  pose proof (nav_cache_settles fresh_world eq_refl) as H.
  destruct (nav_from_page_labels fresh_world) as [items w'] eqn:E.
  destruct H as (_ & Hc & _ & _ & _ & _ & Hd).
  specialize (Hd eq_refl). subst items.
  split; [reflexivity|]. split; [reflexivity|]. exact Hc.
Defined.

Lemma mapM_Forall {A B : Type} (f : A -> res B) (P : B -> Prop) (l : list A) (r : list B) :
  (forall x y, f x = Ok y -> P y) -> mapM f l = Ok r -> Forall P r.
Proof.
  intros HP. revert r. induction l as [|a l IH]; intros r H; cbn [mapM] in H.
  - apply Ok_inj in H. subst r. constructor.
  - destruct (f a) as [y|e] eqn:Ey; [|discriminate H]. cbn [bind] in H.
    destruct (mapM f l) as [ys|e] eqn:Es; [|discriminate H]. cbn [bind] in H.
    apply Ok_inj in H. subst r. constructor; [exact (HP a y Ey)|apply IH; reflexivity].
Qed.

(** A features section always draws exactly three cards, whatever the
    number of card items it lists. Card [i] (0, 1, 2) sits at
    [cx = ix + i * (card_w + 16)] with [card_w = (iw - 32) / 3] and is four
    elements: a 140 tall "sketch" frame, its upper-cased title, the body
    text shared by all cards, and a 110 x 30 button with the label shared
    by all cards. *)
Theorem features_three_cards (c : sctx) (sec : json) (es : list elem)
  (H : draw_features c sec = Ok es) :
  let cw := ((s_inner_w c - 2 * 16) / 3)%Q in
  let cx (i : Z) := (s_inner_x c + inject_Z i * (cw + 16))%Q in
  let iy := s_inner_y c in
  exists t0 t1 t2 body lbl,
    es = [ERect (cx 0) iy cw 140 "sketch" 12;
          EText (cx 0 + 12) (iy + 28) (py_upper t0) "small" None;
          EText (cx 0 + 12) (iy + 54) body "small muted" None;
          EButton (cx 0 + 12) (iy + 92) 110 30 lbl false;
          ERect (cx 1) iy cw 140 "sketch" 12;
          EText (cx 1 + 12) (iy + 28) (py_upper t1) "small" None;
          EText (cx 1 + 12) (iy + 54) body "small muted" None;
          EButton (cx 1 + 12) (iy + 92) 110 30 lbl false;
          ERect (cx 2) iy cw 140 "sketch" 12;
          EText (cx 2 + 12) (iy + 28) (py_upper t2) "small" None;
          EText (cx 2 + 12) (iy + 54) body "small muted" None;
          EButton (cx 2 + 12) (iy + 92) 110 30 lbl false].
Proof.
  unfold draw_features in H. inv_binds.
  match goal with E : mapM _ (seq 0 3) = Ok _ |- _ => cbn [seq mapM] in E end.
  inv_binds.
  do 5 eexists. reflexivity.
Qed.

(** The lowest ordinate an element reaches: the bottom edge of a
    rectangle or button, the baseline of a text, the lower end of a
    line. *)
Definition elem_bottom (e : elem) : Q :=
  match e with
  | ERect _ y _ h _ _ => (y + h)%Q
  | EText _ y _ _ _ => y
  | ELine _ y1 _ y2 _ => Qmax y1 y2
  | EButton _ y _ h _ _ => (y + h)%Q
  | ERaw _ => 0%Q
  end.

Lemma Forall_concat' {A : Type} (P : A -> Prop) (ls : list (list A)) :
  Forall (Forall P) ls -> Forall P (List.concat ls).
Proof.
  induction 1 as [|l ls Hl _ IH]; [constructor|]. simpl. apply Forall_app. tauto.
Qed.

Lemma mapM_Forall_in {A B : Type} (f : A -> res B) (P : B -> Prop) (l : list A) (r : list B) :
  (forall x y, In x l -> f x = Ok y -> P y) -> mapM f l = Ok r -> Forall P r.
Proof.
  revert r. induction l as [|a l IH]; intros r HP H; cbn [mapM] in H.
  - apply Ok_inj in H. subst r. constructor.
  - destruct (f a) as [y|e] eqn:Ey; [|discriminate H]. cbn [bind] in H.
    destruct (mapM f l) as [ys|e] eqn:Es; [|discriminate H]. cbn [bind] in H.
    apply Ok_inj in H. subst r. constructor.
    + exact (HP a y (or_introl eq_refl) Ey).
    + apply IH; [intros x z Hx; apply HP; right; exact Hx|reflexivity].
Qed.

Lemma draw_section_head (x y w : Q) (sec : json) (idx : Z) es y' :
  draw_section x y w sec idx = Ok (es, y') ->
  exists st label h2 h3 h t1 t2 t3 body,
    section_type sec = Ok st /\ section_height_for sec = Ok h
    /\ draw_body st {| sx := x; sy := y; sw := w; s_label := label; s_h2 := h2;
                      s_h3 := h3; s_inner_x := (x + inject_Z SECTION_PAD)%Q;
                      s_inner_y := (y + 72)%Q;
                      s_inner_w := (w - 2 * inject_Z SECTION_PAD)%Q |} sec = Ok body
    /\ es = [ERect x y w (inject_Z h) "sketch" 14; EText (x + 16) (y + 28) t1 "h2" None;
             EText (x + 16) (y + 44) t2 "overlay" None;
             EText (x + 16) (y + 60) t3 "small muted" None] ++ body.
Proof.
  intros H. unfold draw_section, SHOW_SEMANTIC_OVERLAY in H. cbv iota beta in H.
  inv_binds. injection H as Hes Hy. subst es y'.
  do 9 eexists. split.
  { unfold section_type.
    match goal with E : py_get sec "type" JNull = _ |- _ => rewrite E end.
    cbn [bind]. eassumption. }
  split; [first [eassumption | reflexivity]|]. split; [eassumption|].
  reflexivity.
Qed.

Lemma hero_inside (c : sctx) (sec : json) (b : list elem) :
  draw_hero c sec = Ok b -> Forall (fun e => elem_bottom e <= s_inner_y c + 280)%Q b.
Proof.
  intros H. unfold draw_hero in H. cbv beta iota zeta in H. inv_binds.
  repeat (apply Forall_app; split) || idtac.
  all: repeat constructor.
  all: destruct a0; repeat constructor; cbn [elem_bottom]; try apply Q.max_lub; lra.
Qed.

Lemma features_inside (c : sctx) (sec : json) (b : list elem) :
  draw_features c sec = Ok b -> Forall (fun e => elem_bottom e <= s_inner_y c + 140)%Q b.
Proof.
  intros H. unfold draw_features in H. inv_binds.
  match goal with E : mapM _ (seq 0 3) = Ok ?r |- _ =>
    apply Forall_concat'; refine (mapM_Forall _ _ _ _ _ E) end.
  intros i y Hy. destruct (truncate _ 20); [|discriminate Hy]. cbn [bind] in Hy.
  apply Ok_inj in Hy. subst y. repeat constructor; cbn [elem_bottom]; lra.
Qed.

Ltac peel_lists :=
  repeat (inv_binds;
    match goal with
    | H : (match ?l with [] => _ | _ :: _ => _ end) = Ok _ |- _ => destruct l
    end).

Lemma proof_inside (c : sctx) (sec : json) (b : list elem) :
  draw_proof c sec = Ok b -> Forall (fun e => elem_bottom e <= s_inner_y c + 90)%Q b.
Proof.
  intros H. unfold draw_proof in H. peel_lists; inv_binds;
    repeat constructor; cbn [elem_bottom]; lra.
Qed.

Lemma cta_inside (c : sctx) (sec : json) (b : list elem) :
  draw_cta c sec = Ok b -> Forall (fun e => elem_bottom e <= s_inner_y c + 124)%Q b.
Proof.
  intros H. unfold draw_cta in H. inv_binds.
  repeat constructor; cbn [elem_bottom]; lra.
Qed.

Lemma rows_bound {A : Type} (f : nat * A -> res (list elem)) (n : nat) (xs : list A)
  (rows : list (list elem)) (B : nat -> Q) (M : Q) :
  (forall i it y, f (i, it) = Ok y -> Forall (fun e => (elem_bottom e <= B i)%Q) y) ->
  (forall i, (i < n)%nat -> (B i <= M)%Q) ->
  mapM f (combine (seq 0 n) xs) = Ok rows ->
  Forall (fun e => (elem_bottom e <= M)%Q) (List.concat rows).
Proof.
  intros HB HM Hm. apply Forall_concat'. refine (mapM_Forall_in _ _ _ _ _ Hm).
  intros [i it] y Hin Hf. apply in_combine_l, in_seq in Hin.
  refine (Forall_impl _ _ (HB i it y Hf)). intros e He.
  exact (Qle_trans _ _ _ He (HM i ltac:(lia))).
Qed.

Lemma Q_of_Z_le (a b : Z) : (a <= b)%Z -> (inject_Z a <= inject_Z b)%Q.
Proof. intros H. rewrite <- Zle_Qle. exact H. Qed.

Lemma row_index_bound (i : nat) (r : Z) :
  (Z.of_nat i + 1 <= r)%Z -> (inject_Z (Z.of_nat i) + 1 <= inject_Z r)%Q.
Proof.
  intros H. apply Q_of_Z_le in H. rewrite inject_Z_plus in H. exact H.
Qed.

Lemma steps_inside (c : sctx) (sec : json) (b : list elem) (r : Z) :
  draw_steps c sec = Ok b -> item_rows sec "list" 3 8 3 = Ok r ->
  Forall (fun e => elem_bottom e <= s_inner_y c + 36 * inject_Z r - 6)%Q b.
Proof.
  intros H Hr. unfold draw_steps in H. unfold item_rows in Hr.
  destruct (find_components sec ["list"]) as [lst|e]; [|discriminate H].
  cbn [bind] in H, Hr.
  assert (Hlen : exists items, (List.length (firstn 8 items) <= Z.to_nat r)%nat /\
            (0 <= r)%Z /\
            bind (mapM (fun '(i, it) =>
               let yy := (s_inner_y c + inject_Z (Z.of_nat i) * 36)%Q in
               let* t := truncate (JStr it) 90 in
               Ok [ERect (s_inner_x c) yy (s_inner_w c) 30 "sketch-dash" 10;
                   EText (s_inner_x c + 14) (yy + 20)
                     (z_text (Z.of_nat (S i)) ++ py ". " ++ t) "small" None])
              (combine (seq 0 (List.length (firstn 8 items))) (firstn 8 items)))
              (fun rows => Ok (List.concat rows)) = Ok b).
  { destruct lst as [|l rest].
    - apply Ok_inj in Hr. subst r. eexists. refine (conj _ (conj _ H)); cbn; lia.
    - destruct (list_items_from_component l) as [items0|e]; [|discriminate H].
      cbn [bind] in H, Hr. destruct items0 as [|it0 its].
      + apply Ok_inj in Hr. subst r. eexists. refine (conj _ (conj _ H)); cbn; lia.
      + apply Ok_inj in Hr. subst r. eexists. refine (conj _ (conj _ H)); [|unfold clamp; lia].
        rewrite length_firstn. unfold clamp. cbn [List.length]. lia. }
  clear H. destruct Hlen as (items & Hn & Hr0 & H).
  destruct (mapM _ _) as [rows|e] eqn:Em; [|discriminate H]. cbn [bind] in H.
  apply Ok_inj in H. subst b.
  refine (rows_bound _ _ _ _ (fun i => s_inner_y c + inject_Z (Z.of_nat i) * 36 + 30)%Q _ _ _ Em).
  - intros i it y Hf. cbv beta iota zeta in Hf. inv_binds.
    repeat constructor; cbn [elem_bottom]; lra.
  - intros i Hi. pose proof (Z2Nat.id r Hr0).
    pose proof (row_index_bound i r ltac:(lia)). lra.
Qed.

Lemma faq_inside (c : sctx) (sec : json) (b : list elem) (r : Z) :
  draw_faq c sec = Ok b -> item_rows sec "accordion" 4 10 4 = Ok r ->
  Forall (fun e => elem_bottom e <= s_inner_y c + 44 * inject_Z r - 10)%Q b.
Proof.
  intros H Hr. unfold draw_faq in H. unfold item_rows in Hr.
  destruct (find_components sec ["accordion"]) as [acc|e]; [|discriminate H].
  cbn [bind] in H, Hr.
  assert (Hlen : exists items, (List.length (firstn 10 items) <= Z.to_nat r)%nat /\
            (0 <= r)%Z /\
            bind (mapM (fun '(i, it) =>
               let yy := (s_inner_y c + inject_Z (Z.of_nat i) * 44)%Q in
               let* t := truncate (JStr it) 100 in
               Ok [ERect (s_inner_x c) yy (s_inner_w c) 34 "sketch-dash" 10;
                   EText (s_inner_x c + 14) (yy + 22) t "small" None])
              (combine (seq 0 (List.length (firstn 10 items))) (firstn 10 items)))
              (fun rows => Ok (List.concat rows)) = Ok b).
  { destruct acc as [|a rest].
    - apply Ok_inj in Hr. subst r. eexists. refine (conj _ (conj _ H)); cbn; lia.
    - destruct (list_items_from_component a) as [items0|e]; [|discriminate H].
      cbn [bind] in H, Hr. destruct items0 as [|it0 its].
      + apply Ok_inj in Hr. subst r. eexists. refine (conj _ (conj _ H)); cbn; lia.
      + apply Ok_inj in Hr. subst r. eexists. refine (conj _ (conj _ H)); [|unfold clamp; lia].
        rewrite length_firstn. unfold clamp. cbn [List.length]. lia. }
  clear H. destruct Hlen as (items & Hn & Hr0 & H).
  destruct (mapM _ _) as [rows|e] eqn:Em; [|discriminate H]. cbn [bind] in H.
  apply Ok_inj in H. subst b.
  refine (rows_bound _ _ _ _ (fun i => s_inner_y c + inject_Z (Z.of_nat i) * 44 + 34)%Q _ _ _ Em).
  - intros i it y Hf. cbv beta iota zeta in Hf. inv_binds.
    repeat constructor; cbn [elem_bottom]; lra.
  - intros i Hi. pose proof (Z2Nat.id r Hr0).
    pose proof (row_index_bound i r ltac:(lia)). lra.
Qed.

Lemma generic_inside (c : sctx) (sec : json) (b : list elem) (comps0 : json) (r : Z) :
  draw_generic c sec = Ok b ->
  py_get sec "components" (JList []) = Ok comps0 ->
  (let comps := py_or comps0 (JList []) in
   if truthy comps then let* n := py_len comps in Ok (Z.min 6 n) else Ok 3) = Ok r ->
  Forall (fun e => elem_bottom e <= s_inner_y c + 44 * inject_Z r - 10)%Q b.
Proof.
  intros H Hc Hr. unfold draw_generic in H. rewrite Hc in H. cbn [bind] in H.
  cbv zeta in H, Hr.
  assert (Hlen : exists shown, (List.length shown <= Z.to_nat r)%nat /\ (0 <= r)%Z /\
            bind (mapM (fun '(i, comp) =>
               let cy := (s_inner_y c + inject_Z (Z.of_nat i) * inject_Z (COMP_H + COMP_GAP))%Q in
               let* lab := best_text_for_component comp (JStr (py "Component")) in
               let* t := truncate lab 95 in
               Ok [ERect (s_inner_x c) cy (s_inner_w c) (inject_Z COMP_H) "sketch-dash" 10;
                   EText (s_inner_x c + 14) (cy + 22) t "small" None])
              (combine (seq 0 (List.length shown)) shown))
              (fun rows => Ok (List.concat rows)) = Ok b).
  { destruct (truthy (py_or comps0 (JList []))) eqn:Et.
    - destruct (py_or comps0 (JList [])) as [| | |s|l|kv]; cbn [slice6 bind py_len] in H, Hr;
        try discriminate H; apply Ok_inj in Hr; subst r.
      + exists (map (fun ch => JStr [ch]) (firstn 6 s)).
        refine (conj _ (conj _ H)); [|lia].
        rewrite length_map, length_firstn. lia.
      + exists (firstn 6 l). refine (conj _ (conj _ H)); [|lia].
        rewrite length_firstn. lia.
    - cbn [slice6 bind] in H. apply Ok_inj in Hr. subst r.
      eexists. refine (conj _ (conj _ H)); cbn; lia. }
  clear H. destruct Hlen as (shown & Hn & Hr0 & H).
  destruct (mapM _ _) as [rows|e] eqn:Em; [|discriminate H]. cbn [bind] in H.
  apply Ok_inj in H. subst b.
  refine (rows_bound _ _ _ _ (fun i => s_inner_y c + inject_Z (Z.of_nat i) * 44 + 34)%Q _ _ _ Em).
  - intros i it y Hf. cbv beta iota zeta in Hf. inv_binds.
    change (inject_Z (COMP_H + COMP_GAP)) with 44%Q.
    change (inject_Z COMP_H) with 34%Q.
    repeat constructor; cbn [elem_bottom]; lra.
  - intros i Hi. pose proof (Z2Nat.id r Hr0).
    pose proof (row_index_bound i r ltac:(lia)). lra.
Qed.

Lemma ib_steps (sec : json) (ib : Z) :
  _inner_bottom_for_section (py "steps") sec 0 = Ok ib ->
  exists r, item_rows sec "list" 3 8 3 = Ok r /\ ib = (r * 36 + 18)%Z.
Proof.
  intros Hib. unfold _inner_bottom_for_section in Hib.
  change (canon (JStr (py "steps"))) with (Ok (py "steps") : res pystr) in Hib.
  cbn [bind] in Hib.
  change (pystr_eqb (py "steps") (py "hero")) with false in Hib.
  change (pystr_eqb (py "steps") (py "features")) with false in Hib.
  change (pystr_eqb (py "steps") (py "content")) with false in Hib.
  change (pystr_eqb (py "steps") (py "faq")) with false in Hib.
  change (pystr_eqb (py "steps") (py "proof")) with false in Hib.
  change (pystr_eqb (py "steps") (py "steps")) with true in Hib.
  cbv iota beta zeta in Hib.
  destruct (item_rows sec "list" 3 8 3) as [r|e]; [|discriminate Hib].
  cbn [bind] in Hib. apply Ok_inj in Hib. exists r. split; [reflexivity|lia].
Qed.

Lemma ib_faq (sec : json) (ib : Z) :
  _inner_bottom_for_section (py "faq") sec 0 = Ok ib ->
  exists r, item_rows sec "accordion" 4 10 4 = Ok r /\ ib = (r * 44 + 10)%Z.
Proof.
  intros Hib. unfold _inner_bottom_for_section in Hib.
  change (canon (JStr (py "faq"))) with (Ok (py "faq") : res pystr) in Hib.
  cbn [bind] in Hib.
  change (pystr_eqb (py "faq") (py "hero")) with false in Hib.
  change (pystr_eqb (py "faq") (py "features")) with false in Hib.
  change (pystr_eqb (py "faq") (py "content")) with false in Hib.
  change (pystr_eqb (py "faq") (py "faq")) with true in Hib.
  cbv iota beta zeta in Hib.
  destruct (item_rows sec "accordion" 4 10 4) as [r|e]; [|discriminate Hib].
  cbn [bind] in Hib. apply Ok_inj in Hib. exists r. split; [reflexivity|lia].
Qed.

Lemma ib_cta5 (sec : json) (st : pystr) (ib : Z) :
  In st (map py ["cta"; "footer-cta"; "footer_cta"; "cta-section"; "call-to-action"]) ->
  _inner_bottom_for_section st sec 0 = Ok ib -> ib = 142%Z.
Proof.
  intros Hin Hib. simpl in Hin.
  destruct Hin as [<-|[<-|[<-|[<-|[<-|[]]]]]]; vm_compute in Hib;
    apply Ok_inj in Hib; subst ib; reflexivity.
Qed.

Lemma pystr_eqb_true (a b : pystr) : pystr_eqb a b = true -> a = b.
Proof. unfold pystr_eqb. destruct (list_eq_dec N.eq_dec a b); congruence. Qed.

Lemma in_strs_true (st : pystr) (l : list string) :
  in_strs st l = true -> exists t, In t l /\ st = py t.
Proof.
  unfold in_strs. rewrite existsb_exists. intros [t [Hin E]].
  exists t. split; [exact Hin|]. exact (pystr_eqb_true _ _ E).
Qed.

Lemma in_strs_cta5 (st : pystr) :
  in_strs st ["cta"; "footer-cta"; "footer_cta"; "cta-section"; "call-to-action"] = true ->
  in_strs st CTA_KINDS = true.
Proof.
  unfold in_strs. rewrite !existsb_exists. intros [t [Hin E]].
  exists t. split; [|exact E]. simpl in Hin |- *. tauto.
Qed.

Lemma min_total_ge (st : pystr) : (160 <= min_total st)%Z.
Proof.
  unfold min_total. destruct (find _ MIN_TOTAL) as [[k v]|] eqn:E; [|lia].
  apply find_some in E. destruct E as [Hin _].
  assert (HF : Forall (fun p : string * Z => (160 <= snd p)%Z) MIN_TOTAL)
    by (repeat constructor; cbn; lia).
  rewrite Forall_forall in HF. exact (HF _ Hin).
Qed.

Lemma ib_generic (sec : json) (st : pystr) (ib : Z)
  (Hc : canon (JStr st) = Ok st)
  (E1 : pystr_eqb st (py "hero") = false) (E2 : pystr_eqb st (py "features") = false)
  (E3 : pystr_eqb st (py "content") = false) (E4 : pystr_eqb st (py "faq") = false)
  (E5 : pystr_eqb st (py "proof") = false) (E6 : pystr_eqb st (py "steps") = false)
  (E7 : pystr_eqb st (py "form") = false) (E8 : in_strs st CTA_KINDS = false)
  (Hib : _inner_bottom_for_section st sec 0 = Ok ib) :
  exists comps0 r, py_get sec "components" (JList []) = Ok comps0
    /\ (let comps := py_or comps0 (JList []) in
        if truthy comps then let* n := py_len comps in Ok (Z.min 6 n) else Ok 3) = Ok r
    /\ ib = (r * 44 + 18)%Z.
Proof.
  assert (E9 : in_strs st ["cta"; "footer-cta"; "footer_cta"; "cta-section";
                           "call-to-action"] = false).
  { destruct (in_strs st ["cta"; "footer-cta"; "footer_cta"; "cta-section";
                          "call-to-action"]) eqn:E; [|reflexivity].
    rewrite (in_strs_cta5 st E) in E8. discriminate E8. }
  unfold _inner_bottom_for_section in Hib. rewrite Hc in Hib. cbn [bind] in Hib.
  rewrite E1, E2, E3, E4, E5, E6, E7, E9 in Hib. cbv iota beta zeta in Hib.
  destruct (py_get sec "components" (JList [])) as [comps0|e]; [|discriminate Hib].
  cbn [bind] in Hib.
  destruct (if truthy (py_or comps0 (JList [])) then _ else _) as [r|e] eqn:Er;
    [|discriminate Hib].
  cbn [bind] in Hib. apply Ok_inj in Hib.
  exists comps0, r. split; [reflexivity|]. split; [exact Er|].
  unfold COMP_H, COMP_GAP in Hib. lia.
Qed.

Lemma frame_Q (y : Q) (a h : Z) : (a <= h)%Z -> (y + inject_Z a <= y + inject_Z h)%Q.
Proof. intros H. apply Q_of_Z_le in H. lra. Qed.

Lemma py_int_nonneg (q : Q) :
  (0 <= q)%Q -> (0 <= inject_Z (py_int q) <= q)%Q.
Proof.
  intros Hq. unfold py_int.
  replace (Qle_bool 0 q) with true by (symmetry; apply Qle_bool_iff; exact Hq).
  split; [|apply Qfloor_le].
  pose proof (Qfloor_resp_le 0 q Hq) as H0. change (Qfloor 0) with 0%Z in H0.
  change 0%Q with (inject_Z 0). apply Q_of_Z_le. exact H0.
Qed.

Lemma bullet_rows_inside (bx cy : Q) (n : Z) (i : nat) (l : list pystr) :
  Forall (fun e => elem_bottom e + 22 <= cy + inject_Z (Z.of_nat (i + List.length l)) * 22)%Q
    (bullet_rows_from bx cy n i l).
Proof.
  revert i. induction l as [|s r IH]; intros i; [constructor|].
  cbn [bullet_rows_from]. constructor.
  - unfold bullet_text. cbn [elem_bottom].
    pose proof (row_index_bound i (Z.of_nat (i + List.length (s :: r))) ltac:(cbn [List.length]; lia)).
    lra.
  - replace (i + List.length (s :: r))%nat with (S i + List.length r)%nat
      by (cbn [List.length]; lia).
    apply IH.
Qed.

Lemma bullet_rows_firstn (bx cy : Q) (n : Z) (rows : nat) (l : list pystr) :
  Forall (fun e => elem_bottom e + 22 <= cy + inject_Z (Z.of_nat rows) * 22)%Q
    (bullet_rows_from bx cy n 0 (firstn rows l)).
Proof.
  refine (Forall_impl _ _ (bullet_rows_inside bx cy n 0 (firstn rows l))).
  intros e He. pose proof (firstn_le_length rows l) as Hle.
  pose proof (Q_of_Z_le (Z.of_nat (0 + List.length (firstn rows l))) (Z.of_nat rows)
                ltac:(lia)).
  lra.
Qed.

Lemma bullet_block_inside (ix iw hy : Q) (raw : list pystr) :
  Forall (fun e => elem_bottom e <= hy + 56 + 22 * inject_Z (clamp 4 12 (Z.of_nat (List.length raw))))%Q
    (bullet_block ix iw hy raw).
Proof.
  unfold bullet_block. cbv zeta.
  destruct (8 <=? List.length raw)%nat eqn:E.
  - apply Nat.leb_le in E.
    set (items := firstn 12 raw).
    set (ln := ((List.length items + 1) / 2)%nat).
    set (rows := Nat.max 4 (Nat.max (List.length (firstn ln items))
                                   (List.length (skipn ln items)))).
    assert (Hrows : (Z.of_nat rows + 2 <= clamp 4 12 (Z.of_nat (List.length raw)))%Z).
    { assert (Hi : List.length items = Nat.min 12 (List.length raw))
        by (unfold items; rewrite length_firstn; lia).
      assert (Hl : (List.length (firstn ln items) <= ln)%nat) by apply firstn_le_length.
      assert (Hr : (List.length (skipn ln items) <= List.length items - ln)%nat)
        by (rewrite length_skipn; lia).
      pose proof (Nat.div_mod_eq (List.length items + 1) 2) as Hd1.
      pose proof (Nat.mod_upper_bound (List.length items + 1) 2 ltac:(discriminate)) as Hd2.
      fold ln in Hd1, Hd2.
      unfold rows, clamp. lia. }
    pose proof (Q_of_Z_le _ _ Hrows) as Hq. rewrite inject_Z_plus in Hq.
    change (inject_Z 2) with 2%Q in Hq.
    pose proof (Q_of_Z_le 0 (Z.of_nat rows) ltac:(lia)) as HR0.
    change (inject_Z 0) with 0%Q in HR0.
    constructor; [cbn [elem_bottom]; apply Q.max_lub; lra|].
    apply Forall_app. split.
    + refine (Forall_impl _ _ (bullet_rows_firstn _ _ _ rows _)). intros e He. lra.
    + refine (Forall_impl _ _ (bullet_rows_firstn _ _ _ rows _)). intros e He. lra.
  - apply Nat.leb_gt in E.
    set (rows := Nat.max 4 (List.length (firstn 10 raw))).
    assert (Hrows : Z.of_nat rows = clamp 4 12 (Z.of_nat (List.length raw)))
      by (unfold rows, clamp; rewrite length_firstn; lia).
    rewrite <- Hrows.
    set (R := inject_Z (Z.of_nat rows)).
    assert (HR : (4 <= R)%Q)
      by (unfold R; change 4%Q with (inject_Z 4); apply Q_of_Z_le; unfold rows; lia).
    set (content_h := (R * 22 + 18)%Q).
    set (img_h := Qmin 240 content_h).
    assert (Himg : (0 <= img_h <= content_h)%Q).
    { unfold img_h. split; [apply Q.min_glb; unfold content_h; lra|apply Q.le_min_r]. }
    set (ph_h := inject_Z (py_int (img_h * (82 # 100)))).
    assert (Hph : (0 <= ph_h <= content_h)%Q).
    { unfold ph_h. destruct (py_int_nonneg (img_h * (82 # 100))) as [H1 H2]; [nra|].
      split; [exact H1|]. nra. }
    constructor; [cbn [elem_bottom]; apply Q.max_lub; unfold content_h; lra|].
    apply Forall_app. split.
    { refine (Forall_impl _ _ (bullet_rows_firstn _ _ _ rows _)). intros e He.
      fold R in He. lra. }
    repeat first [apply Forall_nil | apply Forall_cons]; cbn [elem_bottom]; try apply Q.max_lub; unfold content_h in *. all: clearbody ph_h img_h content_h R; unfold Qdiv; change (Qinv 2) with (1#2); lra.
Qed.

Lemma ib_content (sec : json) (ib : Z) :
  _inner_bottom_for_section (py "content") sec 0 = Ok ib ->
  exists r, item_rows sec "list" 4 12 4 = Ok r /\ (218 + r * 22 <= ib)%Z.
Proof.
  intros Hib. unfold _inner_bottom_for_section in Hib.
  change (canon (JStr (py "content"))) with (Ok (py "content") : res pystr) in Hib.
  cbn [bind] in Hib.
  change (pystr_eqb (py "content") (py "hero")) with false in Hib.
  change (pystr_eqb (py "content") (py "features")) with false in Hib.
  change (pystr_eqb (py "content") (py "content")) with true in Hib.
  cbv iota beta zeta in Hib.
  destruct (item_rows sec "list" 4 12 4) as [r|e]; [|discriminate Hib].
  cbn [bind] in Hib.
  destruct (find_components sec ["text"]) as [texts|e]; [|discriminate Hib].
  cbn [bind] in Hib. apply Ok_inj in Hib. exists r. split; [reflexivity|lia].
Qed.

Lemma content_inside (c : sctx) (sec : json) (b : list elem) (r : Z) :
  draw_content c sec = Ok b -> item_rows sec "list" 4 12 4 = Ok r ->
  Forall (fun e => elem_bottom e <= s_inner_y c + 224 + 22 * inject_Z r)%Q b.
Proof.
  intros H Hr. unfold draw_content in H. unfold item_rows in Hr.
  destruct (find_components sec ["list"]) as [lists|e]; [|discriminate H].
  cbn [bind] in H, Hr.
  assert (Hraw : exists raw,
            (match lists with
             | l :: _ => list_items_from_component l
             | [] => Ok []
             end) = Ok raw /\ r = clamp 4 12 (Z.of_nat (List.length raw))).
  { destruct lists as [|l rest].
    - exists []. split; [reflexivity|]. apply Ok_inj in Hr. subst r. reflexivity.
    - destruct (list_items_from_component l) as [items|e] eqn:Ei.
      + exists items. split; [reflexivity|]. cbn [bind] in Hr.
        destruct items; apply Ok_inj in Hr; subst r; reflexivity.
      + cbn [bind] in H. discriminate H. }
  destruct Hraw as (raw & Hraw & ->).
  inv_binds.
  pose proof (Q_of_Z_le 4 (clamp 4 12 (Z.of_nat (List.length raw))) ltac:(unfold clamp; lia))
    as H4.
  change (inject_Z 4) with 4%Q in H4.
  apply Forall_app. split.
  - repeat first [apply Forall_nil | apply Forall_cons]; cbn [elem_bottom];
      try apply Q.max_lub; lra.
  - refine (Forall_impl _ _ (bullet_block_inside _ _ _ raw)). intros e He. lra.
Qed.

(** Every section other than a form section is drawn inside its own
    frame: no rectangle, button or line of it reaches below the bottom
    edge [y + h] of the section's frame rectangle, and no text baseline
    lies below it. *)
Theorem section_inside_frame (x y w : Q) (sec : json) (idx : Z) (es : list elem) (y' : Q)
  (st : pystr) (h : Z)
  (Hd : draw_section x y w sec idx = Ok (es, y'))
  (Hst : section_type sec = Ok st) (Hh : section_height_for sec = Ok h)
  (Hform : st <> py "form") :
  Forall (fun e => (elem_bottom e <= y + inject_Z h)%Q) es.
Proof.
  destruct (draw_section_head x y w sec idx es y' Hd)
    as (st' & label & h2 & h3 & h' & t1 & t2 & t3 & body & Hst' & Hh' & Hb & ->).
  rewrite Hst in Hst'. apply Ok_inj in Hst'. subst st'.
  rewrite Hh in Hh'. apply Ok_inj in Hh'. subst h'.
  destruct (height_inner sec st h Hst Hh) as [ib [Hib Hheq]].
  pose proof (min_total_ge st) as Hmin.
  assert (Hbody : exists B : Q, Forall (fun e => (elem_bottom e <= B)%Q) body
                                /\ (B <= y + inject_Z h)%Q).
  { unfold draw_body in Hb.
    destruct (pystr_eqb st (py "hero")) eqn:E1.
    { apply pystr_eqb_true in E1. subst st.
      rewrite (ib_hero sec ib Hib) in Hheq.
      pose proof (frame_Q y 352 h ltac:(rewrite Hheq; vm_compute; congruence)).
      eexists. split; [exact (hero_inside _ _ _ Hb)|]. cbn [s_inner_y].
      change (inject_Z 352) with 352%Q in *. lra. }
    destruct (pystr_eqb st (py "features")) eqn:E2.
    { apply pystr_eqb_true in E2. subst st.
      rewrite (ib_features sec ib Hib) in Hheq.
      pose proof (frame_Q y 212 h ltac:(rewrite Hheq; vm_compute; congruence)).
      eexists. split; [exact (features_inside _ _ _ Hb)|]. cbn [s_inner_y].
      change (inject_Z 212) with 212%Q in *. lra. }
    destruct (pystr_eqb st (py "content")) eqn:E3.
    { apply pystr_eqb_true in E3. subst st.
      destruct (ib_content sec ib Hib) as [r [Hr Hle]].
      pose proof (frame_Q y (296 + r * 22) h ltac:(lia)) as Hq.
      rewrite inject_Z_plus, inject_Z_mult in Hq.
      change (inject_Z 296) with 296%Q in Hq. change (inject_Z 22) with 22%Q in Hq.
      eexists. split; [exact (content_inside _ _ _ r Hb Hr)|]. cbn [s_inner_y]. lra. }
    destruct (pystr_eqb st (py "steps")) eqn:E6.
    { apply pystr_eqb_true in E6. subst st.
      destruct (ib_steps sec ib Hib) as [r [Hr ->]].
      pose proof (frame_Q y (66 + r * 36) h ltac:(lia)) as Hq.
      rewrite inject_Z_plus, inject_Z_mult in Hq.
      change (inject_Z 66) with 66%Q in Hq. change (inject_Z 36) with 36%Q in Hq.
      eexists. split; [exact (steps_inside _ _ _ r Hb Hr)|]. cbn [s_inner_y]. lra. }
    destruct (pystr_eqb st (py "proof")) eqn:E5.
    { apply pystr_eqb_true in E5. subst st.
      pose proof (frame_Q y 162 h ltac:(destruct (ib_proof sec ib Hib) as [-> | ->];
                                         rewrite Hheq; vm_compute; congruence)).
      eexists. split; [exact (proof_inside _ _ _ Hb)|]. cbn [s_inner_y].
      change (inject_Z 162) with 162%Q in *. lra. }
    destruct (pystr_eqb st (py "faq")) eqn:E4.
    { apply pystr_eqb_true in E4. subst st.
      destruct (ib_faq sec ib Hib) as [r [Hr ->]].
      pose proof (frame_Q y (62 + r * 44) h ltac:(lia)) as Hq.
      rewrite inject_Z_plus, inject_Z_mult in Hq.
      change (inject_Z 62) with 62%Q in Hq. change (inject_Z 44) with 44%Q in Hq.
      eexists. split; [exact (faq_inside _ _ _ r Hb Hr)|]. cbn [s_inner_y]. lra. }
    destruct (pystr_eqb st (py "form")) eqn:E7.
    { apply pystr_eqb_true in E7. contradiction. }
    destruct (in_strs st CTA_KINDS) eqn:E8.
    { assert (Hh196 : (196 <= h)%Z).
      { destruct (in_strs_true st CTA_KINDS E8) as [t [Ht ->]].
        unfold CTA_KINDS in Ht. simpl in Ht.
        destruct Ht as [<-|[<-|[<-|[<-|[<-|[<-|[<-|[]]]]]]]];
          first [ rewrite (ib_cta5 sec _ ib ltac:(simpl; tauto) Hib) in Hheq; lia
                | rewrite Hheq; eapply Z.le_trans; [|apply Z.le_max_l];
                  apply Z.leb_le; vm_compute; reflexivity ]. }
      pose proof (frame_Q y 196 h Hh196).
      eexists. split; [exact (cta_inside _ _ _ Hb)|]. cbn [s_inner_y].
      change (inject_Z 196) with 196%Q in *. lra. }
    assert (Hc : canon (JStr st) = Ok st).
    { unfold section_type in Hst.
      destruct (py_get sec "type" JNull) as [ty|e]; [|discriminate Hst].
      cbn [bind] in Hst. exact (canon_fixpoint _ _ Hst). }
    destruct (ib_generic sec st ib Hc E1 E2 E3 E4 E5 E6 E7 E8 Hib)
      as (comps0 & r & Hc0 & Hr & ->).
    pose proof (frame_Q y (62 + r * 44) h ltac:(lia)) as Hq.
    rewrite inject_Z_plus, inject_Z_mult in Hq.
    change (inject_Z 62) with 62%Q in Hq. change (inject_Z 44) with 44%Q in Hq.
    eexists. split; [exact (generic_inside _ _ _ comps0 r Hb Hc0 Hr)|]. cbn [s_inner_y]. lra. }
  destruct Hbody as (B & HB & HBle).
  pose proof (frame_Q y 60 h ltac:(lia)) as H60. change (inject_Z 60) with 60%Q in H60.
  apply Forall_app. split.
  - repeat constructor; cbn [elem_bottom]; lra.
  - refine (Forall_impl _ _ HB). intros e He. lra.
Qed.

Definition hero_min : json := JObj [(py "type", JStr (py " Hero "))].

Lemma fixed_type_heights_witness :
  section_type hero_min = Ok (py "hero") /\ section_height_for hero_min = Ok 360.
Proof.
  split; [reflexivity|].
  destruct (section_height_for hero_min) as [h|e] eqn:Hh; [|vm_compute in Hh; discriminate Hh].
  destruct (fixed_type_heights hero_min (py "hero") h eq_refl Hh) as [Hhero _].
  rewrite (Hhero eq_refl). reflexivity.
Defined.

Definition form_three : json :=
  JObj [(py "type", JStr (py "form"));
        (py "components", JList (map input_field ["A"; "B"; "C"]))].

Lemma form_button_overflow_witness :
  exists es y', draw_section 0 0 1092 form_three 0 = Ok (es, y')
    /\ section_height_for form_three = Ok 276
    /\ exists lbl bx by_, In (EButton bx by_ 150 34 lbl true) es /\ (by_ + 34 == 288)%Q.
Proof.
  destruct (draw_section 0 0 1092 form_three 0) as [[es y']|e] eqn:Hd;
    [|vm_compute in Hd; discriminate Hd].
  exists es, y'. split; [reflexivity|].
  destruct (form_button_overflow form_three 0 0 1092 0 es y' eq_refl Hd)
    as (ff & h & lbl & bx & by_ & Hff & Hh & _ & Hin & Hover & _).
  vm_compute in Hff. injection Hff as <-. vm_compute in Hh. injection Hh as <-.
  split; [reflexivity|]. exists lbl, bx, by_. split; [exact Hin|].
  rewrite (Hover (or_intror (conj (le_n 3) (le_S _ _ (le_S _ _ (le_n 3)))))).
  reflexivity.
Defined.

Definition features_demo : json :=
  JObj [(py "type", JStr (py "features"));
        (py "components",
          JList [JObj [(py "type", JStr (py "cards"));
                       (py "items", JList (map (fun t => JStr (py t))
                                             ["One"; "Two"; "Three"; "Four"; "Five"; "Six"]))]])].

Definition features_ctx : sctx :=
  {| sx := 0; sy := 0; sw := 1092; s_label := py "features"; s_h2 := py "Features";
     s_h3 := []; s_inner_x := 18; s_inner_y := 72; s_inner_w := 1056 |}.

Lemma features_three_cards_witness :
  exists es, draw_features features_ctx features_demo = Ok es /\ List.length es = 12%nat.
Proof.
  destruct (draw_features features_ctx features_demo) as [es|e] eqn:Hd;
    [|vm_compute in Hd; discriminate Hd].
  exists es. split; [reflexivity|].
  destruct (features_three_cards features_ctx features_demo es Hd)
    as (t0 & t1 & t2 & body & lbl & ->).
  reflexivity.
Defined.

Definition steps_demo : json :=
  JObj [(py "type", JStr (py "Steps"));
        (py "components",
          JList [JObj [(py "type", JStr (py "list"));
                       (py "items", JList (map (fun t => JStr (py t))
                                             ["Plan"; "Build"; "Test"; "Ship"; "Learn"]))]])].

Lemma section_inside_frame_witness :
  section_type steps_demo = Ok (py "steps") /\ section_height_for steps_demo = Ok 278
  /\ exists es y', draw_section 0 0 1092 steps_demo 0 = Ok (es, y')
       /\ Forall (fun e => (elem_bottom e <= 0 + inject_Z 278)%Q) es.
Proof.
  split; [reflexivity|]. split; [vm_compute; reflexivity|].
  destruct (draw_section 0 0 1092 steps_demo 0) as [[es y']|e] eqn:Hd;
    [|vm_compute in Hd; discriminate Hd].
  exists es, y'. split; [reflexivity|].
  apply (section_inside_frame 0 0 1092 steps_demo 0 es y' (py "steps") 278 Hd);
    [reflexivity|vm_compute; reflexivity|discriminate].
Defined.

Lemma escape_xml_injective_witness :
  escape_xml (py "a<b & 'c'") = py "a&lt;b &amp; &apos;c&apos;"
  /\ py "a<b & 'c'" = py "a<b & 'c'".
Proof.
  split; [reflexivity|].
  exact (escape_xml_injective (py "a<b & 'c'") (py "a<b & 'c'") eq_refl).
Defined.
